(** * Safe Return: the risk engine and the programme timeline

    A shallow embedding of [core/models.py] and [core/risk_engine.py].

    - Model instances are records, one module per model class, with the
      source's field names.  A related object that the engine dereferences
      ([checkin.release_profile], [profile.user],
      [profile.assigned_case_worker]) is the instance itself; one that is only
      stored in a row ([ticket.release_profile], [notification.user]) is its
      primary key.
    - Columns the engine neither reads nor writes (the automatic [id] of
      tickets and notifications, [updated_at], and [created_at] everywhere but
      on check-ins) are left out; a table is the list of its rows in insertion
      order.
    - Python [int] is [Z], [str] is [string] (the bytes of the UTF-8 source),
      [date] is its proleptic ordinal in [Z], [float] is the kernel's binary64.
    - The database is threaded explicitly; an exception leaves the writes made
      before it in place (Django runs in autocommit mode here).
    - Of the constraints of the profile table, those on modelled columns are
      checked when a row is written: NOT NULL on the two dates and UNIQUE on
      [user_id].  The user table is not modelled: the users a profile refers
      to are taken to exist, and primary keys to fit their column. *)

From Stdlib Require Import ZArith String List Bool Lia DecimalString.
From Stdlib Require Import Floats.PrimFloat Floats.FloatOps Floats.SpecFloat.
From Stdlib Require Import Numbers.Cyclic.Int63.Uint63.
From stdpp Require Import base strings gmap.
Import ListNotations.

Open Scope string_scope.
Open Scope list_scope.
Open Scope Z_scope.

(** * The program *)

(** ** Data model ([core/models.py]) *)

Module User.
Record t := mk {
  id : Z;
  national_id : string;
  full_name : string;
  role : string;
  phone : string
}.
End User.

Module ReleaseProfile.
Record t := mk {
  id : Z;
  user : User.t;
  release_date : option Z;
  end_of_followup_date : option Z;
  risk_level : string;
  city : string;
  notes : string;
  assigned_case_worker : option User.t;
  is_completed : bool
}.

(** [self.risk_level = v] *)
Definition set_risk_level (self : t) (v : string) : t :=
  mk (id self) (user self) (release_date self) (end_of_followup_date self)
     v (city self) (notes self) (assigned_case_worker self) (is_completed self).

(** [self.end_of_followup_date = v] *)
Definition set_end_of_followup_date (self : t) (v : option Z) : t :=
  mk (id self) (user self) (release_date self) v
     (risk_level self) (city self) (notes self) (assigned_case_worker self)
     (is_completed self).
End ReleaseProfile.

Module MonthlyCheckin.
Record t := mk {
  release_profile : ReleaseProfile.t;
  month_index : Z;
  housing_status : string;
  job_status : string;
  mental_state : string;
  family_status : string;
  free_text_notes : string;
  created_at : Z
}.

Definition HOUSING_STATUS_CHOICES : list string :=
  ["stable"; "temporary"; "with_family"; "homeless"].
Definition JOB_STATUS_CHOICES : list string :=
  ["employed"; "self_employed"; "searching"; "unemployed"; "training"].
Definition MENTAL_STATE_CHOICES : list string :=
  ["good"; "moderate"; "stressed"; "bad"].
Definition FAMILY_STATUS_CHOICES : list string :=
  ["supportive"; "neutral"; "problematic"; "no_contact"].
End MonthlyCheckin.

Module SupportTicket.
Record t := mk {
  release_profile : Z;
  created_by : option Z;
  ticket_type : string;
  status : string;
  notes : string;
  is_auto_generated : bool
}.
End SupportTicket.

Module Notification.
Record t := mk {
  user : Z;
  message : string;
  link : string;
  is_read : bool
}.
End Notification.

(** ** Python helpers *)

(** [any(conditions)] *)
Definition any (conditions : list bool) : bool :=
  existsb (fun b => b) conditions.

(** [x in xs] on strings *)
Definition str_in (x : string) (xs : list string) : bool :=
  existsb (String.eqb x) xs.

(** [str(n)], as an f-string formats an [int] *)
Definition str (n : Z) : string := NilZero.string_of_int (Z.to_int n).

(** [float(n)]; exact for [|n| < 2^53]. *)
Definition float_of_int (n : Z) : float :=
  if n <? 0 then PrimFloat.opp (PrimFloat.of_uint63 (Uint63.of_Z (- n)))
  else PrimFloat.of_uint63 (Uint63.of_Z n).

(** [int(x)]: truncation toward zero; [None] where Python raises (on an
    infinity or a NaN). *)
Definition int_of_float (x : float) : option Z :=
  match Prim2SF x with
  | S754_zero _ => Some 0
  | S754_finite s m e =>
      let magnitude :=
        match e with
        | Z0 => Zpos m
        | Zpos p => Z.shiftl (Zpos m) (Zpos p)
        | Zneg p => Z.shiftr (Zpos m) (Zpos p)
        end in
      Some (if s then - magnitude else magnitude)
  | S754_infinity _ => None
  | S754_nan => None
  end.

(** The bounds of Python's [date]: [date.min.toordinal()] and
    [date.max.toordinal()]. *)
Definition date_min : Z := 1.
Definition date_max : Z := 3652059.
Definition valid_date (d : Z) : Prop := date_min <= d <= date_max.

(** ** Programme timeline ([ReleaseProfile.current_month],
       [ReleaseProfile.progress_percentage])

    [today] stands for [timezone.now().date()]. *)

Definition current_month (self : ReleaseProfile.t) (today : Z) : Z :=
  match ReleaseProfile.release_date self with
  | None => 0
  | Some release_date =>
      let days_since_release := today - release_date in
      let month := (days_since_release / 30) + 1 in
      Z.min month 12
  end.

Definition progress_percentage (self : ReleaseProfile.t) (today : Z) : option Z :=
  option_map (Z.min 100)
    (int_of_float
       (PrimFloat.mul
          (PrimFloat.div (float_of_int (current_month self today)) (float_of_int 12))
          (float_of_int 100))).

(** ** Risk classifier ([calculate_risk_level]) *)

Definition calculate_risk_level (checkin : MonthlyCheckin.t) : string :=
  let red_conditions :=
    [ String.eqb (MonthlyCheckin.mental_state checkin) "bad";
      String.eqb (MonthlyCheckin.housing_status checkin) "homeless" ] in
  let yellow_conditions :=
    [ String.eqb (MonthlyCheckin.job_status checkin) "unemployed";
      String.eqb (MonthlyCheckin.family_status checkin) "problematic";
      String.eqb (MonthlyCheckin.mental_state checkin) "stressed";
      String.eqb (MonthlyCheckin.family_status checkin) "no_contact" ] in
  if any red_conditions then "red"
  else if any yellow_conditions then "yellow"
  else "green".

(** ** The database and the effects of the engine *)

Record Database := mkDatabase {
  profiles : gmap Z ReleaseProfile.t;
  checkins : list MonthlyCheckin.t;
  tickets : list SupportTicket.t;
  notifications : list Notification.t
}.

Inductive Exception :=
| MultipleObjectsReturned
| KeyError (key : string)
| IntegrityError
| OverflowError.

(** A computation reads and writes the database and returns a value or
    raises; what was written before an exception stays written. *)
Definition M (A : Type) : Type := Database -> Database * (Exception + A).

Definition ret {A : Type} (a : A) : M A := fun db => (db, inr a).

Definition raise {A : Type} (e : Exception) : M A := fun db => (db, inl e).

Definition bind {A B : Type} (m : M A) (k : A -> M B) : M B :=
  fun db =>
    match m db with
    | (db', inr a) => k a db'
    | (db', inl e) => (db', inl e)
    end.

Notation "x <- m ;; k" := (bind m (fun x => k))
  (at level 100, m at next level, right associativity).

(** [d + timedelta(days=days)]: an [OverflowError] when the sum is not a
    date. *)
Definition date_add_days (d days : Z) : M Z :=
  if (date_min <=? d + days) && (d + days <=? date_max) then ret (d + days)
  else raise OverflowError.

(** Another row of the profile table holds the user of [self]: the row
    [self] would break the uniqueness of [user_id] (a [OneToOneField]). *)
Definition user_has_other_profile (self : ReleaseProfile.t) (db : Database) : bool :=
  existsb
    (fun row : Z * ReleaseProfile.t =>
       negb (fst row =? ReleaseProfile.id self)
       && (User.id (ReleaseProfile.user (snd row))
           =? User.id (ReleaseProfile.user self)))
    (map_to_list (profiles db)).

(** [models.Model.save] on a profile: the row is written under the primary
    key, inserted or updated, unless the table refuses it with an
    [IntegrityError]: [release_date] and [end_of_followup_date] are NOT NULL,
    [user_id] is UNIQUE.  A refused write leaves the table as it was. *)
Definition Model_save (self : ReleaseProfile.t) : M ReleaseProfile.t :=
  fun db =>
    match ReleaseProfile.release_date self, ReleaseProfile.end_of_followup_date self with
    | Some _, Some _ =>
        if user_has_other_profile self db then (db, inl IntegrityError)
        else
          (mkDatabase (<[ReleaseProfile.id self := self]> (profiles db))
                      (checkins db) (tickets db) (notifications db),
           inr self)
    | _, _ => (db, inl IntegrityError)
    end.

(** [ReleaseProfile.save]: fills in the end of the follow-up when a release
    date is there and the end is missing, then calls [super().save()]. *)
Definition ReleaseProfile_save (self : ReleaseProfile.t) : M ReleaseProfile.t :=
  self <-
    (match ReleaseProfile.release_date self, ReleaseProfile.end_of_followup_date self with
     | Some release_date, None =>
         end_of_followup_date <- date_add_days release_date 365 ;;
         ret (ReleaseProfile.set_end_of_followup_date self (Some end_of_followup_date))
     | _, _ => ret self
     end) ;;
  Model_save self.

(** The lookup of [SupportTicket.objects.get_or_create(release_profile=...,
    ticket_type=..., status=..., is_auto_generated=...)]. *)
Definition ticket_matches (release_profile : Z) (ticket_type status : string)
    (is_auto_generated : bool) (t : SupportTicket.t) : bool :=
  (SupportTicket.release_profile t =? release_profile)
  && String.eqb (SupportTicket.ticket_type t) ticket_type
  && String.eqb (SupportTicket.status t) status
  && Bool.eqb (SupportTicket.is_auto_generated t) is_auto_generated.

(** [SupportTicket.objects.get_or_create] with the four lookup fields and
    [defaults={'notes': ...}]: the one matching row, or a new row when there
    is none; Django's [get] raises when several rows match. *)
Definition SupportTicket_get_or_create (release_profile : Z)
    (ticket_type status : string) (is_auto_generated : bool) (notes : string)
    : M (SupportTicket.t * bool) :=
  fun db =>
    match List.filter (ticket_matches release_profile ticket_type status is_auto_generated)
                      (tickets db) with
    | [] =>
        let ticket :=
          SupportTicket.mk release_profile None ticket_type status notes
                           is_auto_generated in
        (mkDatabase (profiles db) (checkins db) (tickets db ++ [ticket])
                    (notifications db),
         inr (ticket, true))
    | [ticket] => (db, inr (ticket, false))
    | _ :: _ :: _ => (db, inl MultipleObjectsReturned)
    end.

(** [Notification.objects.create(user=..., message=..., link=...)] *)
Definition Notification_create (user : Z) (message link : string) : M unit :=
  fun db =>
    (mkDatabase (profiles db) (checkins db) (tickets db)
                (notifications db ++ [Notification.mk user message link false]),
     inr tt).

(** ** Case progression ([process_checkin]) *)

Definition risk_messages : gmap string string :=
  <["red" := "🚨 نحتاج للتواصل معك بشكل عاجل. يرجى الانتظار لمكالمة من الأخصائي."]>
  (<["yellow" := "⚠️ هناك بعض المخاوف. سيتواصل معك أخصائي قريباً."]>
  (<["green" := "✅ حالتك مستقرة. استمر على هذا النهج!"]> ∅)).

(** [risk_messages[key]] *)
Definition risk_messages_getitem (key : string) : M string :=
  match risk_messages !! key with
  | Some message => ret message
  | None => raise (KeyError key)
  end.

Record ProcessingResult := mkProcessingResult {
  old_risk_level : string;
  new_risk_level : string;
  risk_changed : bool;
  created_tickets : list SupportTicket.t
}.

Definition process_checkin (checkin : MonthlyCheckin.t) : M ProcessingResult :=
  let profile := MonthlyCheckin.release_profile checkin in
  let new_risk_level := calculate_risk_level checkin in
  let old_risk_level := ReleaseProfile.risk_level profile in
  let profile := ReleaseProfile.set_risk_level profile new_risk_level in
  profile <- ReleaseProfile_save profile ;;
  let created_tickets := [] in
  created_tickets <-
    (if String.eqb (MonthlyCheckin.mental_state checkin) "bad" then
       found <-
         SupportTicket_get_or_create (ReleaseProfile.id profile)
           "psychological" "open" true
           ("إنشاء تلقائي: الحالة النفسية سيئة في الشهر " +:+ str (MonthlyCheckin.month_index checkin)) ;;
       let '(ticket, created) := found in
       if created then
         let created_tickets := created_tickets ++ [ticket] in
         match ReleaseProfile.assigned_case_worker profile with
         | Some case_worker =>
             _ <- Notification_create (User.id case_worker)
                    ("⚠️ تنبيه: "
                     +:+ User.full_name (ReleaseProfile.user profile)
                     +:+ " يحتاج دعم نفسي عاجل")
                    ("/caseworker/profile/" +:+ str (ReleaseProfile.id profile) +:+ "/") ;;
             ret created_tickets
         | None => ret created_tickets
         end
       else ret created_tickets
     else ret created_tickets) ;;
  created_tickets <-
    (if String.eqb (MonthlyCheckin.housing_status checkin) "homeless" then
       found <-
         SupportTicket_get_or_create (ReleaseProfile.id profile)
           "housing" "open" true
           ("إنشاء تلقائي: بدون مأوى في الشهر " +:+ str (MonthlyCheckin.month_index checkin)) ;;
       let '(ticket, created) := found in
       if created then
         let created_tickets := created_tickets ++ [ticket] in
         match ReleaseProfile.assigned_case_worker profile with
         | Some case_worker =>
             _ <- Notification_create (User.id case_worker)
                    ("🏠 تنبيه: "
                     +:+ User.full_name (ReleaseProfile.user profile)
                     +:+ " بدون مأوى")
                    ("/caseworker/profile/" +:+ str (ReleaseProfile.id profile) +:+ "/") ;;
             ret created_tickets
         | None => ret created_tickets
         end
       else ret created_tickets
     else ret created_tickets) ;;
  created_tickets <-
    (if String.eqb (MonthlyCheckin.job_status checkin) "unemployed" then
       found <-
         SupportTicket_get_or_create (ReleaseProfile.id profile)
           "job" "open" true
           ("إنشاء تلقائي: عاطل عن العمل في الشهر " +:+ str (MonthlyCheckin.month_index checkin)) ;;
       let '(ticket, created) := found in
       if created then ret (created_tickets ++ [ticket])
       else ret created_tickets
     else ret created_tickets) ;;
  created_tickets <-
    (if str_in (MonthlyCheckin.family_status checkin) ["problematic"; "no_contact"] then
       found <-
         SupportTicket_get_or_create (ReleaseProfile.id profile)
           "social" "open" true
           ("إنشاء تلقائي: مشكلات عائلية في الشهر " +:+ str (MonthlyCheckin.month_index checkin)) ;;
       let '(ticket, created) := found in
       if created then ret (created_tickets ++ [ticket])
       else ret created_tickets
     else ret created_tickets) ;;
  _ <-
    (if negb (String.eqb new_risk_level old_risk_level) then
       message <- risk_messages_getitem new_risk_level ;;
       Notification_create (User.id (ReleaseProfile.user profile))
         message "/beneficiary/dashboard/"
     else ret tt) ;;
  ret (mkProcessingResult old_risk_level new_risk_level
         (negb (String.eqb old_risk_level new_risk_level))
         created_tickets).

(** ** Risk summary ([get_risk_summary]) *)

(** [Meta.ordering = ['-month_index']] of [MonthlyCheckin]: rows by
    descending month index (the order among equal indices is the
    database's; [unique_together] leaves none within one profile). *)
Fixpoint insert_by_month_index_desc (c : MonthlyCheckin.t)
    (l : list MonthlyCheckin.t) : list MonthlyCheckin.t :=
  match l with
  | [] => [c]
  | x :: l' =>
      if MonthlyCheckin.month_index x <? MonthlyCheckin.month_index c
      then c :: x :: l'
      else x :: insert_by_month_index_desc c l'
  end.

Definition order_by_month_index_desc (l : list MonthlyCheckin.t)
    : list MonthlyCheckin.t :=
  fold_right insert_by_month_index_desc [] l.

(** [profile.checkins]: the check-ins of the profile, in the model's
    default ordering. *)
Definition profile_checkins (profile : ReleaseProfile.t) (db : Database)
    : list MonthlyCheckin.t :=
  order_by_month_index_desc
    (List.filter
       (fun c => ReleaseProfile.id (MonthlyCheckin.release_profile c)
                 =? ReleaseProfile.id profile)
       (checkins db)).

(** [queryset.first()] *)
Definition first {A : Type} (queryset : list A) : option A := head queryset.

Record RiskSummary := mkRiskSummary {
  summary_risk_level : string;
  factors : list string;
  recommendations : list string;
  latest_checkin : option MonthlyCheckin.t
}.

Definition get_risk_summary (profile : ReleaseProfile.t) (db : Database)
    : RiskSummary :=
  match first (profile_checkins profile db) with
  | None =>
      mkRiskSummary "green" [] ["يرجى إكمال أول متابعة شهرية"] None
  | Some latest_checkin =>
      let factors : list string := [] in
      let recommendations : list string := [] in
      let '(factors, recommendations) :=
        if String.eqb (MonthlyCheckin.mental_state latest_checkin) "bad"
        then (factors ++ ["الحالة النفسية سيئة"],
              recommendations ++ ["إحالة للدعم النفسي عبر خط تراحم"])
        else (factors, recommendations) in
      let '(factors, recommendations) :=
        if String.eqb (MonthlyCheckin.housing_status latest_checkin) "homeless"
        then (factors ++ ["بدون مأوى"],
              recommendations ++ ["التنسيق مع جمعية الإسكان الخيري"])
        else (factors, recommendations) in
      let '(factors, recommendations) :=
        if String.eqb (MonthlyCheckin.job_status latest_checkin) "unemployed"
        then (factors ++ ["عاطل عن العمل"],
              recommendations ++ ["عرض فرص العمل المتاحة في المنطقة"])
        else (factors, recommendations) in
      let '(factors, recommendations) :=
        if String.eqb (MonthlyCheckin.family_status latest_checkin) "problematic"
        then (factors ++ ["مشكلات عائلية"],
              recommendations ++ ["جلسة إرشاد أسري"])
        else (factors, recommendations) in
      let '(factors, recommendations) :=
        if String.eqb (MonthlyCheckin.family_status latest_checkin) "no_contact"
        then (factors ++ ["انقطاع التواصل الأسري"],
              recommendations ++ ["محاولة إعادة بناء الروابط الأسرية"])
        else (factors, recommendations) in
      mkRiskSummary (ReleaseProfile.risk_level profile) factors recommendations
                    (Some latest_checkin)
  end.

(** ** The month list of the beneficiary's dashboard
       ([beneficiary_dashboard] in [core/views.py], the months it builds) *)

Module Month.
Record t := mk {
  number : Z;
  checkin : option MonthlyCheckin.t;
  is_current : bool;
  is_past : bool;
  is_future : bool
}.
End Month.

(** [range(a, b)] *)
Definition range (a b : Z) : list Z :=
  map (fun k => a + Z.of_nat k) (seq 0 (Z.to_nat (b - a))).

(** [{c.month_index: c for c in profile.checkins.all()}]: a later row of
    the queryset replaces an earlier one under the same key. *)
Definition checkins_by_month (profile : ReleaseProfile.t) (db : Database)
    : gmap Z MonthlyCheckin.t :=
  fold_left (fun d c => <[MonthlyCheckin.month_index c := c]> d)
            (profile_checkins profile db) ∅.

Definition dashboard_months (profile : ReleaseProfile.t) (db : Database) (today : Z)
    : list Month.t :=
  let checkins := checkins_by_month profile db in
  map (fun i =>
         Month.mk i (checkins !! i)
           (i =? current_month profile today)
           (i <? current_month profile today)
           (i >? current_month profile today))
      (range 1 13).

(** * Vocabulary of the statements *)

(** The open, automatically generated tickets of a case in one category:
    the rows [get_or_create] looks up. *)
Definition open_auto_tickets (db : Database) (profile_id : Z) (category : string)
    : list SupportTicket.t :=
  List.filter (ticket_matches profile_id category "open" true) (tickets db).

(** At most one open automatic ticket for every case and category. *)
Definition at_most_one_open_auto_ticket (db : Database) : Prop :=
  forall profile_id category,
    (length (open_auto_tickets db profile_id category) <= 1)%nat.

(** The rows a run appended to a table. *)
Definition new_tickets (before after : Database) : list SupportTicket.t :=
  skipn (length (tickets before)) (tickets after).

Definition new_notifications (before after : Database) : list Notification.t :=
  skipn (length (notifications before)) (notifications after).

(** The ticket [get_or_create] inserts for the engine. *)
Definition auto_ticket (profile_id : Z) (category notes : string) : SupportTicket.t :=
  SupportTicket.mk profile_id None category "open" notes true.

(** The four rules of the ticket policy: trigger, category and note. *)
Definition psychological_trigger (checkin : MonthlyCheckin.t) : bool :=
  String.eqb (MonthlyCheckin.mental_state checkin) "bad".
Definition housing_trigger (checkin : MonthlyCheckin.t) : bool :=
  String.eqb (MonthlyCheckin.housing_status checkin) "homeless".
Definition job_trigger (checkin : MonthlyCheckin.t) : bool :=
  String.eqb (MonthlyCheckin.job_status checkin) "unemployed".
Definition social_trigger (checkin : MonthlyCheckin.t) : bool :=
  str_in (MonthlyCheckin.family_status checkin) ["problematic"; "no_contact"].

Definition psychological_notes (checkin : MonthlyCheckin.t) : string :=
  "إنشاء تلقائي: الحالة النفسية سيئة في الشهر " +:+ str (MonthlyCheckin.month_index checkin).
Definition housing_notes (checkin : MonthlyCheckin.t) : string :=
  "إنشاء تلقائي: بدون مأوى في الشهر " +:+ str (MonthlyCheckin.month_index checkin).
Definition job_notes (checkin : MonthlyCheckin.t) : string :=
  "إنشاء تلقائي: عاطل عن العمل في الشهر " +:+ str (MonthlyCheckin.month_index checkin).
Definition social_notes (checkin : MonthlyCheckin.t) : string :=
  "إنشاء تلقائي: مشكلات عائلية في الشهر " +:+ str (MonthlyCheckin.month_index checkin).

(** The alerts to the assigned case worker, when there is one. *)
Definition caseworker_link (profile : ReleaseProfile.t) : string :=
  "/caseworker/profile/" +:+ str (ReleaseProfile.id profile) +:+ "/".

Definition psychological_alert (profile : ReleaseProfile.t) : list Notification.t :=
  match ReleaseProfile.assigned_case_worker profile with
  | Some case_worker =>
      [Notification.mk (User.id case_worker)
         ("⚠️ تنبيه: " +:+ User.full_name (ReleaseProfile.user profile)
          +:+ " يحتاج دعم نفسي عاجل")
         (caseworker_link profile) false]
  | None => []
  end.

Definition housing_alert (profile : ReleaseProfile.t) : list Notification.t :=
  match ReleaseProfile.assigned_case_worker profile with
  | Some case_worker =>
      [Notification.mk (User.id case_worker)
         ("🏠 تنبيه: " +:+ User.full_name (ReleaseProfile.user profile)
          +:+ " بدون مأوى")
         (caseworker_link profile) false]
  | None => []
  end.

(** The message to the beneficiary for a tier; [""] stands for a key
    [risk_messages] does not have. *)
Definition risk_message (tier : string) : string :=
  match risk_messages !! tier with
  | Some message => message
  | None => ""
  end.

Definition beneficiary_notification (profile : ReleaseProfile.t) (tier : string)
    : Notification.t :=
  Notification.mk (User.id (ReleaseProfile.user profile)) (risk_message tier)
                  "/beneficiary/dashboard/" false.

(** A rule creates its ticket when it is triggered and the case has no open
    automatic ticket of the category. *)
Definition creates (db : Database) (profile_id : Z) (trigger : bool)
    (category : string) : bool :=
  trigger && match open_auto_tickets db profile_id category with
             | [] => true
             | _ :: _ => false
             end.

Definition when {A : Type} (b : bool) (l : list A) : list A :=
  if b then l else [].

(** The rows of one successful run, in closed form. *)
Definition expected_tickets (checkin : MonthlyCheckin.t) (db : Database)
    : list SupportTicket.t :=
  let pid := ReleaseProfile.id (MonthlyCheckin.release_profile checkin) in
  when (creates db pid (psychological_trigger checkin) "psychological")
       [auto_ticket pid "psychological" (psychological_notes checkin)]
  ++ when (creates db pid (housing_trigger checkin) "housing")
       [auto_ticket pid "housing" (housing_notes checkin)]
  ++ when (creates db pid (job_trigger checkin) "job")
       [auto_ticket pid "job" (job_notes checkin)]
  ++ when (creates db pid (social_trigger checkin) "social")
       [auto_ticket pid "social" (social_notes checkin)].

Definition expected_alerts (checkin : MonthlyCheckin.t) (db : Database)
    : list Notification.t :=
  let profile := MonthlyCheckin.release_profile checkin in
  let pid := ReleaseProfile.id profile in
  when (creates db pid (psychological_trigger checkin) "psychological")
       (psychological_alert profile)
  ++ when (creates db pid (housing_trigger checkin) "housing")
       (housing_alert profile).

Definition expected_beneficiary (checkin : MonthlyCheckin.t) : list Notification.t :=
  let profile := MonthlyCheckin.release_profile checkin in
  when (negb (String.eqb (calculate_risk_level checkin)
                         (ReleaseProfile.risk_level profile)))
       [beneficiary_notification profile (calculate_risk_level checkin)].

(** The row [profile.save()] writes for the case of a check-in. *)
Definition saved_profile (checkin : MonthlyCheckin.t) : ReleaseProfile.t :=
  let profile :=
    ReleaseProfile.set_risk_level (MonthlyCheckin.release_profile checkin)
                                  (calculate_risk_level checkin) in
  match ReleaseProfile.release_date profile, ReleaseProfile.end_of_followup_date profile with
  | Some release_date, None =>
      ReleaseProfile.set_end_of_followup_date profile (Some (release_date + 365))
  | _, _ => profile
  end.

(** The profile has the dates [save] needs: a release date, and, when the
    end of the follow-up is missing, a release date whose 365th day after is
    a date. *)
Definition has_valid_dates (profile : ReleaseProfile.t) : Prop :=
  exists release_date,
    ReleaseProfile.release_date profile = Some release_date
    /\ (ReleaseProfile.end_of_followup_date profile = None ->
        valid_date (release_date + 365)).

(** The profile can be written: it has these dates, and no other row of the
    profile table belongs to its user. *)
Definition can_save (profile : ReleaseProfile.t) (db : Database) : Prop :=
  has_valid_dates profile
  /\ (forall pk row,
        profiles db !! pk = Some row ->
        User.id (ReleaseProfile.user row) = User.id (ReleaseProfile.user profile) ->
        pk = ReleaseProfile.id profile).

(** The profile as [save] writes it: with the end of the follow-up filled
    in when it was missing. *)
Definition with_end_of_followup (self : ReleaseProfile.t) : ReleaseProfile.t :=
  match ReleaseProfile.release_date self, ReleaseProfile.end_of_followup_date self with
  | Some release_date, None =>
      ReleaseProfile.set_end_of_followup_date self (Some (release_date + 365))
  | _, _ => self
  end.

(** The exception [profile.save()] raises, if any. *)
Definition save_error (profile : ReleaseProfile.t) (db : Database) : option Exception :=
  match ReleaseProfile.release_date profile with
  | None => Some IntegrityError
  | Some release_date =>
      if match ReleaseProfile.end_of_followup_date profile with
         | Some _ => false
         | None => negb ((date_min <=? release_date + 365)
                         && (release_date + 365 <=? date_max))
         end
      then Some OverflowError
      else if user_has_other_profile profile db then Some IntegrityError
      else None
  end.

(** Once the profile is saved, [process_checkin] returns exactly when no
    triggered rule finds several open automatic tickets of its category. *)
Definition lookups_unambiguous (checkin : MonthlyCheckin.t) (db : Database) : Prop :=
  let pid := ReleaseProfile.id (MonthlyCheckin.release_profile checkin) in
  (psychological_trigger checkin = true ->
     (length (open_auto_tickets db pid "psychological") <= 1)%nat)
  /\ (housing_trigger checkin = true ->
     (length (open_auto_tickets db pid "housing") <= 1)%nat)
  /\ (job_trigger checkin = true ->
     (length (open_auto_tickets db pid "job") <= 1)%nat)
  /\ (social_trigger checkin = true ->
     (length (open_auto_tickets db pid "social") <= 1)%nat).

(** The same for the ticket policy run on a given profile object. *)
Definition unambiguous_for (checkin : MonthlyCheckin.t) (profile : ReleaseProfile.t)
    (db : Database) : Prop :=
  let pid := ReleaseProfile.id profile in
  (psychological_trigger checkin = true ->
     (length (open_auto_tickets db pid "psychological") <= 1)%nat)
  /\ (housing_trigger checkin = true ->
     (length (open_auto_tickets db pid "housing") <= 1)%nat)
  /\ (job_trigger checkin = true ->
     (length (open_auto_tickets db pid "job") <= 1)%nat)
  /\ (social_trigger checkin = true ->
     (length (open_auto_tickets db pid "social") <= 1)%nat).

(** Two check-ins with the same report content for the same case. *)
Definition same_report (c c' : MonthlyCheckin.t) : Prop :=
  ReleaseProfile.id (MonthlyCheckin.release_profile c)
    = ReleaseProfile.id (MonthlyCheckin.release_profile c')
  /\ MonthlyCheckin.housing_status c = MonthlyCheckin.housing_status c'
  /\ MonthlyCheckin.job_status c = MonthlyCheckin.job_status c'
  /\ MonthlyCheckin.mental_state c = MonthlyCheckin.mental_state c'
  /\ MonthlyCheckin.family_status c = MonthlyCheckin.family_status c'.

(** One section of [process_checkin]'s ticket policy in one step: find or
    create the ticket, alert on creation, collect the created ticket.  The
    lemmas [alerting_section] and [silent_section] relate it to the source's
    text. *)
Definition ensure_ticket (profile_id : Z) (category notes : string)
    (alert : list Notification.t) (created_tickets : list SupportTicket.t)
    : M (list SupportTicket.t) :=
  fun db =>
    match open_auto_tickets db profile_id category with
    | [] =>
        (mkDatabase (profiles db) (checkins db)
                    (tickets db ++ [auto_ticket profile_id category notes])
                    (notifications db ++ alert),
         inr (created_tickets ++ [auto_ticket profile_id category notes]))
    | [_] => (db, inr created_tickets)
    | _ :: _ :: _ => (db, inl MultipleObjectsReturned)
    end.

(** The database after rows are appended to the two tables the policy
    writes. *)
Definition extend (db : Database) (ts : list SupportTicket.t)
    (ns : list Notification.t) : Database :=
  mkDatabase (profiles db) (checkins db) (tickets db ++ ts) (notifications db ++ ns).

(** The ticket policy and the beneficiary notification of [process_checkin],
    section by section. *)
Definition policy (checkin : MonthlyCheckin.t) (profile : ReleaseProfile.t)
    : M (list SupportTicket.t) :=
  created_tickets <-
    (if psychological_trigger checkin
     then ensure_ticket (ReleaseProfile.id profile) "psychological"
            (psychological_notes checkin) (psychological_alert profile) []
     else ret []) ;;
  created_tickets <-
    (if housing_trigger checkin
     then ensure_ticket (ReleaseProfile.id profile) "housing"
            (housing_notes checkin) (housing_alert profile) created_tickets
     else ret created_tickets) ;;
  created_tickets <-
    (if job_trigger checkin
     then ensure_ticket (ReleaseProfile.id profile) "job"
            (job_notes checkin) [] created_tickets
     else ret created_tickets) ;;
  (if social_trigger checkin
   then ensure_ticket (ReleaseProfile.id profile) "social"
          (social_notes checkin) [] created_tickets
   else ret created_tickets).

Definition notify_beneficiary (checkin : MonthlyCheckin.t) : M unit :=
  fun db => (extend db [] (expected_beneficiary checkin), inr tt).

(** ** Sample data *)

Definition beneficiary : User.t :=
  User.mk 1 "1000000001" "Fahd" "beneficiary" "0500000001".

Definition case_worker : User.t :=
  User.mk 2 "2000000002" "Noura" "case_worker" "0500000002".

Definition sample_profile : ReleaseProfile.t :=
  ReleaseProfile.mk 7 beneficiary (Some 739000) (Some 739365) "green" "riyadh" ""
                    (Some case_worker) false.

Definition empty_db : Database := mkDatabase ∅ [] [] [].

(** The report of the spec's scenario: mental state bad, housing temporary,
    unemployed, family problematic. *)
Definition scenario_checkin : MonthlyCheckin.t :=
  MonthlyCheckin.mk sample_profile 1 "temporary" "unemployed" "bad" "problematic" "" 100.

(** ** A run in closed form *)

Definition after_save (checkin : MonthlyCheckin.t) (db : Database) : Database :=
  mkDatabase
    (<[ReleaseProfile.id (saved_profile checkin) := saved_profile checkin]> (profiles db))
    (checkins db) (tickets db) (notifications db).

Definition result_of (checkin : MonthlyCheckin.t) (created : list SupportTicket.t)
    : ProcessingResult :=
  mkProcessingResult
    (ReleaseProfile.risk_level (MonthlyCheckin.release_profile checkin))
    (calculate_risk_level checkin)
    (negb (String.eqb (ReleaseProfile.risk_level (MonthlyCheckin.release_profile checkin))
                      (calculate_risk_level checkin)))
    created.

(** The database a successful run leaves. *)
Definition final_db (checkin : MonthlyCheckin.t) (db : Database) : Database :=
  mkDatabase
    (<[ReleaseProfile.id (MonthlyCheckin.release_profile checkin) := saved_profile checkin]>
       (profiles db))
    (checkins db)
    (tickets db ++ expected_tickets checkin db)
    (notifications db
     ++ expected_alerts checkin db ++ expected_beneficiary checkin).

(** ** The spec's wording, for comparison with the code *)

(** The spec's [current_month]: [floor(days / 30) + 1] clamped to [[1, 12]],
    and [0] without a release date. *)
Definition spec_current_month (release_date : option Z) (today : Z) : Z :=
  match release_date with
  | None => 0
  | Some d => Z.max 1 (Z.min 12 ((today - d) / 30 + 1))
  end.

(** [round(n / d)] for [0 < d], Python's rounding: to the nearest integer,
    ties to the even one. *)
Definition round_half_even (n d : Z) : Z :=
  let q := n / d in
  let r := n mod d in
  if 2 * r <? d then q
  else if d <? 2 * r then q + 1
  else if Z.even q then q else q + 1.

(** The spec's [progress_percentage]: [min(100, round(m / 12 * 100))]. *)
Definition spec_progress_percentage (m : Z) : Z :=
  Z.min 100 (round_half_even (m * 100) 12).

(** What the code computes instead: the quotient truncated toward zero. *)
Definition truncated_percentage (m : Z) : Z :=
  Z.min 100 (Z.quot (m * 100) 12).

(** The least month [current_month] can return on dates Python can
    represent. *)
Definition month_min : Z := (date_min - date_max) / 30 + 1.

(** The float expression of [progress_percentage] at month [m] gives the
    truncated quotient; checked by evaluation over a range of months. *)
Definition percentage_agrees (m : Z) : bool :=
  match option_map (Z.min 100)
          (int_of_float
             (PrimFloat.mul (PrimFloat.div (float_of_int m) (float_of_int 12))
                (float_of_int 100))) with
  | Some v => v =? truncated_percentage m
  | None => false
  end.

Fixpoint percentage_agrees_from (n : nat) (lo : Z) : bool :=
  match n with
  | O => true
  | S k => percentage_agrees lo && percentage_agrees_from k (lo + 1)
  end.

(** A profile released 30 days before day 739030, and one released 31 days
    after day 739000. *)
Definition second_month_profile : ReleaseProfile.t :=
  ReleaseProfile.mk 7 beneficiary (Some 739000) (Some 739365) "green" "riyadh" ""
                    (Some case_worker) false.

Definition future_profile : ReleaseProfile.t :=
  ReleaseProfile.mk 8 beneficiary (Some 739031) (Some 739396) "green" "riyadh" ""
                    None false.

(** A report whose four fields are misspelt. *)
Definition misspelt_checkin : MonthlyCheckin.t :=
  MonthlyCheckin.mk sample_profile 1 "homless" "unemployd" "bad " "Problematic" "" 100.

(** The check-ins of a case, in insertion order. *)
Definition case_checkins (profile : ReleaseProfile.t) (db : Database)
    : list MonthlyCheckin.t :=
  List.filter
    (fun c => ReleaseProfile.id (MonthlyCheckin.release_profile c)
              =? ReleaseProfile.id profile)
    (checkins db).

(** The spec's "most recent report": the check-in submitted last. *)
Fixpoint most_recently_created (l : list MonthlyCheckin.t) : option MonthlyCheckin.t :=
  match l with
  | [] => None
  | c :: l' =>
      match most_recently_created l' with
      | Some c' =>
          if MonthlyCheckin.created_at c <? MonthlyCheckin.created_at c'
          then Some c' else Some c
      | None => Some c
      end
  end.

Definition spec_latest_checkin (profile : ReleaseProfile.t) (db : Database)
    : option MonthlyCheckin.t :=
  most_recently_created (case_checkins profile db).

(** Month 3 was submitted first; month 2 was backfilled afterwards. *)
Definition later_month_checkin : MonthlyCheckin.t :=
  MonthlyCheckin.mk sample_profile 3 "stable" "employed" "good" "supportive" "" 100.

Definition backfilled_checkin : MonthlyCheckin.t :=
  MonthlyCheckin.mk sample_profile 2 "homeless" "unemployed" "bad" "no_contact" "" 200.

Definition backfill_db : Database :=
  mkDatabase ∅ [later_month_checkin; backfilled_checkin] [] [].

(** No open automatic ticket of the case is in the database. *)
Definition no_open_auto_tickets (db : Database) (profile_id : Z) : Prop :=
  forall t, In t (tickets db) ->
    ~ (SupportTicket.release_profile t = profile_id
       /\ SupportTicket.status t = "open"
       /\ SupportTicket.is_auto_generated t = true).

(** [created_tickets] holds a ticket of the category. *)
Definition has_category (category : string) (created : list SupportTicket.t) : bool :=
  existsb (fun t => String.eqb (SupportTicket.ticket_type t) category) created.

(** Notifications addressed to the beneficiary of a case, and those among
    them that link to the beneficiary's dashboard as [process_checkin]'s
    does. *)
Definition to_beneficiary (profile : ReleaseProfile.t) (n : Notification.t) : bool :=
  Notification.user n =? User.id (ReleaseProfile.user profile).

Definition to_beneficiary_dashboard (profile : ReleaseProfile.t) (n : Notification.t)
    : bool :=
  to_beneficiary profile n && String.eqb (Notification.link n) "/beneficiary/dashboard/".

(** A computation that leaves the profile table as it found it, whether it
    returns or raises. *)
Definition keeps_profiles {A : Type} (m : M A) : Prop :=
  forall db, profiles (fst (m db)) = profiles db.

(** The case already has an open automatic psychological ticket and is
    already red; the same bad mental state is reported again. *)
Definition red_profile : ReleaseProfile.t :=
  ReleaseProfile.set_risk_level sample_profile "red".

Definition open_psychological_db : Database :=
  mkDatabase ∅ [] [auto_ticket 7 "psychological" "month 1"] [].

Definition repeated_checkin : MonthlyCheckin.t :=
  MonthlyCheckin.mk red_profile 2 "temporary" "employed" "bad" "supportive" "" 200.

(** ** Vocabulary of the further properties *)

(** A ticket as [get_or_create] inserts it for a case: open, automatic,
    without a creator. *)
Definition is_auto_ticket_of (profile_id : Z) (t : SupportTicket.t) : Prop :=
  SupportTicket.release_profile t = profile_id
  /\ SupportTicket.created_by t = None
  /\ SupportTicket.status t = "open"
  /\ SupportTicket.is_auto_generated t = true.

(** A computation that, whether it returns or raises, only appends tickets
    satisfying [P] and notifications satisfying [Q], and writes nothing
    else. *)
Definition extends_with {A : Type} (P : SupportTicket.t -> Prop)
    (Q : Notification.t -> Prop) (m : M A) : Prop :=
  forall db, exists ts ns,
    fst (m db) = extend db ts ns /\ Forall P ts /\ Forall Q ns.

(** A computation whose only exception is [MultipleObjectsReturned]. *)
Definition raises_only_multiple {A : Type} (m : M A) : Prop :=
  forall db e, snd (m db) = inl e -> e = MultipleObjectsReturned.

(** An unread alert to the assigned case worker of a profile, linking to
    the profile's page. *)
Definition is_caseworker_alert (profile : ReleaseProfile.t) (n : Notification.t) : Prop :=
  (exists w, ReleaseProfile.assigned_case_worker profile = Some w
             /\ Notification.user n = User.id w)
  /\ Notification.link n = caseworker_link profile
  /\ Notification.is_read n = false.

(** A ticket the lookups of the policy for a case never match: of another
    case, not open, or not automatic (created by a case worker). *)
Definition outside_policy (profile_id : Z) (t : SupportTicket.t) : bool :=
  negb ((SupportTicket.release_profile t =? profile_id)
        && String.eqb (SupportTicket.status t) "open"
        && Bool.eqb (SupportTicket.is_auto_generated t) true).

(** The database with more rows in the ticket table. *)
Definition with_tickets (db : Database) (ts : list SupportTicket.t) : Database :=
  mkDatabase (profiles db) (checkins db) (tickets db ++ ts) (notifications db).

(** The check-in object after [process_checkin] ran on it: the call assigns
    [profile.risk_level] on the profile object the check-in holds, and
    [save] may fill in its end of follow-up. *)
Definition after_process (checkin : MonthlyCheckin.t) : MonthlyCheckin.t :=
  MonthlyCheckin.mk (saved_profile checkin)
    (MonthlyCheckin.month_index checkin) (MonthlyCheckin.housing_status checkin)
    (MonthlyCheckin.job_status checkin) (MonthlyCheckin.mental_state checkin)
    (MonthlyCheckin.family_status checkin) (MonthlyCheckin.free_text_notes checkin)
    (MonthlyCheckin.created_at checkin).

(** [process_checkin] on one check-in after another, as the views call it
    for each submission; stops at the first exception. *)
Fixpoint process_all (submissions : list MonthlyCheckin.t) : M (list ProcessingResult) :=
  match submissions with
  | [] => ret []
  | checkin :: rest =>
      r <- process_checkin checkin ;;
      rs <- process_all rest ;;
      ret (r :: rs)
  end.

(** Every row of the profile table and every submitted profile of a user
    belong to one case: what the uniqueness of [user_id] asks of a sequence
    of submissions. *)
Definition one_profile_per_user (db : Database) (submissions : list MonthlyCheckin.t)
    : Prop :=
  (forall pk row c,
     profiles db !! pk = Some row -> In c submissions ->
     User.id (ReleaseProfile.user row)
     = User.id (ReleaseProfile.user (MonthlyCheckin.release_profile c)) ->
     pk = ReleaseProfile.id (MonthlyCheckin.release_profile c))
  /\ (forall c c',
        In c submissions -> In c' submissions ->
        User.id (ReleaseProfile.user (MonthlyCheckin.release_profile c))
        = User.id (ReleaseProfile.user (MonthlyCheckin.release_profile c')) ->
        ReleaseProfile.id (MonthlyCheckin.release_profile c)
        = ReleaseProfile.id (MonthlyCheckin.release_profile c')).

(** Profiles [save] refuses: one without a release date, and one released
    364 days before [date.max] with no end of follow-up; a table in which
    case 9 belongs to the beneficiary of case 7; and a profile whose end of
    follow-up is still to be filled in. *)
Definition undated_profile : ReleaseProfile.t :=
  ReleaseProfile.mk 7 beneficiary None None "green" "riyadh" "" (Some case_worker) false.

Definition late_profile : ReleaseProfile.t :=
  ReleaseProfile.mk 7 beneficiary (Some 3651695) None "green" "riyadh" ""
                    (Some case_worker) false.

Definition second_profile_db : Database :=
  mkDatabase
    (<[9 := ReleaseProfile.mk 9 beneficiary (Some 739000) (Some 739365) "green" "jeddah" ""
              None false]> ∅)
    [] [] [].

Definition new_profile : ReleaseProfile.t :=
  ReleaseProfile.mk 7 beneficiary (Some 739000) None "green" "riyadh" ""
                    (Some case_worker) false.

Definition undated_checkin : MonthlyCheckin.t :=
  MonthlyCheckin.mk undated_profile 1 "stable" "employed" "bad" "supportive" "" 100.

Definition late_checkin : MonthlyCheckin.t :=
  MonthlyCheckin.mk late_profile 1 "stable" "employed" "bad" "supportive" "" 100.

(** Two open automatic psychological tickets for case 7, as after a case
    worker reopens one that had been put in progress. *)
Definition ambiguous_db : Database :=
  mkDatabase ∅ []
    [auto_ticket 7 "psychological" "month 1"; auto_ticket 7 "psychological" "month 2"]
    [].

(** A report with nothing to flag. *)
Definition stable_checkin : MonthlyCheckin.t :=
  MonthlyCheckin.mk sample_profile 4 "stable" "employed" "good" "supportive" "" 300.

(** Tickets the policy for case 7 must not match: a manual open one, an
    automatic one already in progress, an open automatic one of case 8. *)
Definition unrelated_tickets : list SupportTicket.t :=
  [ SupportTicket.mk 7 (Some 2) "psychological" "open" "" false;
    SupportTicket.mk 7 None "psychological" "in_progress" "" true;
    SupportTicket.mk 8 None "psychological" "open" "" true ].

(** The backfilled month 2 is processed while month 3 is in the table. *)
Definition backfill_result : Database * (Exception + ProcessingResult) :=
  process_checkin backfilled_checkin backfill_db.

(** A case without an assigned case worker reports a bad mental state. *)
Definition unassigned_checkin : MonthlyCheckin.t :=
  MonthlyCheckin.mk future_profile 1 "homeless" "employed" "bad" "supportive" "" 100.

(** * Properties *)

(** ** The effect monad *)

Lemma bind_ext {A B : Type} (m m' : M A) (k k' : A -> M B) (db : Database) :
  m db = m' db ->
  (forall a db', k a db' = k' a db') ->
  bind m k db = bind m' k' db.
Proof.
  intros Hm Hk. unfold bind. rewrite Hm.
  destruct (m' db) as [db' [e | a]]; [reflexivity | apply Hk].
Qed.

Lemma bind_returns {A B : Type} (m : M A) (k : A -> M B) (db db' : Database) (b : B) :
  bind m k db = (db', inr b) ->
  exists db1 a, m db = (db1, inr a) /\ k a db1 = (db', inr b).
Proof.
  unfold bind. destruct (m db) as [db1 [e | a]]; intros H.
  - discriminate H.
  - exists db1, a. split; [reflexivity | exact H].
Qed.

(** ** Appending rows *)

Lemma extend_nil (db : Database) : extend db [] [] = db.
Proof. destruct db. unfold extend. simpl. rewrite !app_nil_r. reflexivity. Qed.

Lemma extend_extend (db : Database) ts ns ts' ns' :
  extend (extend db ts ns) ts' ns' = extend db (ts ++ ts') (ns ++ ns').
Proof. unfold extend. simpl. rewrite <- !app_assoc. reflexivity. Qed.

Lemma open_auto_tickets_extend (db : Database) ts ns pid category :
  open_auto_tickets (extend db ts ns) pid category
  = open_auto_tickets db pid category
    ++ List.filter (ticket_matches pid category "open" true) ts.
Proof. unfold open_auto_tickets, extend. simpl. apply List.filter_app. Qed.

Lemma ticket_matches_other_category pid pid' category category' notes :
  String.eqb category' category = false ->
  ticket_matches pid category "open" true (auto_ticket pid' category' notes) = false.
Proof.
  intros H. unfold ticket_matches, auto_ticket. simpl. rewrite H.
  rewrite andb_false_r. reflexivity.
Qed.

Lemma filter_when_other_category (b : bool) pid pid' category category' notes :
  String.eqb category' category = false ->
  List.filter (ticket_matches pid category "open" true)
              (when b [auto_ticket pid' category' notes]) = [].
Proof.
  intros H. destruct b; simpl; [| reflexivity].
  rewrite (ticket_matches_other_category _ _ _ _ _ H). reflexivity.
Qed.

Lemma ticket_matches_auto_ticket pid category notes :
  ticket_matches pid category "open" true (auto_ticket pid category notes) = true.
Proof.
  unfold ticket_matches, auto_ticket. simpl.
  rewrite Z.eqb_refl, String.eqb_refl. reflexivity.
Qed.

(** ** One section of the ticket policy *)

Lemma guarded_ensure_run (trigger : bool) pid category notes alert created db :
  (trigger = true -> (length (open_auto_tickets db pid category) <= 1)%nat) ->
  (if trigger then ensure_ticket pid category notes alert created else ret created) db
  = (extend db (when (creates db pid trigger category) [auto_ticket pid category notes])
               (when (creates db pid trigger category) alert),
     inr (created ++ when (creates db pid trigger category)
                          [auto_ticket pid category notes])).
Proof.
  intros Hle. unfold creates. destruct trigger; simpl.
  - unfold ensure_ticket.
    destruct (open_auto_tickets db pid category) as [| t [| t' l]] eqn:E; simpl.
    + reflexivity.
    + rewrite extend_nil, app_nil_r. reflexivity.
    + specialize (Hle eq_refl). simpl in Hle. lia.
  - rewrite extend_nil, app_nil_r. reflexivity.
Qed.

Lemma guarded_ensure_returns (trigger : bool) pid category notes alert created db db' r :
  (if trigger then ensure_ticket pid category notes alert created else ret created) db
  = (db', inr r) ->
  trigger = true -> (length (open_auto_tickets db pid category) <= 1)%nat.
Proof.
  intros H Ht. subst trigger. unfold ensure_ticket in H.
  destruct (open_auto_tickets db pid category) as [| t [| t' l]]; simpl.
  - lia.
  - lia.
  - discriminate H.
Qed.

Lemma when_nil {A : Type} (b : bool) : when b (@nil A) = [].
Proof. destruct b; reflexivity. Qed.

Lemma open_auto_tickets_extend_other db (b : bool) pid' category' notes ns pid category :
  String.eqb category' category = false ->
  open_auto_tickets (extend db (when b [auto_ticket pid' category' notes]) ns) pid category
  = open_auto_tickets db pid category.
Proof.
  intros H. rewrite open_auto_tickets_extend.
  rewrite (filter_when_other_category _ _ _ _ _ _ H). apply app_nil_r.
Qed.

Lemma creates_extend_other db (b : bool) pid' category' notes ns pid trigger category :
  String.eqb category' category = false ->
  creates (extend db (when b [auto_ticket pid' category' notes]) ns) pid trigger category
  = creates db pid trigger category.
Proof.
  intros H. unfold creates.
  rewrite (open_auto_tickets_extend_other _ _ _ _ _ _ _ _ H). reflexivity.
Qed.

Lemma bind_run {A B : Type} (m : M A) (k : A -> M B) (db db1 : Database) (a : A) :
  m db = (db1, inr a) -> bind m k db = k a db1.
Proof. intros H. unfold bind. rewrite H. reflexivity. Qed.

(** ** The ticket policy as a whole *)

Section Policy.

Variable checkin : MonthlyCheckin.t.
Variable profile : ReleaseProfile.t.
Variable db : Database.

Let pid := ReleaseProfile.id profile.
Let T1 := when (creates db pid (psychological_trigger checkin) "psychological")
               [auto_ticket pid "psychological" (psychological_notes checkin)].
Let T2 := when (creates db pid (housing_trigger checkin) "housing")
               [auto_ticket pid "housing" (housing_notes checkin)].
Let T3 := when (creates db pid (job_trigger checkin) "job")
               [auto_ticket pid "job" (job_notes checkin)].
Let T4 := when (creates db pid (social_trigger checkin) "social")
               [auto_ticket pid "social" (social_notes checkin)].
Let A1 := when (creates db pid (psychological_trigger checkin) "psychological")
               (psychological_alert profile).
Let A2 := when (creates db pid (housing_trigger checkin) "housing")
               (housing_alert profile).

Lemma policy_run :
  unambiguous_for checkin profile db ->
  policy checkin profile db
  = (extend db (T1 ++ T2 ++ T3 ++ T4) (A1 ++ A2), inr (T1 ++ T2 ++ T3 ++ T4)).
Proof.
  intros (H1 & H2 & H3 & H4). unfold policy.
  erewrite bind_run; [| apply guarded_ensure_run; exact H1].
  erewrite bind_run;
    [| apply guarded_ensure_run;
       rewrite open_auto_tickets_extend_other by reflexivity; exact H2].
  rewrite creates_extend_other by reflexivity.
  erewrite bind_run;
    [| apply guarded_ensure_run;
       rewrite !open_auto_tickets_extend_other by reflexivity; exact H3].
  rewrite !creates_extend_other by reflexivity.
  rewrite guarded_ensure_run;
    [| rewrite !open_auto_tickets_extend_other by reflexivity; exact H4].
  rewrite !creates_extend_other by reflexivity.
  rewrite !extend_extend. fold pid T1 T2 T3 T4 A1 A2.
  rewrite !when_nil, !app_nil_r, <- !app_assoc. reflexivity.
Qed.

Lemma policy_returns db' r :
  policy checkin profile db = (db', inr r) -> unambiguous_for checkin profile db.
Proof.
  unfold policy. intros H.
  apply bind_returns in H as (db1 & c1 & E1 & H).
  pose proof (guarded_ensure_returns _ _ _ _ _ _ _ _ _ E1) as H1.
  rewrite (guarded_ensure_run _ _ _ _ _ _ _ H1) in E1. injection E1 as <- <-.
  apply bind_returns in H as (db2 & c2 & E2 & H).
  pose proof (guarded_ensure_returns _ _ _ _ _ _ _ _ _ E2) as H2.
  rewrite (guarded_ensure_run _ _ _ _ _ _ _ H2) in E2. injection E2 as <- <-.
  apply bind_returns in H as (db3 & c3 & E3 & H).
  pose proof (guarded_ensure_returns _ _ _ _ _ _ _ _ _ E3) as H3.
  rewrite (guarded_ensure_run _ _ _ _ _ _ _ H3) in E3. injection E3 as <- <-.
  pose proof (guarded_ensure_returns _ _ _ _ _ _ _ _ _ H) as H4.
  rewrite open_auto_tickets_extend_other in H2 by reflexivity.
  rewrite !open_auto_tickets_extend_other in H3 by reflexivity.
  rewrite !open_auto_tickets_extend_other in H4 by reflexivity.
  repeat split; assumption.
Qed.

End Policy.

(** ** [process_checkin], section by section *)

Lemma bind_assoc {A B C : Type} (m : M A) (k : A -> M B) (k' : B -> M C) (db : Database) :
  bind (bind m k) k' db = bind m (fun a => bind (k a) k') db.
Proof.
  unfold bind. destruct (m db) as [db1 [e | a]]; reflexivity.
Qed.

Lemma alerting_section (trigger : bool) pid category notes
    (assigned : option User.t) (message link : string) created db :
  (if trigger then
     found <- SupportTicket_get_or_create pid category "open" true notes ;;
     let '(ticket, was_created) := found in
     if was_created then
       let created_tickets := created ++ [ticket] in
       match assigned with
       | Some case_worker =>
           _ <- Notification_create (User.id case_worker) message link ;;
           ret created_tickets
       | None => ret created_tickets
       end
     else ret created
   else ret created) db
  = (if trigger then
       ensure_ticket pid category notes
         match assigned with
         | Some case_worker => [Notification.mk (User.id case_worker) message link false]
         | None => []
         end created
     else ret created) db.
Proof.
  destruct trigger; [| reflexivity].
  unfold bind, ensure_ticket, SupportTicket_get_or_create, open_auto_tickets.
  destruct (List.filter _ (tickets db)) as [| t [| t' l]]; try reflexivity.
  destruct assigned as [w |]; unfold Notification_create, ret, auto_ticket; simpl.
  - reflexivity.
  - rewrite app_nil_r. reflexivity.
Qed.

Lemma silent_section (trigger : bool) pid category notes created db :
  (if trigger then
     found <- SupportTicket_get_or_create pid category "open" true notes ;;
     let '(ticket, was_created) := found in
     if was_created then ret (created ++ [ticket]) else ret created
   else ret created) db
  = (if trigger then ensure_ticket pid category notes [] created else ret created) db.
Proof.
  destruct trigger; [| reflexivity].
  unfold bind, ensure_ticket, SupportTicket_get_or_create, open_auto_tickets.
  destruct (List.filter _ (tickets db)) as [| t [| t' l]]; try reflexivity.
  unfold ret, auto_ticket; simpl. rewrite app_nil_r. reflexivity.
Qed.

Lemma calculate_risk_level_cases (checkin : MonthlyCheckin.t) :
  calculate_risk_level checkin = "red"
  \/ calculate_risk_level checkin = "yellow"
  \/ calculate_risk_level checkin = "green".
Proof.
  unfold calculate_risk_level.
  destruct (any _); [left; reflexivity |].
  destruct (any _); [right; left; reflexivity | right; right; reflexivity].
Qed.

Lemma risk_messages_getitem_tier (checkin : MonthlyCheckin.t) :
  risk_messages_getitem (calculate_risk_level checkin)
  = ret (risk_message (calculate_risk_level checkin)).
Proof.
  unfold risk_messages_getitem, risk_message.
  destruct (calculate_risk_level_cases checkin) as [-> | [-> | ->]];
    vm_compute; reflexivity.
Qed.

Ltac saved_profile_cases checkin :=
  unfold saved_profile; simpl;
  destruct (ReleaseProfile.release_date (MonthlyCheckin.release_profile checkin));
  destruct (ReleaseProfile.end_of_followup_date (MonthlyCheckin.release_profile checkin));
  reflexivity.

Lemma saved_profile_id (checkin : MonthlyCheckin.t) :
  ReleaseProfile.id (saved_profile checkin)
  = ReleaseProfile.id (MonthlyCheckin.release_profile checkin).
Proof.
  saved_profile_cases checkin.
Qed.

Lemma saved_profile_user (checkin : MonthlyCheckin.t) :
  ReleaseProfile.user (saved_profile checkin)
  = ReleaseProfile.user (MonthlyCheckin.release_profile checkin).
Proof.
  saved_profile_cases checkin.
Qed.

Lemma saved_profile_assigned_case_worker (checkin : MonthlyCheckin.t) :
  ReleaseProfile.assigned_case_worker (saved_profile checkin)
  = ReleaseProfile.assigned_case_worker (MonthlyCheckin.release_profile checkin).
Proof.
  saved_profile_cases checkin.
Qed.

Lemma saved_profile_risk_level (checkin : MonthlyCheckin.t) :
  ReleaseProfile.risk_level (saved_profile checkin) = calculate_risk_level checkin.
Proof.
  saved_profile_cases checkin.
Qed.

Lemma beneficiary_section (checkin : MonthlyCheckin.t) (db : Database) :
  (if negb (String.eqb (calculate_risk_level checkin)
              (ReleaseProfile.risk_level (MonthlyCheckin.release_profile checkin)))
   then
     message <- risk_messages_getitem (calculate_risk_level checkin) ;;
     Notification_create (User.id (ReleaseProfile.user (saved_profile checkin)))
       message "/beneficiary/dashboard/"
   else ret tt) db
  = notify_beneficiary checkin db.
Proof.
  unfold notify_beneficiary, expected_beneficiary, beneficiary_notification.
  rewrite risk_messages_getitem_tier, saved_profile_user.
  destruct (negb _); simpl.
  - unfold bind, ret, Notification_create, extend. simpl.
    rewrite app_nil_r. reflexivity.
  - rewrite extend_nil. reflexivity.
Qed.

(** *** Saving the profile *)

Lemma user_has_other_profile_false (profile : ReleaseProfile.t) (db : Database) :
  user_has_other_profile profile db = false
  <-> (forall pk row,
         profiles db !! pk = Some row ->
         User.id (ReleaseProfile.user row) = User.id (ReleaseProfile.user profile) ->
         pk = ReleaseProfile.id profile).
Proof.
  unfold user_has_other_profile. split.
  - intros H pk row Hrow Hu.
    destruct (Z.eq_dec pk (ReleaseProfile.id profile)) as [E | Hne]; [exact E | exfalso].
    apply not_true_iff_false in H. apply H.
    apply existsb_exists. exists (pk, row). split.
    + apply list_elem_of_In, elem_of_map_to_list. exact Hrow.
    + simpl. apply andb_true_iff. split.
      * apply negb_true_iff, Z.eqb_neq. exact Hne.
      * apply Z.eqb_eq. exact Hu.
  - intros H. apply not_true_iff_false. intros E.
    apply existsb_exists in E as ([pk row] & Hin & Hb).
    apply list_elem_of_In, elem_of_map_to_list in Hin.
    simpl in Hb. apply andb_true_iff in Hb as [Hne Hu].
    apply negb_true_iff, Z.eqb_neq in Hne. apply Z.eqb_eq in Hu.
    apply Hne. exact (H pk row Hin Hu).
Qed.

Lemma user_has_other_profile_true (profile : ReleaseProfile.t) (db : Database) :
  user_has_other_profile profile db = true
  <-> (exists pk row,
         profiles db !! pk = Some row
         /\ pk <> ReleaseProfile.id profile
         /\ User.id (ReleaseProfile.user row) = User.id (ReleaseProfile.user profile)).
Proof.
  unfold user_has_other_profile. rewrite existsb_exists. split.
  - intros ([pk row] & Hin & Hb).
    apply list_elem_of_In, elem_of_map_to_list in Hin.
    simpl in Hb. apply andb_true_iff in Hb as [Hne Hu].
    apply negb_true_iff, Z.eqb_neq in Hne. apply Z.eqb_eq in Hu.
    exists pk, row. repeat split; assumption.
  - intros (pk & row & Hrow & Hne & Hu). exists (pk, row). split.
    + apply list_elem_of_In, elem_of_map_to_list. exact Hrow.
    + simpl. apply andb_true_iff. split.
      * apply negb_true_iff, Z.eqb_neq. exact Hne.
      * apply Z.eqb_eq. exact Hu.
Qed.

Lemma in_date_range (d : Z) :
  (date_min <=? d) && (d <=? date_max) = true <-> valid_date d.
Proof.
  unfold valid_date. rewrite andb_true_iff, !Z.leb_le. reflexivity.
Qed.

Lemma save_error_None (profile : ReleaseProfile.t) (db : Database) :
  save_error profile db = None <-> can_save profile db.
Proof.
  unfold save_error, can_save, has_valid_dates.
  rewrite <- user_has_other_profile_false.
  destruct (ReleaseProfile.release_date profile) as [d |].
  - destruct (ReleaseProfile.end_of_followup_date profile) as [e |].
    + destruct (user_has_other_profile profile db); split.
      * discriminate.
      * intros [_ H]. discriminate H.
      * intros _. split; [| reflexivity]. exists d. split; [reflexivity | discriminate].
      * reflexivity.
    + destruct ((date_min <=? d + 365) && (d + 365 <=? date_max)) eqn:Er; simpl.
      * apply in_date_range in Er.
        destruct (user_has_other_profile profile db); split.
        -- discriminate.
        -- intros [_ H]. discriminate H.
        -- intros _. split; [| reflexivity]. exists d. split; [reflexivity | intros _; exact Er].
        -- reflexivity.
      * split; [discriminate |]. intros [(d' & Hd & Hr) _].
        injection Hd as <-. apply in_date_range in Hr; [| reflexivity].
        rewrite Hr in Er. discriminate Er.
  - split; [discriminate |]. intros [(d & Hd & _) _]. discriminate Hd.
Qed.

Lemma save_error_cases (profile : ReleaseProfile.t) (db : Database) (e : Exception) :
  save_error profile db = Some e -> e = IntegrityError \/ e = OverflowError.
Proof.
  unfold save_error.
  destruct (ReleaseProfile.release_date profile) as [d |];
    [| intros H; injection H as <-; left; reflexivity].
  destruct (match ReleaseProfile.end_of_followup_date profile with
            | Some _ => false
            | None => _
            end);
    [intros H; injection H as <-; right; reflexivity |].
  destruct (user_has_other_profile profile db);
    [intros H; injection H as <-; left; reflexivity | discriminate].
Qed.

Lemma save_error_profiles (profile : ReleaseProfile.t) (db db' : Database) :
  profiles db' = profiles db -> save_error profile db' = save_error profile db.
Proof.
  intros H. unfold save_error, user_has_other_profile. rewrite H. reflexivity.
Qed.

Lemma not_can_save (profile : ReleaseProfile.t) (db : Database) :
  ~ can_save profile db <-> exists e, save_error profile db = Some e.
Proof.
  rewrite <- save_error_None.
  destruct (save_error profile db) as [e |]; split.
  - intros _. exists e. reflexivity.
  - intros _. discriminate.
  - intros H. exfalso. apply H. reflexivity.
  - intros [e H]. discriminate H.
Qed.

(** [profile.save()] as [process_checkin] calls it. *)
Lemma ReleaseProfile_save_run (checkin : MonthlyCheckin.t) (db : Database) :
  ReleaseProfile_save
    (ReleaseProfile.set_risk_level (MonthlyCheckin.release_profile checkin)
                                   (calculate_risk_level checkin)) db
  = match save_error (MonthlyCheckin.release_profile checkin) db with
    | Some e => (db, inl e)
    | None => (after_save checkin db, inr (saved_profile checkin))
    end.
Proof.
  unfold ReleaseProfile_save, save_error, after_save, saved_profile, bind,
    date_add_days, Model_save, user_has_other_profile.
  destruct (MonthlyCheckin.release_profile checkin) as [i u rd ed rl c n a ic]. simpl.
  destruct rd as [d |], ed as [e |]; simpl; try reflexivity.
  - destruct (existsb _ _); reflexivity.
  - destruct ((date_min <=? d + 365) && (d + 365 <=? date_max)); simpl; [| reflexivity].
    destruct (existsb _ _); reflexivity.
Qed.

Lemma bind_fails {A B : Type} (m : M A) (k : A -> M B) (db db1 : Database)
    (e : Exception) :
  m db = (db1, inl e) -> bind m k db = (db1, inl e).
Proof. intros H. unfold bind. rewrite H. reflexivity. Qed.

(** [process_checkin] is the save, then the ticket policy, then the
    beneficiary's notification. *)
Lemma process_checkin_sections (checkin : MonthlyCheckin.t) (db : Database) :
  process_checkin checkin db
  = match save_error (MonthlyCheckin.release_profile checkin) db with
    | Some e => (db, inl e)
    | None =>
        bind (policy checkin (saved_profile checkin))
             (fun created_tickets =>
                bind (notify_beneficiary checkin)
                     (fun _ => ret (result_of checkin created_tickets)))
             (after_save checkin db)
    end.
Proof.
  unfold process_checkin.
  pose proof (ReleaseProfile_save_run checkin db) as Hsave.
  destruct (save_error (MonthlyCheckin.release_profile checkin) db) as [e |].
  { apply bind_fails. exact Hsave. }
  rewrite (bind_run _ _ db (after_save checkin db) (saved_profile checkin))
    by exact Hsave.
  unfold policy. rewrite bind_assoc.
  apply bind_ext; [etransitivity; [apply alerting_section | reflexivity] | intros c1 db1].
  rewrite bind_assoc.
  apply bind_ext; [etransitivity; [apply alerting_section | reflexivity] | intros c2 db2].
  rewrite bind_assoc.
  apply bind_ext; [etransitivity; [apply silent_section | reflexivity] | intros c3 db3].
  apply bind_ext; [etransitivity; [apply silent_section | reflexivity] | intros c4 db4].
  apply bind_ext; [etransitivity; [apply beneficiary_section | reflexivity] | intros [] db5].
  reflexivity.
Qed.

(** A run whose save fails raises the error of the save and writes
    nothing. *)
Lemma process_checkin_save_fails (checkin : MonthlyCheckin.t) (db : Database)
    (e : Exception) :
  save_error (MonthlyCheckin.release_profile checkin) db = Some e ->
  process_checkin checkin db = (db, inl e).
Proof. intros H. rewrite process_checkin_sections, H. reflexivity. Qed.

(** After the save, the run is the policy and the notification. *)
Lemma process_checkin_saved (checkin : MonthlyCheckin.t) (db : Database) :
  can_save (MonthlyCheckin.release_profile checkin) db ->
  process_checkin checkin db
  = bind (policy checkin (saved_profile checkin))
         (fun created_tickets =>
            bind (notify_beneficiary checkin)
                 (fun _ => ret (result_of checkin created_tickets)))
         (after_save checkin db).
Proof.
  intros H. apply save_error_None in H.
  rewrite process_checkin_sections, H. reflexivity.
Qed.

Lemma psychological_alert_saved (checkin : MonthlyCheckin.t) :
  psychological_alert (saved_profile checkin)
  = psychological_alert (MonthlyCheckin.release_profile checkin).
Proof.
  unfold psychological_alert, caseworker_link.
  rewrite saved_profile_assigned_case_worker, saved_profile_user, saved_profile_id.
  reflexivity.
Qed.

Lemma housing_alert_saved (checkin : MonthlyCheckin.t) :
  housing_alert (saved_profile checkin)
  = housing_alert (MonthlyCheckin.release_profile checkin).
Proof.
  unfold housing_alert, caseworker_link.
  rewrite saved_profile_assigned_case_worker, saved_profile_user, saved_profile_id.
  reflexivity.
Qed.

Lemma unambiguous_for_after_save (checkin : MonthlyCheckin.t) (db : Database) :
  unambiguous_for checkin (saved_profile checkin) (after_save checkin db)
  <-> lookups_unambiguous checkin db.
Proof.
  unfold unambiguous_for, lookups_unambiguous. rewrite saved_profile_id.
  reflexivity.
Qed.

(** [process_checkin] in closed form, when the profile can be saved and
    every triggered lookup finds at most one open automatic ticket. *)
Lemma process_checkin_run (checkin : MonthlyCheckin.t) (db : Database) :
  can_save (MonthlyCheckin.release_profile checkin) db ->
  lookups_unambiguous checkin db ->
  process_checkin checkin db
  = (final_db checkin db, inr (result_of checkin (expected_tickets checkin db))).
Proof.
  intros Hs H. apply unambiguous_for_after_save in H.
  rewrite (process_checkin_saved _ _ Hs).
  erewrite bind_run by (apply policy_run; exact H).
  unfold notify_beneficiary, bind, ret. rewrite extend_extend.
  rewrite psychological_alert_saved, housing_alert_saved, !saved_profile_id.
  unfold final_db, expected_tickets, expected_alerts, extend, after_save, creates,
    open_auto_tickets.
  simpl. rewrite saved_profile_id, !app_nil_r, <- !app_assoc. reflexivity.
Qed.

(** It returns only then: otherwise [save] or [get_or_create] raises. *)
Lemma process_checkin_returns_saved (checkin : MonthlyCheckin.t) (db db' : Database)
    (r : ProcessingResult) :
  process_checkin checkin db = (db', inr r) ->
  can_save (MonthlyCheckin.release_profile checkin) db.
Proof.
  rewrite process_checkin_sections. intros H. apply save_error_None.
  destruct (save_error (MonthlyCheckin.release_profile checkin) db) as [e |];
    [discriminate H | reflexivity].
Qed.

Lemma process_checkin_returns (checkin : MonthlyCheckin.t) (db db' : Database)
    (r : ProcessingResult) :
  process_checkin checkin db = (db', inr r) -> lookups_unambiguous checkin db.
Proof.
  intros H. pose proof (process_checkin_returns_saved _ _ _ _ H) as Hs.
  rewrite (process_checkin_saved _ _ Hs) in H.
  apply bind_returns in H as (db1 & created & H & _).
  apply policy_returns in H. apply unambiguous_for_after_save. exact H.
Qed.

Lemma at_most_one_unambiguous (checkin : MonthlyCheckin.t) (db : Database) :
  at_most_one_open_auto_ticket db -> lookups_unambiguous checkin db.
Proof.
  intros H. unfold lookups_unambiguous. repeat split; intros _; apply H.
Qed.

(** What a returning run did. *)
Lemma process_checkin_inv (checkin : MonthlyCheckin.t) (db db' : Database)
    (r : ProcessingResult) :
  process_checkin checkin db = (db', inr r) ->
  db' = final_db checkin db /\ r = result_of checkin (expected_tickets checkin db).
Proof.
  intros H. pose proof (process_checkin_returns _ _ _ _ H) as Hu.
  pose proof (process_checkin_returns_saved _ _ _ _ H) as Hs.
  rewrite (process_checkin_run _ _ Hs Hu) in H. injection H as <- <-.
  split; reflexivity.
Qed.

(** Saving again what a run saved: the row is the profile's own. *)
Lemma can_save_final_db (checkin : MonthlyCheckin.t) (db : Database) :
  can_save (MonthlyCheckin.release_profile checkin) db ->
  can_save (saved_profile checkin) (final_db checkin db).
Proof.
  intros [(d & Hd & Hr) Hu]. split.
  - clear Hu Hr. unfold has_valid_dates, saved_profile.
    destruct (MonthlyCheckin.release_profile checkin) as [i u rd ed rl c n a ic].
    simpl in *. subst rd. exists d.
    destruct ed as [e |]; simpl; split; try reflexivity; discriminate.
  - intros pk row Hrow Huser. rewrite saved_profile_id. rewrite saved_profile_user in Huser.
    unfold final_db in Hrow. simpl in Hrow.
    destruct (Z.eq_dec pk (ReleaseProfile.id (MonthlyCheckin.release_profile checkin)))
      as [E | Hne]; [exact E |].
    rewrite lookup_insert_ne in Hrow by congruence.
    exact (Hu pk row Hrow Huser).
Qed.

(** ** Runs that raise *)

Lemma skipn_length_app {A : Type} (l l' : list A) : skipn (length l) (l ++ l') = l'.
Proof. induction l as [| x l IH]; simpl; [reflexivity | exact IH]. Qed.

Lemma extend_fst_bind {A B : Type} (m : M A) (k : A -> M B) (db : Database) :
  fst (bind m k db)
  = match snd (m db) with
    | inr a => fst (k a (fst (m db)))
    | inl _ => fst (m db)
    end.
Proof. unfold bind. destruct (m db) as [db1 [e | a]]; reflexivity. Qed.

Lemma extends_with_bind {A B : Type} P Q (m : M A) (k : A -> M B) :
  extends_with P Q m -> (forall a, extends_with P Q (k a)) ->
  extends_with P Q (bind m k).
Proof.
  intros Hm Hk db. rewrite extend_fst_bind.
  destruct (Hm db) as (ts & ns & E & HP & HQ).
  destruct (snd (m db)) as [e | a].
  - exists ts, ns. repeat split; assumption.
  - destruct (Hk a (fst (m db))) as (ts' & ns' & E' & HP' & HQ').
    exists (ts ++ ts'), (ns ++ ns'). rewrite E', E, extend_extend.
    split; [reflexivity |]. split; apply Forall_app; split; assumption.
Qed.

Lemma extends_with_ret {A : Type} P Q (a : A) : extends_with P Q (ret a).
Proof.
  intros db. exists [], []. rewrite extend_nil. repeat split; constructor.
Qed.

Lemma extends_with_section (P : SupportTicket.t -> Prop) (Q : Notification.t -> Prop)
    (trigger : bool) pid category notes alert created :
  P (auto_ticket pid category notes) -> Forall Q alert ->
  extends_with P Q
    (if trigger then ensure_ticket pid category notes alert created else ret created).
Proof.
  intros HP HQ. destruct trigger; [| apply extends_with_ret].
  intros db. unfold ensure_ticket.
  destruct (open_auto_tickets db pid category) as [| t [| t' l]].
  - exists [auto_ticket pid category notes], alert.
    repeat split; [repeat constructor; exact HP | exact HQ].
  - exists [], []. rewrite extend_nil. repeat split; constructor.
  - exists [], []. rewrite extend_nil. repeat split; constructor.
Qed.

Lemma is_auto_ticket_of_auto_ticket pid category notes :
  is_auto_ticket_of pid (auto_ticket pid category notes).
Proof. repeat split. Qed.

Lemma psychological_alert_is_alert (profile : ReleaseProfile.t) :
  Forall (is_caseworker_alert profile) (psychological_alert profile).
Proof.
  unfold psychological_alert, is_caseworker_alert.
  destruct (ReleaseProfile.assigned_case_worker profile) as [w |]; repeat constructor.
  exists w. split; reflexivity.
Qed.

Lemma housing_alert_is_alert (profile : ReleaseProfile.t) :
  Forall (is_caseworker_alert profile) (housing_alert profile).
Proof.
  unfold housing_alert, is_caseworker_alert.
  destruct (ReleaseProfile.assigned_case_worker profile) as [w |]; repeat constructor.
  exists w. split; reflexivity.
Qed.

Lemma policy_extends (checkin : MonthlyCheckin.t) (profile : ReleaseProfile.t) :
  extends_with (is_auto_ticket_of (ReleaseProfile.id profile))
               (is_caseworker_alert profile) (policy checkin profile).
Proof.
  unfold policy.
  apply extends_with_bind; [| intros c1].
  { apply extends_with_section;
      [apply is_auto_ticket_of_auto_ticket | apply psychological_alert_is_alert]. }
  apply extends_with_bind; [| intros c2].
  { apply extends_with_section;
      [apply is_auto_ticket_of_auto_ticket | apply housing_alert_is_alert]. }
  apply extends_with_bind; [| intros c3].
  { apply extends_with_section; [apply is_auto_ticket_of_auto_ticket | constructor]. }
  apply extends_with_section; [apply is_auto_ticket_of_auto_ticket | constructor].
Qed.

Lemma raises_only_multiple_bind {A B : Type} (m : M A) (k : A -> M B) :
  raises_only_multiple m -> (forall a, raises_only_multiple (k a)) ->
  raises_only_multiple (bind m k).
Proof.
  intros Hm Hk db e. unfold bind. specialize (Hm db).
  destruct (m db) as [db1 [e1 | a]]; simpl in *.
  - intros H. injection H as <-. apply Hm. reflexivity.
  - apply Hk.
Qed.

Lemma raises_only_multiple_section (trigger : bool) pid category notes alert created :
  raises_only_multiple
    (if trigger then ensure_ticket pid category notes alert created else ret created).
Proof.
  intros db e. destruct trigger; [| discriminate]. unfold ensure_ticket.
  destruct (open_auto_tickets db pid category) as [| t [| t' l]]; simpl;
    try discriminate.
  intros H. injection H as <-. reflexivity.
Qed.

Lemma policy_raises_only_multiple (checkin : MonthlyCheckin.t) (profile : ReleaseProfile.t) :
  raises_only_multiple (policy checkin profile).
Proof.
  unfold policy.
  repeat (apply raises_only_multiple_bind;
          [apply raises_only_multiple_section | intros ?]).
  apply raises_only_multiple_section.
Qed.

(** The exceptions of [profile.save()], case by case. *)
Lemma save_error_spec (profile : ReleaseProfile.t) (db : Database) :
  (ReleaseProfile.release_date profile = None ->
   save_error profile db = Some IntegrityError)
  /\ (forall d,
        ReleaseProfile.release_date profile = Some d ->
        ReleaseProfile.end_of_followup_date profile = None ->
        ~ valid_date (d + 365) ->
        save_error profile db = Some OverflowError)
  /\ (has_valid_dates profile ->
      (exists pk row,
         profiles db !! pk = Some row
         /\ pk <> ReleaseProfile.id profile
         /\ User.id (ReleaseProfile.user row) = User.id (ReleaseProfile.user profile)) ->
      save_error profile db = Some IntegrityError).
Proof.
  unfold save_error, has_valid_dates. split; [| split].
  - intros ->. reflexivity.
  - intros d -> -> Hr.
    destruct ((date_min <=? d + 365) && (d + 365 <=? date_max)) eqn:Er; [| reflexivity].
    apply in_date_range in Er. contradiction.
  - intros (d & -> & Hr) Hother. apply user_has_other_profile_true in Hother.
    rewrite Hother.
    destruct (ReleaseProfile.end_of_followup_date profile) as [e |]; [reflexivity |].
    apply in_date_range in Hr; [| reflexivity]. rewrite Hr. reflexivity.
Qed.

(** What [process_checkin] can raise: the error of the save, or, after the
    save, [MultipleObjectsReturned]. *)
Lemma process_checkin_raises (checkin : MonthlyCheckin.t) (db : Database)
    (e : Exception) :
  snd (process_checkin checkin db) = inl e ->
  save_error (MonthlyCheckin.release_profile checkin) db = Some e
  \/ (can_save (MonthlyCheckin.release_profile checkin) db
      /\ e = MultipleObjectsReturned).
Proof.
  rewrite process_checkin_sections.
  destruct (save_error (MonthlyCheckin.release_profile checkin) db) as [e' |] eqn:E.
  - simpl. intros H. injection H as <-. left. reflexivity.
  - intros H. right. split; [apply save_error_None, E |]. revert H.
    apply raises_only_multiple_bind; [apply policy_raises_only_multiple |].
    intros created db1 e1. discriminate.
Qed.

Lemma is_caseworker_alert_saved (checkin : MonthlyCheckin.t) (n : Notification.t) :
  is_caseworker_alert (saved_profile checkin) n ->
  is_caseworker_alert (MonthlyCheckin.release_profile checkin) n.
Proof.
  unfold is_caseworker_alert, caseworker_link.
  rewrite saved_profile_assigned_case_worker, saved_profile_id. tauto.
Qed.

Lemma bind_raises {A B : Type} (m : M A) (k : A -> M B) (db : Database) (e : Exception) :
  snd (bind m k db) = inl e ->
  (forall a db1, exists b, snd (k a db1) = inr b) ->
  snd (m db) = inl e /\ fst (bind m k db) = fst (m db).
Proof.
  unfold bind. intros H Hk. destruct (m db) as [db1 [e1 | a]]; simpl in *.
  - injection H as ->. split; reflexivity.
  - destruct (Hk a db1) as [b Hb]. rewrite Hb in H. discriminate H.
Qed.

Lemma caseworker_link_not_dashboard (profile : ReleaseProfile.t) :
  String.eqb (caseworker_link profile) "/beneficiary/dashboard/" = false.
Proof. reflexivity. Qed.

Lemma filter_dashboard_caseworker_alerts (profile : ReleaseProfile.t)
    (ns : list Notification.t) :
  Forall (is_caseworker_alert profile) ns ->
  List.filter (to_beneficiary_dashboard profile) ns = [].
Proof.
  induction 1 as [| n ns Hn _ IH]; [reflexivity |]. simpl. rewrite IH.
  destruct Hn as (_ & Hlink & _). unfold to_beneficiary_dashboard.
  rewrite Hlink, caseworker_link_not_dashboard, andb_false_r. reflexivity.
Qed.

Lemma filter_to_beneficiary_caseworker_alerts (profile : ReleaseProfile.t)
    (ns : list Notification.t) :
  (forall w,
     ReleaseProfile.assigned_case_worker profile = Some w ->
     User.id w <> User.id (ReleaseProfile.user profile)) ->
  Forall (is_caseworker_alert profile) ns ->
  List.filter (to_beneficiary profile) ns = [].
Proof.
  intros Hw. induction 1 as [| n ns Hn _ IH]; [reflexivity |]. simpl. rewrite IH.
  destruct Hn as ((w & Hassigned & Huser) & _). unfold to_beneficiary.
  rewrite Huser. specialize (Hw w Hassigned). apply Z.eqb_neq in Hw.
  rewrite Hw. reflexivity.
Qed.

(** A run that raises has emitted nothing but alerts to the case worker. *)
Lemma process_checkin_raise_alerts (checkin : MonthlyCheckin.t) (db db' : Database)
    (e : Exception) :
  process_checkin checkin db = (db', inl e) ->
  Forall (is_caseworker_alert (MonthlyCheckin.release_profile checkin))
         (new_notifications db db').
Proof.
  intros H.
  assert (snd (process_checkin checkin db) = inl e) as He by (rewrite H; reflexivity).
  assert (db' = fst (process_checkin checkin db)) as -> by (rewrite H; reflexivity).
  clear H. destruct (process_checkin_raises _ _ _ He) as [Hfail | [Hsave ->]].
  - rewrite (process_checkin_save_fails _ _ _ Hfail). simpl.
    unfold new_notifications. rewrite skipn_all. constructor.
  - rewrite (process_checkin_saved _ _ Hsave) in He |- *.
    apply bind_raises in He as [_ ->];
      [| intros created db1; eexists; reflexivity].
    destruct (policy_extends checkin (saved_profile checkin) (after_save checkin db))
      as (ts & ns & -> & _ & Hns).
    unfold new_notifications, extend, after_save. simpl. rewrite skipn_length_app.
    exact (List.Forall_impl _ (is_caseworker_alert_saved checkin) Hns).
Qed.

(** ** Risk classifier *)

(** C1. The tier of a report: red when the mental state is bad or the
    housing status is homeless, whatever the other fields; otherwise yellow
    when the job status is unemployed, the family status is problematic or
    no_contact, or the mental state is stressed; otherwise green.  A report
    that meets a red and a yellow condition is red. *)
Theorem calculate_risk_level_rules (checkin : MonthlyCheckin.t) :
  ((MonthlyCheckin.mental_state checkin = "bad"
    \/ MonthlyCheckin.housing_status checkin = "homeless") ->
   calculate_risk_level checkin = "red")
  /\ (MonthlyCheckin.mental_state checkin <> "bad" ->
      MonthlyCheckin.housing_status checkin <> "homeless" ->
      (MonthlyCheckin.job_status checkin = "unemployed"
       \/ MonthlyCheckin.family_status checkin = "problematic"
       \/ MonthlyCheckin.mental_state checkin = "stressed"
       \/ MonthlyCheckin.family_status checkin = "no_contact") ->
      calculate_risk_level checkin = "yellow")
  /\ (MonthlyCheckin.mental_state checkin <> "bad" ->
      MonthlyCheckin.housing_status checkin <> "homeless" ->
      MonthlyCheckin.job_status checkin <> "unemployed" ->
      MonthlyCheckin.family_status checkin <> "problematic" ->
      MonthlyCheckin.mental_state checkin <> "stressed" ->
      MonthlyCheckin.family_status checkin <> "no_contact" ->
      calculate_risk_level checkin = "green").
Proof.
  unfold calculate_risk_level, any. simpl.
  destruct (String.eqb_spec (MonthlyCheckin.mental_state checkin) "bad") as [Hb | Hb];
  destruct (String.eqb_spec (MonthlyCheckin.housing_status checkin) "homeless") as [Hh | Hh];
  destruct (String.eqb_spec (MonthlyCheckin.job_status checkin) "unemployed") as [Hj | Hj];
  destruct (String.eqb_spec (MonthlyCheckin.family_status checkin) "problematic") as [Hp | Hp];
  destruct (String.eqb_spec (MonthlyCheckin.mental_state checkin) "stressed") as [Hs | Hs];
  destruct (String.eqb_spec (MonthlyCheckin.family_status checkin) "no_contact") as [Hn | Hn];
  simpl; repeat split; intros; first [reflexivity | congruence | tauto].
Qed.

Lemma calculate_risk_level_green (checkin : MonthlyCheckin.t) :
  MonthlyCheckin.mental_state checkin <> "bad" ->
  MonthlyCheckin.housing_status checkin <> "homeless" ->
  MonthlyCheckin.job_status checkin <> "unemployed" ->
  MonthlyCheckin.family_status checkin <> "problematic" ->
  MonthlyCheckin.mental_state checkin <> "stressed" ->
  MonthlyCheckin.family_status checkin <> "no_contact" ->
  calculate_risk_level checkin = "green".
Proof.
  intros Hb Hh Hj Hp Hs Hn. unfold calculate_risk_level, any. simpl.
  apply String.eqb_neq in Hb, Hh, Hj, Hp, Hs, Hn.
  rewrite Hb, Hh, Hj, Hp, Hs, Hn. reflexivity.
Qed.

Lemma str_in_false (x : string) (xs : list string) :
  str_in x xs = false -> forall y, In y xs -> x <> y.
Proof.
  unfold str_in. intros H y Hy ->.
  assert (existsb (String.eqb y) xs = true) as E.
  { apply existsb_exists. exists y. split; [exact Hy | apply String.eqb_refl]. }
  congruence.
Qed.

(** C10. The classifier is defined on every four strings, not only on the
    enumerated choices: a report none of whose fields is one of its choices
    meets no red and no yellow condition, and its tier is green. *)
Theorem calculate_risk_level_unrecognized (checkin : MonthlyCheckin.t) :
  str_in (MonthlyCheckin.housing_status checkin) MonthlyCheckin.HOUSING_STATUS_CHOICES = false ->
  str_in (MonthlyCheckin.job_status checkin) MonthlyCheckin.JOB_STATUS_CHOICES = false ->
  str_in (MonthlyCheckin.mental_state checkin) MonthlyCheckin.MENTAL_STATE_CHOICES = false ->
  str_in (MonthlyCheckin.family_status checkin) MonthlyCheckin.FAMILY_STATUS_CHOICES = false ->
  calculate_risk_level checkin = "green".
Proof.
  intros Hh Hj Hm Hf.
  pose proof (str_in_false _ _ Hh) as Hh'. pose proof (str_in_false _ _ Hj) as Hj'.
  pose proof (str_in_false _ _ Hm) as Hm'. pose proof (str_in_false _ _ Hf) as Hf'.
  apply calculate_risk_level_green.
  - apply Hm'. simpl. tauto.
  - apply Hh'. simpl. tauto.
  - apply Hj'. simpl. tauto.
  - apply Hf'. simpl. tauto.
  - apply Hm'. simpl. tauto.
  - apply Hf'. simpl. tauto.
Qed.

Lemma calculate_risk_level_unrecognized_witness :
  calculate_risk_level misspelt_checkin = "green".
Proof.
  apply (calculate_risk_level_unrecognized misspelt_checkin); reflexivity.
Defined.

(** ** Programme timeline *)

Lemma month_min_eq : month_min = -121735.
Proof. reflexivity. Qed.

Lemma current_month_range (self : ReleaseProfile.t) (today : Z) :
  valid_date today ->
  (forall d, ReleaseProfile.release_date self = Some d -> valid_date d) ->
  month_min <= current_month self today <= 12.
Proof.
  rewrite month_min_eq. unfold current_month, valid_date, date_min, date_max.
  intros Ht Hd. destruct (ReleaseProfile.release_date self) as [d |].
  - specialize (Hd d eq_refl). cbv zeta. Z.div_mod_to_equations. lia.
  - lia.
Qed.

(** C5 (as the code has it). [current_month] is [0] without a release date
    and otherwise [floor(days / 30) + 1] capped above at 12, with no lower
    clamp: it never exceeds 12; for a release date not after today it lies in
    [[1, 12]] and equals the spec's clamped value; for a release date after
    today it is [0] or negative. *)
Theorem current_month_capped_above (self : ReleaseProfile.t) (today : Z) :
  (ReleaseProfile.release_date self = None -> current_month self today = 0)
  /\ (forall d, ReleaseProfile.release_date self = Some d ->
        current_month self today = Z.min ((today - d) / 30 + 1) 12
        /\ current_month self today <= 12
        /\ (d <= today ->
            1 <= current_month self today
            /\ current_month self today = spec_current_month (Some d) today)
        /\ (today < d -> current_month self today <= 0)).
Proof.
  unfold current_month, spec_current_month. split.
  - intros ->. reflexivity.
  - intros d ->. cbv zeta. repeat split; intros; Z.div_mod_to_equations; lia.
Qed.

(** C5, refuted as stated: for a release date 31 days after today the code
    returns [-1], outside [{0, ..., 12}], where the clamped formula gives 1. *)
Lemma current_month_future_release :
  current_month future_profile 739000 = -1
  /\ spec_current_month (ReleaseProfile.release_date future_profile) 739000 = 1
  /\ ~ (0 <= current_month future_profile 739000 <= 12).
Proof.
  repeat split; try reflexivity. vm_compute. intros [H _]. apply H. reflexivity.
Qed.

Lemma percentage_agrees_from_spec (n : nat) :
  forall lo, percentage_agrees_from n lo = true ->
  forall m, lo <= m < lo + Z.of_nat n -> percentage_agrees m = true.
Proof.
  induction n as [| n IH]; intros lo H m Hm.
  - simpl in Hm. lia.
  - simpl in H. apply andb_true_iff in H as [H0 H1].
    destruct (Z.eq_dec m lo) as [-> | Hne]; [exact H0 |].
    apply (IH (lo + 1) H1). lia.
Qed.

Lemma percentage_agrees_on_months :
  percentage_agrees_from (Z.to_nat (13 - month_min)) month_min = true.
Proof. vm_compute. reflexivity. Qed.

(** C6 (as the code has it). On the dates Python can represent,
    [progress_percentage] is [min(100, int(m / 12 * 100))] for the current
    month [m]: the float product truncated toward zero, which is the
    integer quotient of [m * 100] by 12, not its rounding.  With a release
    date 330 days in the past the month is 12 and the percentage 100. *)
Theorem progress_percentage_truncates (self : ReleaseProfile.t) (today : Z) :
  valid_date today ->
  (forall d, ReleaseProfile.release_date self = Some d -> valid_date d) ->
  progress_percentage self today
  = Some (truncated_percentage (current_month self today))
  /\ (forall d, ReleaseProfile.release_date self = Some d -> today - d = 330 ->
        current_month self today = 12 /\ progress_percentage self today = Some 100).
Proof.
  intros Ht Hd.
  assert (progress_percentage self today
          = Some (truncated_percentage (current_month self today))) as E.
  { pose proof (current_month_range self today Ht Hd) as Hr.
    assert (percentage_agrees (current_month self today) = true) as Ha.
    { apply (percentage_agrees_from_spec _ _ percentage_agrees_on_months).
      rewrite Z2Nat.id by (rewrite month_min_eq; lia). lia. }
    unfold percentage_agrees in Ha. unfold progress_percentage.
    destruct (option_map _ _) as [v |]; [| discriminate Ha].
    apply Z.eqb_eq in Ha. rewrite Ha. reflexivity. }
  split; [exact E |].
  intros d Hrel Hdays.
  assert (current_month self today = 12) as Hm.
  { unfold current_month. rewrite Hrel, Hdays. reflexivity. }
  split; [exact Hm |]. rewrite E, Hm. reflexivity.
Qed.

Lemma progress_percentage_truncates_witness :
  progress_percentage second_month_profile 739030 = Some 16.
Proof.
  refine (proj1 (progress_percentage_truncates second_month_profile 739030 _ _)).
  - unfold valid_date, date_min, date_max. lia.
  - intros d H. injection H as <-. unfold valid_date, date_min, date_max. lia.
Defined.

(** C6, refuted as stated: in the second month the code gives 16, where
    [min(100, round(2 / 12 * 100))] is 17. *)
Lemma progress_percentage_second_month :
  current_month second_month_profile 739030 = 2
  /\ progress_percentage second_month_profile 739030 = Some 16
  /\ spec_progress_percentage (current_month second_month_profile 739030) = 17.
Proof. repeat split; vm_compute; reflexivity. Qed.

(** ** Risk summary *)

Lemma insert_by_month_index_desc_head (c : MonthlyCheckin.t) (l : list MonthlyCheckin.t) :
  head (insert_by_month_index_desc c l)
  = match head l with
    | Some x =>
        if MonthlyCheckin.month_index x <? MonthlyCheckin.month_index c
        then Some c else Some x
    | None => Some c
    end.
Proof.
  destruct l as [| x l']; simpl; [reflexivity |].
  destruct (MonthlyCheckin.month_index x <? MonthlyCheckin.month_index c); reflexivity.
Qed.

Lemma order_by_month_index_desc_head (l : list MonthlyCheckin.t) :
  match head (order_by_month_index_desc l) with
  | Some c =>
      In c l
      /\ forall c', In c' l ->
           MonthlyCheckin.month_index c' <= MonthlyCheckin.month_index c
  | None => l = []
  end.
Proof.
  induction l as [| x l IH]; simpl; [reflexivity |].
  rewrite insert_by_month_index_desc_head.
  destruct (head (order_by_month_index_desc l)) as [c |].
  - destruct IH as [Hin Hmax].
    destruct (Z.ltb_spec (MonthlyCheckin.month_index c) (MonthlyCheckin.month_index x)).
    + split; [left; reflexivity |].
      intros c' [<- | Hc']; [lia |]. specialize (Hmax c' Hc'). lia.
    + split; [right; exact Hin |].
      intros c' [<- | Hc']; [lia |]. apply Hmax, Hc'.
  - subst l. split; [left; reflexivity |].
    intros c' [<- | []]. lia.
Qed.

Lemma get_risk_summary_latest_checkin (profile : ReleaseProfile.t) (db : Database) :
  latest_checkin (get_risk_summary profile db) = first (profile_checkins profile db).
Proof.
  unfold get_risk_summary.
  destruct (first (profile_checkins profile db)) as [c |]; [| reflexivity].
  destruct (String.eqb (MonthlyCheckin.mental_state c) "bad");
  destruct (String.eqb (MonthlyCheckin.housing_status c) "homeless");
  destruct (String.eqb (MonthlyCheckin.job_status c) "unemployed");
  destruct (String.eqb (MonthlyCheckin.family_status c) "problematic");
  destruct (String.eqb (MonthlyCheckin.family_status c) "no_contact");
  reflexivity.
Qed.

(** C7 (as the code has it). [get_risk_summary] summarises the check-in of
    the case with the greatest month index, which [profile.checkins.first()]
    returns under [ordering = ['-month_index']]; when the case has no
    check-in it returns green, no factors and the one recommendation to
    complete the first monthly follow-up. *)
Theorem get_risk_summary_latest_by_month_index (profile : ReleaseProfile.t)
    (db : Database) :
  (case_checkins profile db = [] ->
   get_risk_summary profile db
   = mkRiskSummary "green" [] ["يرجى إكمال أول متابعة شهرية"] None)
  /\ (case_checkins profile db <> [] ->
      exists c,
        latest_checkin (get_risk_summary profile db) = Some c
        /\ In c (case_checkins profile db)
        /\ forall c', In c' (case_checkins profile db) ->
             MonthlyCheckin.month_index c' <= MonthlyCheckin.month_index c).
Proof.
  pose proof (order_by_month_index_desc_head (case_checkins profile db)) as H.
  split.
  - intros E. unfold get_risk_summary, profile_checkins, first.
    fold (case_checkins profile db). rewrite E. reflexivity.
  - intros Hne. rewrite get_risk_summary_latest_checkin.
    unfold profile_checkins, first. fold (case_checkins profile db).
    destruct (head (order_by_month_index_desc (case_checkins profile db))) as [c |].
    + exists c. split; [reflexivity | exact H].
    + contradiction.
Qed.

(** C7, refuted as stated: month 2 is backfilled after month 3 was
    submitted, and the summary still reads month 3, not the check-in
    submitted last; none of the backfilled report's factors is listed. *)
Lemma get_risk_summary_ignores_backfill :
  latest_checkin (get_risk_summary sample_profile backfill_db) = Some later_month_checkin
  /\ spec_latest_checkin sample_profile backfill_db = Some backfilled_checkin
  /\ later_month_checkin <> backfilled_checkin
  /\ factors (get_risk_summary sample_profile backfill_db) = [].
Proof.
  repeat split; try (vm_compute; reflexivity). discriminate.
Qed.

(** ** Case progression *)

Lemma new_tickets_final_db (checkin : MonthlyCheckin.t) (db : Database) :
  new_tickets db (final_db checkin db) = expected_tickets checkin db.
Proof. unfold new_tickets, final_db. simpl. apply skipn_length_app. Qed.

Lemma new_notifications_final_db (checkin : MonthlyCheckin.t) (db : Database) :
  new_notifications db (final_db checkin db)
  = expected_alerts checkin db ++ expected_beneficiary checkin.
Proof. unfold new_notifications, final_db. simpl. apply skipn_length_app. Qed.

Lemma no_open_auto_tickets_nil (db : Database) (pid : Z) (category : string) :
  no_open_auto_tickets db pid -> open_auto_tickets db pid category = [].
Proof.
  intros H. unfold open_auto_tickets.
  destruct (List.filter _ (tickets db)) as [| t l] eqn:E; [reflexivity | exfalso].
  assert (In t (List.filter (ticket_matches pid category "open" true) (tickets db))) as Hin
    by (rewrite E; left; reflexivity).
  apply filter_In in Hin as [Hin Hm]. apply (H t Hin).
  unfold ticket_matches in Hm.
  apply andb_true_iff in Hm as [Hm Ha]. apply andb_true_iff in Hm as [Hm Hs].
  apply andb_true_iff in Hm as [Hp _].
  apply Z.eqb_eq in Hp. apply String.eqb_eq in Hs. apply Bool.eqb_prop in Ha.
  repeat split; assumption.
Qed.

Lemma creates_true_iff (db : Database) (pid : Z) (trigger : bool) (category : string) :
  creates db pid trigger category = true
  <-> trigger = true /\ open_auto_tickets db pid category = [].
Proof.
  unfold creates. destruct trigger, (open_auto_tickets db pid category); simpl;
    split; intros H; try discriminate H; try (destruct H; discriminate);
    try (split; reflexivity); reflexivity.
Qed.

Lemma when_in {A : Type} (b : bool) (x y : A) :
  In x (when b [y]) <-> b = true /\ y = x.
Proof. destruct b; simpl; intuition discriminate. Qed.

Lemma social_trigger_iff (checkin : MonthlyCheckin.t) :
  social_trigger checkin = true
  <-> MonthlyCheckin.family_status checkin = "problematic"
      \/ MonthlyCheckin.family_status checkin = "no_contact".
Proof.
  unfold social_trigger, str_in. simpl.
  rewrite orb_false_r, orb_true_iff, !String.eqb_eq. reflexivity.
Qed.

(** C8. When the case has no open automatic ticket and its profile can be
    saved (it has a release date, an end of follow-up that is set or can be
    computed, and no other profile row belongs to its user),
    [process_checkin] returns, and the tickets it creates are, in this order
    and one at most per category: psychological exactly when the mental state
    is bad, housing exactly when the housing status is homeless, job exactly
    when the job status is unemployed, social exactly when the family status
    is problematic or no_contact; so between zero and four tickets. *)
Theorem process_checkin_created_categories (checkin : MonthlyCheckin.t) (db : Database) :
  no_open_auto_tickets db (ReleaseProfile.id (MonthlyCheckin.release_profile checkin)) ->
  can_save (MonthlyCheckin.release_profile checkin) db ->
  exists db' r,
    process_checkin checkin db = (db', inr r)
    /\ new_tickets db db' = created_tickets r
    /\ map SupportTicket.ticket_type (created_tickets r)
       = when (psychological_trigger checkin) ["psychological"]
         ++ when (housing_trigger checkin) ["housing"]
         ++ when (job_trigger checkin) ["job"]
         ++ when (social_trigger checkin) ["social"]
    /\ (In "psychological" (map SupportTicket.ticket_type (created_tickets r))
        <-> MonthlyCheckin.mental_state checkin = "bad")
    /\ (In "housing" (map SupportTicket.ticket_type (created_tickets r))
        <-> MonthlyCheckin.housing_status checkin = "homeless")
    /\ (In "job" (map SupportTicket.ticket_type (created_tickets r))
        <-> MonthlyCheckin.job_status checkin = "unemployed")
    /\ (In "social" (map SupportTicket.ticket_type (created_tickets r))
        <-> MonthlyCheckin.family_status checkin = "problematic"
            \/ MonthlyCheckin.family_status checkin = "no_contact")
    /\ List.NoDup (map SupportTicket.ticket_type (created_tickets r))
    /\ (length (created_tickets r) <= 4)%nat.
Proof.
  intros Hnone Hsave.
  assert (lookups_unambiguous checkin db) as Hu.
  { unfold lookups_unambiguous.
    rewrite !(no_open_auto_tickets_nil _ _ _ Hnone). simpl. repeat split; intros _; lia. }
  exists (final_db checkin db), (result_of checkin (expected_tickets checkin db)).
  split; [exact (process_checkin_run _ _ Hsave Hu) |].
  split; [apply new_tickets_final_db |].
  assert (map SupportTicket.ticket_type (expected_tickets checkin db)
          = when (psychological_trigger checkin) ["psychological"]
            ++ when (housing_trigger checkin) ["housing"]
            ++ when (job_trigger checkin) ["job"]
            ++ when (social_trigger checkin) ["social"]) as E.
  { unfold expected_tickets, creates.
    rewrite !(no_open_auto_tickets_nil _ _ _ Hnone), !andb_true_r.
    destruct (psychological_trigger checkin), (housing_trigger checkin),
      (job_trigger checkin), (social_trigger checkin); reflexivity. }
  simpl created_tickets. rewrite E, <- social_trigger_iff.
  split; [reflexivity |].
  unfold psychological_trigger, housing_trigger, job_trigger.
  repeat split.
  - rewrite !in_app_iff, !when_in, !String.eqb_eq. intuition discriminate.
  - rewrite !in_app_iff, !when_in. intros H. left. rewrite H. split; reflexivity.
  - rewrite !in_app_iff, !when_in, !String.eqb_eq. intuition discriminate.
  - rewrite !in_app_iff, !when_in. intros H. right. left. rewrite H. split; reflexivity.
  - rewrite !in_app_iff, !when_in, !String.eqb_eq. intuition discriminate.
  - rewrite !in_app_iff, !when_in. intros H. right. right. left. rewrite H. split; reflexivity.
  - rewrite !in_app_iff, !when_in, !String.eqb_eq. intuition discriminate.
  - rewrite !in_app_iff, !when_in. intros H. right. right. right. rewrite H. split; reflexivity.
  - destruct (String.eqb (MonthlyCheckin.mental_state checkin) "bad"),
      (String.eqb (MonthlyCheckin.housing_status checkin) "homeless"),
      (String.eqb (MonthlyCheckin.job_status checkin) "unemployed"),
      (social_trigger checkin);
      simpl; repeat constructor; simpl; intuition discriminate.
  - rewrite <- (length_map SupportTicket.ticket_type), E.
    destruct (psychological_trigger checkin), (housing_trigger checkin),
      (job_trigger checkin), (social_trigger checkin); simpl; lia.
Qed.

Lemma process_checkin_created_categories_witness :
  exists db' r,
    process_checkin scenario_checkin empty_db = (db', inr r)
    /\ map SupportTicket.ticket_type (created_tickets r)
       = ["psychological"; "job"; "social"].
Proof.
  destruct (process_checkin_created_categories scenario_checkin empty_db)
    as (db' & r & Hrun & _ & Hcats & _).
  - intros t [].
  - apply save_error_None. vm_compute. reflexivity.
  - exists db', r. split; [exact Hrun | exact Hcats].
Defined.

Lemma keeps_profiles_bind {A B : Type} (m : M A) (k : A -> M B) :
  keeps_profiles m -> (forall a, keeps_profiles (k a)) -> keeps_profiles (bind m k).
Proof.
  intros Hm Hk db. unfold bind. specialize (Hm db).
  destruct (m db) as [db1 [e | a]]; simpl in *; [exact Hm |].
  rewrite Hk. exact Hm.
Qed.

Lemma keeps_profiles_section (trigger : bool) pid category notes alert created :
  keeps_profiles
    (if trigger then ensure_ticket pid category notes alert created else ret created).
Proof.
  intros db. destruct trigger; [| reflexivity]. unfold ensure_ticket.
  destruct (open_auto_tickets db pid category) as [| t [| t' l]]; reflexivity.
Qed.

(** The profile row is written before the ticket policy runs and nothing
    after touches it: once the save went through, the new tier is persisted
    whether or not the run returns. *)
Lemma process_checkin_persists_tier (checkin : MonthlyCheckin.t) (db : Database) :
  can_save (MonthlyCheckin.release_profile checkin) db ->
  profiles (fst (process_checkin checkin db))
    !! ReleaseProfile.id (MonthlyCheckin.release_profile checkin)
  = Some (saved_profile checkin)
  /\ ReleaseProfile.risk_level (saved_profile checkin) = calculate_risk_level checkin.
Proof.
  intros Hsave. split; [| apply saved_profile_risk_level].
  rewrite (process_checkin_saved _ _ Hsave).
  rewrite keeps_profiles_bind.
  - unfold after_save. simpl. rewrite saved_profile_id. apply lookup_insert_eq.
  - unfold policy.
    repeat (apply keeps_profiles_bind; [apply keeps_profiles_section | intros ?]).
    apply keeps_profiles_section.
  - intros created. apply keeps_profiles_bind; [| intros ? ?; reflexivity].
    intros db1. reflexivity.
Qed.

(** C9. When [process_checkin] returns, the profile row of the case holds
    the tier of the report, written whether or not it differs from the old
    one, and the result carries the tier the profile had before the call,
    the tier of the report, whether the two differ, and the tickets this
    call created. *)
Theorem process_checkin_result (checkin : MonthlyCheckin.t) (db db' : Database)
    (r : ProcessingResult) :
  process_checkin checkin db = (db', inr r) ->
  (exists saved,
     profiles db' !! ReleaseProfile.id (MonthlyCheckin.release_profile checkin) = Some saved
     /\ ReleaseProfile.risk_level saved = calculate_risk_level checkin)
  /\ old_risk_level r = ReleaseProfile.risk_level (MonthlyCheckin.release_profile checkin)
  /\ new_risk_level r = calculate_risk_level checkin
  /\ (risk_changed r = true <-> old_risk_level r <> new_risk_level r)
  /\ created_tickets r = new_tickets db db'.
Proof.
  intros H. apply process_checkin_inv in H as [-> ->].
  split; [| split; [| split; [| split]]].
  - exists (saved_profile checkin). split.
    + unfold final_db. simpl. apply lookup_insert_eq.
    + apply saved_profile_risk_level.
  - reflexivity.
  - reflexivity.
  - simpl. rewrite negb_true_iff. apply String.eqb_neq.
  - simpl. symmetry. apply new_tickets_final_db.
Qed.

Lemma process_checkin_result_witness :
  exists db' r,
    process_checkin scenario_checkin empty_db = (db', inr r)
    /\ old_risk_level r = "green" /\ new_risk_level r = "red".
Proof.
  exists (final_db scenario_checkin empty_db),
    (result_of scenario_checkin (expected_tickets scenario_checkin empty_db)).
  assert (process_checkin scenario_checkin empty_db
          = (final_db scenario_checkin empty_db,
             inr (result_of scenario_checkin (expected_tickets scenario_checkin empty_db))))
    as Hrun by (vm_compute; reflexivity).
  split; [exact Hrun |].
  destruct (process_checkin_result _ _ _ _ Hrun) as (_ & Hold & Hnew & _).
  split; [exact Hold | exact Hnew].
Defined.

(** *** Notifications *)

Lemma filter_when {A : Type} (f : A -> bool) (b : bool) (l : list A) :
  List.filter f (when b l) = when b (List.filter f l).
Proof. destruct b; reflexivity. Qed.

Lemma filter_singleton {A : Type} (f : A -> bool) (x : A) :
  List.filter f [x] = if f x then [x] else [].
Proof. reflexivity. Qed.

Lemma caseworker_alert_not_dashboard (profile : ReleaseProfile.t) (user : Z)
    (message : string) :
  to_beneficiary_dashboard profile
    (Notification.mk user message (caseworker_link profile) false) = false.
Proof. apply andb_false_intro2. reflexivity. Qed.

Lemma filter_dashboard_alerts (checkin : MonthlyCheckin.t) (db : Database) :
  List.filter (to_beneficiary_dashboard (MonthlyCheckin.release_profile checkin))
              (expected_alerts checkin db) = [].
Proof.
  unfold expected_alerts. rewrite List.filter_app, !filter_when.
  unfold psychological_alert, housing_alert.
  destruct (ReleaseProfile.assigned_case_worker _) as [w |].
  - rewrite !filter_singleton, !caseworker_alert_not_dashboard, !when_nil. reflexivity.
  - simpl. rewrite !when_nil. reflexivity.
Qed.

Lemma filter_to_beneficiary_alerts (checkin : MonthlyCheckin.t) (db : Database) :
  (forall w,
     ReleaseProfile.assigned_case_worker (MonthlyCheckin.release_profile checkin) = Some w ->
     User.id w <> User.id (ReleaseProfile.user (MonthlyCheckin.release_profile checkin))) ->
  List.filter (to_beneficiary (MonthlyCheckin.release_profile checkin))
              (expected_alerts checkin db) = [].
Proof.
  intros Hw. unfold expected_alerts. rewrite List.filter_app, !filter_when.
  unfold psychological_alert, housing_alert.
  destruct (ReleaseProfile.assigned_case_worker _) as [w |].
  - specialize (Hw w eq_refl). apply Z.eqb_neq in Hw.
    rewrite !filter_singleton. unfold to_beneficiary. simpl Notification.user.
    rewrite Hw, !when_nil. reflexivity.
  - simpl. rewrite !when_nil. reflexivity.
Qed.

Lemma filter_beneficiary_notification (checkin : MonthlyCheckin.t) :
  List.filter (to_beneficiary_dashboard (MonthlyCheckin.release_profile checkin))
              (expected_beneficiary checkin) = expected_beneficiary checkin
  /\ List.filter (to_beneficiary (MonthlyCheckin.release_profile checkin))
                 (expected_beneficiary checkin) = expected_beneficiary checkin.
Proof.
  unfold expected_beneficiary. rewrite !filter_when. simpl.
  unfold to_beneficiary_dashboard, to_beneficiary. simpl.
  rewrite Z.eqb_refl. split; reflexivity.
Qed.

(** The three templates of the beneficiary's message. *)
Lemma risk_message_templates :
  risk_message "green" = "✅ حالتك مستقرة. استمر على هذا النهج!"
  /\ risk_message "yellow" = "⚠️ هناك بعض المخاوف. سيتواصل معك أخصائي قريباً."
  /\ risk_message "red"
     = "🚨 نحتاج للتواصل معك بشكل عاجل. يرجى الانتظار لمكالمة من الأخصائي.".
Proof. repeat split; vm_compute; reflexivity. Qed.

(** C4 (as the code has it). In a run of [process_checkin] that returns,
    the notifications it emits to the beneficiary's dashboard are: none when
    the tier of the report equals the tier the profile had, and exactly one
    when they differ, addressed to the beneficiary and carrying the message
    of the new tier; when the assigned case worker is not the beneficiary,
    these are all the notifications the run addresses to the beneficiary.
    In a run that raises, no notification goes to the beneficiary, also when
    the tier changed.  The new tier is green, yellow or red, and the three
    messages are the texts of [risk_messages]. *)
Theorem process_checkin_beneficiary_notification (checkin : MonthlyCheckin.t)
    (db : Database) :
  (forall db' r,
     process_checkin checkin db = (db', inr r) ->
     old_risk_level r = ReleaseProfile.risk_level (MonthlyCheckin.release_profile checkin)
     /\ new_risk_level r = calculate_risk_level checkin
     /\ List.filter (to_beneficiary_dashboard (MonthlyCheckin.release_profile checkin))
                    (new_notifications db db')
        = when (negb (String.eqb (new_risk_level r) (old_risk_level r)))
               [Notification.mk
                  (User.id (ReleaseProfile.user (MonthlyCheckin.release_profile checkin)))
                  (risk_message (new_risk_level r)) "/beneficiary/dashboard/" false]
     /\ ((forall w,
            ReleaseProfile.assigned_case_worker (MonthlyCheckin.release_profile checkin)
            = Some w ->
            User.id w <> User.id (ReleaseProfile.user (MonthlyCheckin.release_profile checkin))) ->
         List.filter (to_beneficiary (MonthlyCheckin.release_profile checkin))
                     (new_notifications db db')
         = when (negb (String.eqb (new_risk_level r) (old_risk_level r)))
                [Notification.mk
                   (User.id (ReleaseProfile.user (MonthlyCheckin.release_profile checkin)))
                   (risk_message (new_risk_level r)) "/beneficiary/dashboard/" false]))
  /\ (forall db' e,
        process_checkin checkin db = (db', inl e) ->
        List.filter (to_beneficiary_dashboard (MonthlyCheckin.release_profile checkin))
                    (new_notifications db db') = []
        /\ ((forall w,
               ReleaseProfile.assigned_case_worker (MonthlyCheckin.release_profile checkin)
               = Some w ->
               User.id w
               <> User.id (ReleaseProfile.user (MonthlyCheckin.release_profile checkin))) ->
            List.filter (to_beneficiary (MonthlyCheckin.release_profile checkin))
                        (new_notifications db db') = []))
  /\ (calculate_risk_level checkin = "green"
      \/ calculate_risk_level checkin = "yellow"
      \/ calculate_risk_level checkin = "red")
  /\ risk_message "green" = "✅ حالتك مستقرة. استمر على هذا النهج!"
  /\ risk_message "yellow" = "⚠️ هناك بعض المخاوف. سيتواصل معك أخصائي قريباً."
  /\ risk_message "red"
     = "🚨 نحتاج للتواصل معك بشكل عاجل. يرجى الانتظار لمكالمة من الأخصائي.".
Proof.
  split; [| split; [| split]].
  - intros db' r H. apply process_checkin_inv in H as [-> ->].
    rewrite new_notifications_final_db, !List.filter_app.
    destruct (filter_beneficiary_notification checkin) as [Ed Eb].
    split; [reflexivity | split; [reflexivity | split]].
    + rewrite filter_dashboard_alerts, Ed. reflexivity.
    + intros Hw. rewrite (filter_to_beneficiary_alerts _ _ Hw), Eb. reflexivity.
  - intros db' e H. apply process_checkin_raise_alerts in H. split.
    + apply filter_dashboard_caseworker_alerts, H.
    + intros Hw. exact (filter_to_beneficiary_caseworker_alerts _ _ Hw H).
  - destruct (calculate_risk_level_cases checkin) as [E | [E | E]]; rewrite E; auto.
  - exact risk_message_templates.
Qed.

Lemma process_checkin_beneficiary_notification_witness :
  exists db' r,
    process_checkin scenario_checkin empty_db = (db', inr r)
    /\ List.filter (to_beneficiary_dashboard sample_profile)
                   (new_notifications empty_db db')
       = [Notification.mk 1 (risk_message "red") "/beneficiary/dashboard/" false]
    /\ List.filter (to_beneficiary sample_profile) (new_notifications empty_db db')
       = [Notification.mk 1 (risk_message "red") "/beneficiary/dashboard/" false].
Proof.
  exists (final_db scenario_checkin empty_db),
    (result_of scenario_checkin (expected_tickets scenario_checkin empty_db)).
  assert (process_checkin scenario_checkin empty_db
          = (final_db scenario_checkin empty_db,
             inr (result_of scenario_checkin (expected_tickets scenario_checkin empty_db))))
    as Hrun by (vm_compute; reflexivity).
  destruct (proj1 (process_checkin_beneficiary_notification scenario_checkin empty_db)
              _ _ Hrun) as (_ & _ & Hd & Hb).
  split; [exact Hrun |]. split; [exact Hd |].
  apply Hb. intros w Hw. injection Hw as <-. simpl. lia.
Defined.

(** C4, refuted as stated: the case has two open automatic psychological
    tickets, as after a case worker reopens one, and its stored tier is
    green; a report with a bad mental state is red; the run raises
    [MultipleObjectsReturned] from the first lookup, after it has stored the
    red tier, and no notification is emitted: the tier changed and the
    beneficiary is not told. *)
Lemma process_checkin_tier_change_without_message :
  ReleaseProfile.risk_level (MonthlyCheckin.release_profile scenario_checkin) = "green"
  /\ calculate_risk_level scenario_checkin = "red"
  /\ snd (process_checkin scenario_checkin ambiguous_db) = inl MultipleObjectsReturned
  /\ ReleaseProfile.risk_level
       <$> (profiles (fst (process_checkin scenario_checkin ambiguous_db)) !! 7)
     = Some "red"
  /\ notifications (fst (process_checkin scenario_checkin ambiguous_db)) = [].
Proof. repeat split; vm_compute; reflexivity. Qed.

Lemma has_category_expected (checkin : MonthlyCheckin.t) (db : Database) :
  let pid := ReleaseProfile.id (MonthlyCheckin.release_profile checkin) in
  has_category "psychological" (expected_tickets checkin db)
  = creates db pid (psychological_trigger checkin) "psychological"
  /\ has_category "housing" (expected_tickets checkin db)
     = creates db pid (housing_trigger checkin) "housing".
Proof.
  unfold expected_tickets, has_category.
  destruct (creates db _ (psychological_trigger checkin) "psychological"),
    (creates db _ (housing_trigger checkin) "housing"),
    (creates db _ (job_trigger checkin) "job"),
    (creates db _ (social_trigger checkin) "social"); split; reflexivity.
Qed.

(** C2 (as the code has it). In a run of [process_checkin] that returns,
    the alert to the assigned case worker for the psychological (housing)
    rule is emitted exactly when this run created the psychological (housing)
    ticket, that is when the mental state is bad (the housing status is
    homeless) and the case had no open automatic ticket of the category; it
    is skipped when no case worker is assigned.  The notifications of the run
    are these alerts followed by the beneficiary's notification. *)
Theorem process_checkin_alerts_on_creation (checkin : MonthlyCheckin.t)
    (db db' : Database) (r : ProcessingResult) :
  process_checkin checkin db = (db', inr r) ->
  new_notifications db db'
  = when (has_category "psychological" (created_tickets r))
         (psychological_alert (MonthlyCheckin.release_profile checkin))
    ++ when (has_category "housing" (created_tickets r))
         (housing_alert (MonthlyCheckin.release_profile checkin))
    ++ when (negb (String.eqb (new_risk_level r) (old_risk_level r)))
         [beneficiary_notification (MonthlyCheckin.release_profile checkin)
            (new_risk_level r)]
  /\ (has_category "psychological" (created_tickets r) = true
      <-> MonthlyCheckin.mental_state checkin = "bad"
          /\ open_auto_tickets db
               (ReleaseProfile.id (MonthlyCheckin.release_profile checkin))
               "psychological" = [])
  /\ (has_category "housing" (created_tickets r) = true
      <-> MonthlyCheckin.housing_status checkin = "homeless"
          /\ open_auto_tickets db
               (ReleaseProfile.id (MonthlyCheckin.release_profile checkin))
               "housing" = []).
Proof.
  intros H. apply process_checkin_inv in H as [-> ->].
  destruct (has_category_expected checkin db) as [Ep Eh].
  simpl created_tickets. rewrite Ep, Eh, !creates_true_iff.
  unfold psychological_trigger, housing_trigger. rewrite !String.eqb_eq.
  split; [| split; reflexivity].
  rewrite new_notifications_final_db. unfold expected_alerts, expected_beneficiary.
  simpl. rewrite <- app_assoc. reflexivity.
Qed.

Lemma process_checkin_alerts_on_creation_witness :
  exists db' r,
    process_checkin scenario_checkin empty_db = (db', inr r)
    /\ has_category "psychological" (created_tickets r) = true
    /\ new_notifications empty_db db'
       = psychological_alert sample_profile
         ++ [beneficiary_notification sample_profile "red"].
Proof.
  exists (final_db scenario_checkin empty_db),
    (result_of scenario_checkin (expected_tickets scenario_checkin empty_db)).
  assert (process_checkin scenario_checkin empty_db
          = (final_db scenario_checkin empty_db,
             inr (result_of scenario_checkin (expected_tickets scenario_checkin empty_db))))
    as Hrun by (vm_compute; reflexivity).
  split; [exact Hrun |]. split; [reflexivity |].
  exact (proj1 (process_checkin_alerts_on_creation _ _ _ _ Hrun)).
Defined.

(** C2, refuted as stated: the mental state is bad and a case worker is
    assigned, but the case already has an open automatic psychological
    ticket; the run returns, creates nothing and notifies nobody. *)
Lemma process_checkin_no_alert_on_existing_ticket :
  MonthlyCheckin.mental_state repeated_checkin = "bad"
  /\ ReleaseProfile.assigned_case_worker (MonthlyCheckin.release_profile repeated_checkin)
     = Some case_worker
  /\ snd (process_checkin repeated_checkin open_psychological_db)
     = inr (mkProcessingResult "red" "red" false [])
  /\ new_notifications open_psychological_db
       (fst (process_checkin repeated_checkin open_psychological_db)) = [].
Proof. repeat split; vm_compute; reflexivity. Qed.

(** *** Idempotence of the ticket policy *)

Lemma filter_matches_when (b : bool) pid pid' category category' notes :
  List.filter (ticket_matches pid' category "open" true)
              (when b [auto_ticket pid category' notes])
  = when (b && (pid =? pid') && String.eqb category' category)
         [auto_ticket pid category' notes].
Proof.
  destruct b; [| reflexivity]. cbn [when andb]. rewrite filter_singleton.
  unfold ticket_matches, auto_ticket. simpl.
  destruct (pid =? pid'), (String.eqb category' category); reflexivity.
Qed.

Lemma open_auto_tickets_final (checkin : MonthlyCheckin.t) (db : Database) pid' category :
  open_auto_tickets (final_db checkin db) pid' category
  = open_auto_tickets db pid' category
    ++ List.filter (ticket_matches pid' category "open" true)
                   (expected_tickets checkin db).
Proof. unfold open_auto_tickets, final_db. simpl. apply List.filter_app. Qed.

Lemma filter_expected_tickets (checkin : MonthlyCheckin.t) (db : Database) pid' category :
  let pid := ReleaseProfile.id (MonthlyCheckin.release_profile checkin) in
  List.filter (ticket_matches pid' category "open" true) (expected_tickets checkin db)
  = when (creates db pid (psychological_trigger checkin) "psychological"
          && (pid =? pid') && String.eqb "psychological" category)
         [auto_ticket pid "psychological" (psychological_notes checkin)]
    ++ when (creates db pid (housing_trigger checkin) "housing"
             && (pid =? pid') && String.eqb "housing" category)
         [auto_ticket pid "housing" (housing_notes checkin)]
    ++ when (creates db pid (job_trigger checkin) "job"
             && (pid =? pid') && String.eqb "job" category)
         [auto_ticket pid "job" (job_notes checkin)]
    ++ when (creates db pid (social_trigger checkin) "social"
             && (pid =? pid') && String.eqb "social" category)
         [auto_ticket pid "social" (social_notes checkin)].
Proof.
  intros pid. unfold expected_tickets. fold pid.
  rewrite !List.filter_app, !filter_matches_when. reflexivity.
Qed.

Lemma length_when_singleton {A : Type} (b : bool) (x : A) :
  length (when b [x]) = if b then 1%nat else 0%nat.
Proof. destruct b; reflexivity. Qed.

Lemma creates_length (db : Database) pid (trigger : bool) category :
  creates db pid trigger category = true ->
  length (open_auto_tickets db pid category) = 0%nat.
Proof. intros H. apply creates_true_iff in H as [_ ->]. reflexivity. Qed.

(** A run never adds a second open automatic ticket. *)
Lemma open_auto_tickets_final_length (checkin : MonthlyCheckin.t) (db : Database)
    pid' category :
  (length (open_auto_tickets (final_db checkin db) pid' category)
   <= Nat.max 1 (length (open_auto_tickets db pid' category)))%nat.
Proof.
  rewrite open_auto_tickets_final, filter_expected_tickets.
  rewrite !length_app, !length_when_singleton.
  destruct (Z.eqb_spec (ReleaseProfile.id (MonthlyCheckin.release_profile checkin)) pid')
    as [<- | Hne]; [| rewrite !andb_false_r; simpl; lia].
  rewrite !andb_true_r.
  destruct (String.eqb_spec "psychological" category) as [<- | H1].
  { simpl. rewrite !andb_false_r, andb_true_r.
    destruct (creates db _ (psychological_trigger checkin) "psychological") eqn:E;
      [rewrite (creates_length _ _ _ _ E) |]; simpl; lia. }
  destruct (String.eqb_spec "housing" category) as [<- | H2].
  { simpl. rewrite !andb_false_r, andb_true_r.
    destruct (creates db _ (housing_trigger checkin) "housing") eqn:E;
      [rewrite (creates_length _ _ _ _ E) |]; simpl; lia. }
  destruct (String.eqb_spec "job" category) as [<- | H3].
  { simpl. rewrite !andb_false_r, andb_true_r.
    destruct (creates db _ (job_trigger checkin) "job") eqn:E;
      [rewrite (creates_length _ _ _ _ E) |]; simpl; lia. }
  destruct (String.eqb_spec "social" category) as [<- | H4].
  { simpl. rewrite !andb_false_r, andb_true_r.
    destruct (creates db _ (social_trigger checkin) "social") eqn:E;
      [rewrite (creates_length _ _ _ _ E) |]; simpl; lia. }
  rewrite !andb_false_r. simpl. lia.
Qed.

Lemma at_most_one_final_db (checkin : MonthlyCheckin.t) (db : Database) :
  at_most_one_open_auto_ticket db -> at_most_one_open_auto_ticket (final_db checkin db).
Proof.
  intros H pid' category.
  pose proof (open_auto_tickets_final_length checkin db pid' category) as Hl.
  specialize (H pid' category). lia.
Qed.

Ltac creates_after_run :=
  unfold creates at 1;
  rewrite open_auto_tickets_final, filter_expected_tickets;
  simpl String.eqb;
  rewrite Z.eqb_refl, !andb_false_r, !andb_true_r;
  cbn [when]; rewrite ?app_nil_r;
  match goal with
  | |- ?trigger && _ = false =>
      destruct trigger; [| reflexivity];
      unfold creates; cbn [andb];
      match goal with
      | |- context [open_auto_tickets ?db ?pid ?category] =>
          destruct (open_auto_tickets db pid category); reflexivity
      end
  end.

Lemma creates_final_psychological (checkin : MonthlyCheckin.t) (db : Database) :
  creates (final_db checkin db)
    (ReleaseProfile.id (MonthlyCheckin.release_profile checkin))
    (psychological_trigger checkin) "psychological" = false.
Proof. creates_after_run. Qed.

Lemma creates_final_housing (checkin : MonthlyCheckin.t) (db : Database) :
  creates (final_db checkin db)
    (ReleaseProfile.id (MonthlyCheckin.release_profile checkin))
    (housing_trigger checkin) "housing" = false.
Proof. creates_after_run. Qed.

Lemma creates_final_job (checkin : MonthlyCheckin.t) (db : Database) :
  creates (final_db checkin db)
    (ReleaseProfile.id (MonthlyCheckin.release_profile checkin))
    (job_trigger checkin) "job" = false.
Proof. creates_after_run. Qed.

Lemma creates_final_social (checkin : MonthlyCheckin.t) (db : Database) :
  creates (final_db checkin db)
    (ReleaseProfile.id (MonthlyCheckin.release_profile checkin))
    (social_trigger checkin) "social" = false.
Proof. creates_after_run. Qed.

Lemma same_report_triggers (c c' : MonthlyCheckin.t) :
  same_report c c' ->
  psychological_trigger c' = psychological_trigger c
  /\ housing_trigger c' = housing_trigger c
  /\ job_trigger c' = job_trigger c
  /\ social_trigger c' = social_trigger c.
Proof.
  intros (_ & Hh & Hj & Hm & Hf).
  unfold psychological_trigger, housing_trigger, job_trigger, social_trigger.
  rewrite Hh, Hj, Hm, Hf. repeat split; reflexivity.
Qed.

Lemma expected_tickets_second_run (c c' : MonthlyCheckin.t) (db : Database) :
  same_report c c' -> expected_tickets c' (final_db c db) = [].
Proof.
  intros Hs. destruct (same_report_triggers c c' Hs) as (Ep & Eh & Ej & Es).
  destruct Hs as (Hid & _). unfold expected_tickets.
  rewrite <- Hid, Ep, Eh, Ej, Es.
  rewrite creates_final_psychological, creates_final_housing, creates_final_job,
    creates_final_social.
  reflexivity.
Qed.

Lemma lookups_unambiguous_second_run (c c' : MonthlyCheckin.t) (db : Database) :
  same_report c c' -> lookups_unambiguous c db ->
  lookups_unambiguous c' (final_db c db).
Proof.
  intros Hs (H1 & H2 & H3 & H4).
  destruct (same_report_triggers c c' Hs) as (Ep & Eh & Ej & Es).
  destruct Hs as (Hid & _). unfold lookups_unambiguous.
  rewrite <- Hid, Ep, Eh, Ej, Es.
  repeat split; intros Ht;
    match goal with
    | |- (length (open_auto_tickets _ ?pid ?category) <= 1)%nat =>
        pose proof (open_auto_tickets_final_length c db pid category)
    end;
    [specialize (H1 Ht) | specialize (H2 Ht) | specialize (H3 Ht) | specialize (H4 Ht)];
    lia.
Qed.

Lemma process_checkin_cannot_save (checkin : MonthlyCheckin.t) (db : Database) :
  ~ can_save (MonthlyCheckin.release_profile checkin) db ->
  exists e,
    process_checkin checkin db = (db, inl e)
    /\ (e = IntegrityError \/ e = OverflowError).
Proof.
  intros H. apply not_can_save in H as [e He]. exists e. split.
  - apply process_checkin_save_fails, He.
  - exact (save_error_cases _ _ _ He).
Qed.

(** C3. Two calls of [process_checkin] in a row with the same report
    content.  A call whose profile can be saved, on a database with at most
    one open automatic ticket per case and category, returns and leaves such
    a database.  When the first call returns and the profile the second call
    is given can be saved, the second returns too, creates no ticket and
    leaves the ticket table as the first left it, and the invariant holds
    after both.  A call whose profile cannot be saved raises the error of
    the save and writes nothing, so it creates no ticket either.  The
    profile as the first call stored it can be saved. *)
Theorem process_checkin_idempotent (c c' : MonthlyCheckin.t) (db : Database) :
  same_report c c' ->
  (at_most_one_open_auto_ticket db ->
   (can_save (MonthlyCheckin.release_profile c) db ->
    exists db1 r1,
      process_checkin c db = (db1, inr r1) /\ at_most_one_open_auto_ticket db1)
   /\ (~ can_save (MonthlyCheckin.release_profile c) db ->
       exists e,
         process_checkin c db = (db, inl e)
         /\ (e = IntegrityError \/ e = OverflowError)))
  /\ (forall db1 r1,
        process_checkin c db = (db1, inr r1) ->
        (can_save (MonthlyCheckin.release_profile c') db1 ->
         exists db2 r2,
           process_checkin c' db1 = (db2, inr r2)
           /\ created_tickets r2 = []
           /\ tickets db2 = tickets db1
           /\ (at_most_one_open_auto_ticket db1 -> at_most_one_open_auto_ticket db2))
        /\ (~ can_save (MonthlyCheckin.release_profile c') db1 ->
            exists e,
              process_checkin c' db1 = (db1, inl e)
              /\ (e = IntegrityError \/ e = OverflowError))
        /\ (profiles db1 !! ReleaseProfile.id (MonthlyCheckin.release_profile c)
            = Some (MonthlyCheckin.release_profile c') ->
            can_save (MonthlyCheckin.release_profile c') db1)).
Proof.
  intros Hs. split.
  - intros Hinv. split.
    + intros Hsave.
      exists (final_db c db), (result_of c (expected_tickets c db)). split.
      * apply process_checkin_run; [exact Hsave |].
        apply at_most_one_unambiguous, Hinv.
      * apply at_most_one_final_db, Hinv.
    + apply process_checkin_cannot_save.
  - intros db1 r1 Hrun.
    pose proof (process_checkin_returns _ _ _ _ Hrun) as Hu.
    pose proof (process_checkin_returns_saved _ _ _ _ Hrun) as Hsaved.
    apply process_checkin_inv in Hrun as [-> ->].
    split; [| split].
    + intros Hsave.
      exists (final_db c' (final_db c db)),
        (result_of c' (expected_tickets c' (final_db c db))).
      split.
      { apply process_checkin_run; [exact Hsave |].
        apply lookups_unambiguous_second_run; assumption. }
      rewrite (expected_tickets_second_run c c' db Hs).
      split; [reflexivity |]. split.
      * unfold final_db at 1. simpl.
        rewrite (expected_tickets_second_run c c' db Hs). apply app_nil_r.
      * apply at_most_one_final_db.
    + apply process_checkin_cannot_save.
    + intros Hrow. unfold final_db in Hrow. simpl in Hrow.
      rewrite lookup_insert_eq in Hrow. injection Hrow as <-.
      apply (can_save_final_db c db Hsaved).
Qed.

Lemma process_checkin_idempotent_witness :
  exists db1 r1 db2 r2,
    process_checkin scenario_checkin empty_db = (db1, inr r1)
    /\ process_checkin scenario_checkin db1 = (db2, inr r2)
    /\ created_tickets r2 = []
    /\ tickets db2 = tickets db1.
Proof.
  assert (same_report scenario_checkin scenario_checkin) as Hs
    by (repeat split; reflexivity).
  destruct (process_checkin_idempotent scenario_checkin scenario_checkin empty_db Hs)
    as [Hfirst Hsecond].
  destruct Hfirst as [Hfirst _].
  { intros pid category. simpl. lia. }
  destruct Hfirst as (db1 & r1 & Hrun1 & _).
  { apply save_error_None. vm_compute. reflexivity. }
  pose proof (process_checkin_inv _ _ _ _ Hrun1) as [Edb _].
  destruct (Hsecond db1 r1 Hrun1) as (Hreturns & _ & _).
  destruct Hreturns as (db2 & r2 & Hrun2 & Hnone & Hsame & _).
  { rewrite Edb. apply save_error_None. vm_compute. reflexivity. }
  exists db1, r1, db2, r2. repeat split; assumption.
Defined.

(** * Further properties of the code *)

(** ** What [process_checkin] writes, and how it fails *)

(** X1. The outcome of [process_checkin].  When the profile cannot be saved
    the call raises the error of the save and writes nothing: an
    [IntegrityError] when the release date is missing or another profile row
    belongs to the user, an [OverflowError] when the end of the follow-up is
    missing and the release date plus 365 days is not a date.  When the
    profile can be saved, the call returns exactly when no triggered rule
    finds several open automatic tickets of its category for the case, and
    raises [MultipleObjectsReturned] otherwise.  It raises nothing else: the
    lookup [risk_messages[new_risk_level]] never fails with a [KeyError]. *)
Theorem process_checkin_outcome (checkin : MonthlyCheckin.t) (db : Database) :
  (ReleaseProfile.release_date (MonthlyCheckin.release_profile checkin) = None ->
   process_checkin checkin db = (db, inl IntegrityError))
  /\ (forall d,
        ReleaseProfile.release_date (MonthlyCheckin.release_profile checkin) = Some d ->
        ReleaseProfile.end_of_followup_date
          (MonthlyCheckin.release_profile checkin) = None ->
        ~ valid_date (d + 365) ->
        process_checkin checkin db = (db, inl OverflowError))
  /\ (has_valid_dates (MonthlyCheckin.release_profile checkin) ->
      (exists pk row,
         profiles db !! pk = Some row
         /\ pk <> ReleaseProfile.id (MonthlyCheckin.release_profile checkin)
         /\ User.id (ReleaseProfile.user row)
            = User.id (ReleaseProfile.user (MonthlyCheckin.release_profile checkin))) ->
      process_checkin checkin db = (db, inl IntegrityError))
  /\ (can_save (MonthlyCheckin.release_profile checkin) db -> lookups_unambiguous checkin db ->
      exists r, snd (process_checkin checkin db) = inr r)
  /\ (can_save (MonthlyCheckin.release_profile checkin) db -> ~ lookups_unambiguous checkin db ->
      snd (process_checkin checkin db) = inl MultipleObjectsReturned)
  /\ (forall db' r,
        process_checkin checkin db = (db', inr r) ->
        can_save (MonthlyCheckin.release_profile checkin) db /\ lookups_unambiguous checkin db)
  /\ (forall key, snd (process_checkin checkin db) <> inl (KeyError key)).
Proof.
  destruct (save_error_spec (MonthlyCheckin.release_profile checkin) db)
    as (Hnull & Hoverflow & Hunique).
  split; [| split; [| split; [| split; [| split; [| split]]]]].
  - intros H. apply process_checkin_save_fails, Hnull, H.
  - intros d Hd He Hr. apply process_checkin_save_fails. exact (Hoverflow d Hd He Hr).
  - intros Hd Ho. apply process_checkin_save_fails. exact (Hunique Hd Ho).
  - intros Hs H. rewrite (process_checkin_run _ _ Hs H). eexists. reflexivity.
  - intros Hs H. destruct (process_checkin checkin db) as [db' [e | r]] eqn:E.
    + simpl. f_equal.
      destruct (process_checkin_raises checkin db e) as [He | [_ He]].
      * rewrite E. reflexivity.
      * apply save_error_None in Hs. rewrite Hs in He. discriminate He.
      * exact He.
    + exfalso. apply H. apply (process_checkin_returns _ _ _ _ E).
  - intros db' r H. split.
    + exact (process_checkin_returns_saved _ _ _ _ H).
    + exact (process_checkin_returns _ _ _ _ H).
  - intros key H. apply process_checkin_raises in H as [He | [_ He]].
    + apply save_error_cases in He as [He | He]; discriminate He.
    + discriminate He.
Qed.

Lemma process_checkin_outcome_witness :
  process_checkin undated_checkin empty_db = (empty_db, inl IntegrityError)
  /\ process_checkin late_checkin empty_db = (empty_db, inl OverflowError)
  /\ process_checkin scenario_checkin second_profile_db
     = (second_profile_db, inl IntegrityError)
  /\ snd (process_checkin scenario_checkin ambiguous_db) = inl MultipleObjectsReturned.
Proof.
  split; [| split; [| split]].
  - exact (proj1 (process_checkin_outcome undated_checkin empty_db) eq_refl).
  - apply (proj1 (proj2 (process_checkin_outcome late_checkin empty_db)) 3651695);
      [reflexivity | reflexivity |].
    unfold valid_date, date_max. lia.
  - apply (proj1 (proj2 (proj2 (process_checkin_outcome scenario_checkin
                                   second_profile_db)))).
    + exists 739000. split; [reflexivity | discriminate].
    + exists 9, (ReleaseProfile.mk 9 beneficiary (Some 739000) (Some 739365) "green"
                   "jeddah" "" None false).
      split; [reflexivity |]. split; [discriminate | reflexivity].
  - apply (proj1 (proj2 (proj2 (proj2 (proj2 (process_checkin_outcome scenario_checkin
                                                ambiguous_db)))))).
    + apply save_error_None. vm_compute. reflexivity.
    + intros (H & _). specialize (H eq_refl). vm_compute in H. lia.
Defined.

Lemma extends_with_weaken {A : Type} (P P' : SupportTicket.t -> Prop)
    (Q Q' : Notification.t -> Prop) (m : M A) :
  (forall t, P t -> P' t) -> (forall n, Q n -> Q' n) ->
  extends_with P Q m -> extends_with P' Q' m.
Proof.
  intros HP HQ Hm db. destruct (Hm db) as (ts & ns & E & Hts & Hns).
  exists ts, ns. split; [exact E |].
  split; [exact (List.Forall_impl _ HP Hts) | exact (List.Forall_impl _ HQ Hns)].
Qed.

Lemma process_checkin_extends (checkin : MonthlyCheckin.t) (db : Database) :
  can_save (MonthlyCheckin.release_profile checkin) db ->
  exists ts ns,
    fst (process_checkin checkin db) = extend (after_save checkin db) ts ns
    /\ Forall (is_auto_ticket_of
                 (ReleaseProfile.id (MonthlyCheckin.release_profile checkin))) ts
    /\ Forall (fun n =>
                 is_caseworker_alert (MonthlyCheckin.release_profile checkin) n
                 \/ n = beneficiary_notification (MonthlyCheckin.release_profile checkin)
                          (calculate_risk_level checkin)) ns.
Proof.
  intros Hsave. rewrite (process_checkin_saved _ _ Hsave).
  apply (extends_with_bind _ _ (policy checkin (saved_profile checkin))).
  - apply (extends_with_weaken _ _ _ _ _ (fun t H => H)
             (fun n H => or_introl (is_caseworker_alert_saved checkin n H))).
    rewrite <- (saved_profile_id checkin). apply policy_extends.
  - intros created. apply extends_with_bind; [| intros ?; apply extends_with_ret].
    intros db1. exists [], (expected_beneficiary checkin).
    split; [reflexivity |]. split; [constructor |].
    unfold expected_beneficiary. destruct (negb _); cbn [when].
    + apply List.Forall_cons; [right; reflexivity | constructor].
    + constructor.
Qed.

(** X2. What [process_checkin] writes, whether it returns or raises.  When
    the profile cannot be saved, nothing: the database is as before.  When
    it can, the call leaves the check-in table alone, writes one profile row
    (the case's, with the new tier) and only appends to the other two
    tables: existing tickets and notifications are neither changed nor
    removed; every ticket it adds is an open automatic ticket of the case
    without a creator; every notification it adds is an unread alert to the
    assigned case worker or the tier-change message to the beneficiary. *)
Theorem process_checkin_writes (checkin : MonthlyCheckin.t) (db : Database) :
  (~ can_save (MonthlyCheckin.release_profile checkin) db ->
   fst (process_checkin checkin db) = db
   /\ exists e, snd (process_checkin checkin db) = inl e)
  /\ (can_save (MonthlyCheckin.release_profile checkin) db ->
      checkins (fst (process_checkin checkin db)) = checkins db
      /\ profiles (fst (process_checkin checkin db))
         = <[ReleaseProfile.id (MonthlyCheckin.release_profile checkin)
             := saved_profile checkin]> (profiles db)
      /\ exists ts ns,
           tickets (fst (process_checkin checkin db)) = tickets db ++ ts
           /\ notifications (fst (process_checkin checkin db)) = notifications db ++ ns
           /\ Forall (is_auto_ticket_of
                        (ReleaseProfile.id (MonthlyCheckin.release_profile checkin))) ts
           /\ Forall (fun n =>
                        is_caseworker_alert (MonthlyCheckin.release_profile checkin) n
                        \/ n = beneficiary_notification
                                 (MonthlyCheckin.release_profile checkin)
                                 (calculate_risk_level checkin)) ns).
Proof.
  split.
  - intros H. apply process_checkin_cannot_save in H as (e & -> & _).
    split; [reflexivity | exists e; reflexivity].
  - intros Hsave.
    destruct (process_checkin_extends checkin db Hsave) as (ts & ns & E & Hts & Hns).
    rewrite E. unfold extend, after_save. simpl. rewrite saved_profile_id.
    split; [reflexivity |]. split; [reflexivity |].
    exists ts, ns. repeat split; assumption.
Qed.

(** X3. When [process_checkin] raises [MultipleObjectsReturned], the new
    tier is already written to the profile row, and the beneficiary gets no
    tier-change notification: the profile is saved before the ticket policy
    runs, the notification is created after it.  Any other exception is an
    [IntegrityError] or an [OverflowError] of the save itself, and then
    nothing at all is written. *)
Theorem process_checkin_raise_after_save (checkin : MonthlyCheckin.t) (db : Database)
    (e : Exception) :
  snd (process_checkin checkin db) = inl e ->
  (e = MultipleObjectsReturned ->
   profiles (fst (process_checkin checkin db))
     !! ReleaseProfile.id (MonthlyCheckin.release_profile checkin)
   = Some (saved_profile checkin)
   /\ ReleaseProfile.risk_level (saved_profile checkin) = calculate_risk_level checkin
   /\ List.filter (to_beneficiary_dashboard (MonthlyCheckin.release_profile checkin))
                  (new_notifications db (fst (process_checkin checkin db))) = [])
  /\ (e <> MultipleObjectsReturned ->
      (e = IntegrityError \/ e = OverflowError)
      /\ fst (process_checkin checkin db) = db).
Proof.
  intros H. destruct (process_checkin_raises _ _ _ H) as [He | [Hsave ->]].
  - pose proof (save_error_cases _ _ _ He) as Hcases. split.
    + intros ->. destruct Hcases as [Hc | Hc]; discriminate Hc.
    + intros _. split; [exact Hcases |].
      rewrite (process_checkin_save_fails _ _ _ He). reflexivity.
  - split; [intros _ | intros Hne; exfalso; apply Hne; reflexivity].
    destruct (process_checkin_persists_tier checkin db Hsave) as [Hrow Htier].
    split; [exact Hrow |]. split; [exact Htier |].
    rewrite (process_checkin_saved _ _ Hsave) in H |- *.
    apply bind_raises in H as [_ ->];
      [| intros created db1; eexists; reflexivity].
    destruct (policy_extends checkin (saved_profile checkin) (after_save checkin db))
      as (ts & ns & -> & _ & Hns).
    unfold new_notifications, extend, after_save. simpl. rewrite skipn_length_app.
    apply filter_dashboard_caseworker_alerts.
    exact (List.Forall_impl _ (is_caseworker_alert_saved checkin) Hns).
Qed.

Lemma process_checkin_raise_after_save_witness :
  snd (process_checkin scenario_checkin ambiguous_db) = inl MultipleObjectsReturned
  /\ ReleaseProfile.risk_level <$> (profiles (fst (process_checkin scenario_checkin ambiguous_db)) !! 7)
     = Some "red"
  /\ notifications (fst (process_checkin scenario_checkin ambiguous_db)) = [].
Proof.
  assert (snd (process_checkin scenario_checkin ambiguous_db) = inl MultipleObjectsReturned)
    as H by (vm_compute; reflexivity).
  split; [exact H |].
  destruct (proj1 (process_checkin_raise_after_save _ _ _ H) eq_refl) as (Hrow & _ & _).
  split; [| vm_compute; reflexivity].
  change 7 with (ReleaseProfile.id (MonthlyCheckin.release_profile scenario_checkin)).
  rewrite Hrow. reflexivity.
Defined.

(** ** Tiers and tickets *)

Lemma social_trigger_false (checkin : MonthlyCheckin.t) :
  social_trigger checkin = false
  <-> MonthlyCheckin.family_status checkin <> "problematic"
      /\ MonthlyCheckin.family_status checkin <> "no_contact".
Proof.
  unfold social_trigger, str_in. simpl.
  rewrite orb_false_r, orb_false_iff, !String.eqb_neq. reflexivity.
Qed.

(** X4. The tier and the ticket rules agree as follows: a report is red
    exactly when the psychological or the housing rule is triggered; a green
    report triggers no rule; a yellow report triggers no urgent rule, and
    triggers the job or the social rule unless it is yellow only because the
    mental state is stressed, for which no ticket rule exists. *)
Theorem tier_and_triggers (checkin : MonthlyCheckin.t) :
  (calculate_risk_level checkin = "red"
   <-> psychological_trigger checkin = true \/ housing_trigger checkin = true)
  /\ (calculate_risk_level checkin = "green" ->
      psychological_trigger checkin = false /\ housing_trigger checkin = false
      /\ job_trigger checkin = false /\ social_trigger checkin = false)
  /\ (calculate_risk_level checkin = "yellow" ->
      psychological_trigger checkin = false /\ housing_trigger checkin = false
      /\ (job_trigger checkin = true \/ social_trigger checkin = true
          \/ MonthlyCheckin.mental_state checkin = "stressed")).
Proof.
  unfold calculate_risk_level, any, psychological_trigger, housing_trigger,
    job_trigger, social_trigger, str_in. simpl.
  destruct (String.eqb (MonthlyCheckin.mental_state checkin) "bad");
  destruct (String.eqb (MonthlyCheckin.housing_status checkin) "homeless");
  destruct (String.eqb (MonthlyCheckin.job_status checkin) "unemployed");
  destruct (String.eqb (MonthlyCheckin.family_status checkin) "problematic");
  destruct (String.eqb_spec (MonthlyCheckin.mental_state checkin) "stressed");
  destruct (String.eqb (MonthlyCheckin.family_status checkin) "no_contact");
  simpl; intuition (try discriminate; try congruence; auto).
Qed.

(** X5. A green report never reaches [get_or_create]: when its profile can
    be saved, on every database, however many open tickets it holds,
    [process_checkin] returns, creates no ticket, leaves the ticket table as
    it is and alerts no case worker; the only notification it can emit is the
    beneficiary's, when the stored tier was not green. *)
Theorem process_checkin_green (checkin : MonthlyCheckin.t) (db : Database) :
  calculate_risk_level checkin = "green" ->
  can_save (MonthlyCheckin.release_profile checkin) db ->
  exists db' r,
    process_checkin checkin db = (db', inr r)
    /\ created_tickets r = []
    /\ tickets db' = tickets db
    /\ new_notifications db db'
       = when (negb (String.eqb "green"
                       (ReleaseProfile.risk_level (MonthlyCheckin.release_profile checkin))))
              [beneficiary_notification (MonthlyCheckin.release_profile checkin) "green"].
Proof.
  intros Hg Hsave.
  assert (psychological_trigger checkin = false /\ housing_trigger checkin = false
          /\ job_trigger checkin = false /\ social_trigger checkin = false)
    as (H1 & H2 & H3 & H4).
  { revert Hg.
    unfold calculate_risk_level, any, psychological_trigger, housing_trigger,
      job_trigger, social_trigger, str_in. simpl.
    destruct (String.eqb (MonthlyCheckin.mental_state checkin) "bad");
    destruct (String.eqb (MonthlyCheckin.housing_status checkin) "homeless");
    destruct (String.eqb (MonthlyCheckin.job_status checkin) "unemployed");
    destruct (String.eqb (MonthlyCheckin.family_status checkin) "problematic");
    destruct (String.eqb (MonthlyCheckin.mental_state checkin) "stressed");
    destruct (String.eqb (MonthlyCheckin.family_status checkin) "no_contact");
    simpl; intros Hg; try discriminate Hg; repeat split; reflexivity. }
  assert (lookups_unambiguous checkin db) as Hu.
  { unfold lookups_unambiguous. rewrite H1, H2, H3, H4.
    repeat split; intros H; discriminate H. }
  assert (expected_tickets checkin db = []) as Et.
  { unfold expected_tickets, creates. rewrite H1, H2, H3, H4. reflexivity. }
  assert (expected_alerts checkin db = []) as Ea.
  { unfold expected_alerts, creates. rewrite H1, H2. reflexivity. }
  exists (final_db checkin db), (result_of checkin (expected_tickets checkin db)).
  split; [exact (process_checkin_run _ _ Hsave Hu) |].
  split; [exact Et |]. split.
  - unfold final_db. simpl. rewrite Et. apply app_nil_r.
  - rewrite new_notifications_final_db, Ea. unfold expected_beneficiary.
    rewrite Hg. reflexivity.
Qed.

Lemma process_checkin_green_witness :
  exists db' r,
    process_checkin stable_checkin ambiguous_db = (db', inr r)
    /\ created_tickets r = []
    /\ tickets db' = tickets ambiguous_db.
Proof.
  destruct (process_checkin_green stable_checkin ambiguous_db eq_refl)
    as (db' & r & Hrun & Hnone & Hsame & _).
  - apply save_error_None. vm_compute. reflexivity.
  - exists db', r. repeat split; assumption.
Defined.

Ltac ensured_once Hu :=
  intros Ht;
  rewrite open_auto_tickets_final, filter_expected_tickets;
  simpl String.eqb;
  rewrite Z.eqb_refl, !andb_false_r, !andb_true_r;
  cbn [when]; rewrite ?app_nil_r;
  specialize (Hu Ht); unfold creates; rewrite Ht; cbn [andb];
  match goal with
  | |- context [open_auto_tickets ?db ?pid ?category] =>
      destruct (open_auto_tickets db pid category) as [| ? [| ? ?]];
      simpl in Hu |- *; [reflexivity | reflexivity | lia]
  end.

(** X6. After [process_checkin] returns, every triggered rule has exactly
    one open automatic ticket of its category for the case, whether this
    call created it or found it; the open automatic tickets of other cases
    are the same as before. *)
Theorem process_checkin_ensures (checkin : MonthlyCheckin.t) (db db' : Database)
    (r : ProcessingResult) :
  process_checkin checkin db = (db', inr r) ->
  (psychological_trigger checkin = true ->
   length (open_auto_tickets db'
             (ReleaseProfile.id (MonthlyCheckin.release_profile checkin))
             "psychological") = 1%nat)
  /\ (housing_trigger checkin = true ->
      length (open_auto_tickets db'
                (ReleaseProfile.id (MonthlyCheckin.release_profile checkin))
                "housing") = 1%nat)
  /\ (job_trigger checkin = true ->
      length (open_auto_tickets db'
                (ReleaseProfile.id (MonthlyCheckin.release_profile checkin))
                "job") = 1%nat)
  /\ (social_trigger checkin = true ->
      length (open_auto_tickets db'
                (ReleaseProfile.id (MonthlyCheckin.release_profile checkin))
                "social") = 1%nat)
  /\ (forall pid' category,
        pid' <> ReleaseProfile.id (MonthlyCheckin.release_profile checkin) ->
        open_auto_tickets db' pid' category = open_auto_tickets db pid' category).
Proof.
  intros H. pose proof (process_checkin_returns _ _ _ _ H) as (H1 & H2 & H3 & H4).
  apply process_checkin_inv in H as [-> ->].
  split; [ensured_once H1 |]. split; [ensured_once H2 |].
  split; [ensured_once H3 |]. split; [ensured_once H4 |].
  intros pid' category Hne.
  rewrite open_auto_tickets_final, filter_expected_tickets.
  apply not_eq_sym, Z.eqb_neq in Hne.
  rewrite Hne, !andb_false_r. simpl. apply app_nil_r.
Qed.

Lemma process_checkin_ensures_witness :
  length (open_auto_tickets (fst (process_checkin scenario_checkin empty_db)) 7
            "psychological") = 1%nat
  /\ length (open_auto_tickets (fst (process_checkin repeated_checkin open_psychological_db)) 7
               "psychological") = 1%nat.
Proof.
  assert (process_checkin scenario_checkin empty_db
          = (final_db scenario_checkin empty_db,
             inr (result_of scenario_checkin (expected_tickets scenario_checkin empty_db))))
    as Hrun by (vm_compute; reflexivity).
  split.
  - rewrite Hrun. exact (proj1 (process_checkin_ensures _ _ _ _ Hrun) eq_refl).
  - vm_compute. reflexivity.
Defined.

(** ** Tickets outside the policy *)

Lemma outside_policy_no_match (pid : Z) (category : string) (t : SupportTicket.t) :
  outside_policy pid t = true -> ticket_matches pid category "open" true t = false.
Proof.
  unfold outside_policy, ticket_matches. rewrite negb_true_iff.
  destruct (SupportTicket.release_profile t =? pid),
    (String.eqb (SupportTicket.ticket_type t) category),
    (String.eqb (SupportTicket.status t) "open"),
    (Bool.eqb (SupportTicket.is_auto_generated t) true); simpl; congruence.
Qed.

Lemma open_auto_tickets_with_tickets (db : Database) (extra : list SupportTicket.t)
    (pid : Z) (category : string) :
  forallb (outside_policy pid) extra = true ->
  open_auto_tickets (with_tickets db extra) pid category
  = open_auto_tickets db pid category.
Proof.
  intros H. unfold open_auto_tickets, with_tickets. simpl.
  rewrite List.filter_app.
  assert (List.filter (ticket_matches pid category "open" true) extra = []) as ->.
  { induction extra as [| t l IH]; [reflexivity |]. simpl in H |- *.
    apply andb_true_iff in H as [Ht Hl].
    rewrite (outside_policy_no_match _ category _ Ht). apply IH, Hl. }
  apply app_nil_r.
Qed.

Lemma expected_with_tickets (checkin : MonthlyCheckin.t) (db : Database)
    (extra : list SupportTicket.t) :
  forallb (outside_policy (ReleaseProfile.id (MonthlyCheckin.release_profile checkin)))
          extra = true ->
  expected_tickets checkin (with_tickets db extra) = expected_tickets checkin db
  /\ expected_alerts checkin (with_tickets db extra) = expected_alerts checkin db
  /\ (lookups_unambiguous checkin (with_tickets db extra)
      <-> lookups_unambiguous checkin db).
Proof.
  intros H.
  unfold expected_tickets, expected_alerts, lookups_unambiguous, creates.
  rewrite !(open_auto_tickets_with_tickets _ _ _ _ H).
  repeat split; tauto.
Qed.

(** X7. Tickets that are manual, not open, or of another case are
    invisible to the policy: with any such tickets added to the table,
    [process_checkin] returns or raises as without them, returns the same
    result, and creates the same tickets and notifications.  In particular a
    manual ticket of a category never stands in for the automatic one. *)
Theorem process_checkin_ignores_outside_tickets (checkin : MonthlyCheckin.t)
    (db : Database) (extra : list SupportTicket.t) :
  forallb (outside_policy (ReleaseProfile.id (MonthlyCheckin.release_profile checkin)))
          extra = true ->
  snd (process_checkin checkin (with_tickets db extra))
  = snd (process_checkin checkin db)
  /\ (forall db' r,
        process_checkin checkin db = (db', inr r) ->
        new_tickets (with_tickets db extra)
                    (fst (process_checkin checkin (with_tickets db extra)))
        = new_tickets db db'
        /\ new_notifications (with_tickets db extra)
                             (fst (process_checkin checkin (with_tickets db extra)))
           = new_notifications db db').
Proof.
  intros H. destruct (expected_with_tickets checkin db extra H) as (Et & Ea & Hu).
  assert (save_error (MonthlyCheckin.release_profile checkin) (with_tickets db extra)
          = save_error (MonthlyCheckin.release_profile checkin) db) as Es
    by (apply save_error_profiles; reflexivity).
  assert (can_save (MonthlyCheckin.release_profile checkin) (with_tickets db extra)
          <-> can_save (MonthlyCheckin.release_profile checkin) db) as Hc
    by (rewrite <- !save_error_None, Es; reflexivity).
  split.
  - destruct (save_error (MonthlyCheckin.release_profile checkin) db) as [e |] eqn:Ee.
    { rewrite (process_checkin_save_fails _ _ _ Ee).
      rewrite (process_checkin_save_fails _ _ _ Es). reflexivity. }
    apply save_error_None in Ee as Hs. pose proof (proj2 Hc Hs) as Hs2.
    destruct (process_checkin checkin db) as [db' [e | r]] eqn:E.
    + assert (e = MultipleObjectsReturned) as ->.
      { destruct (process_checkin_raises checkin db e) as [He | [_ He]].
        - rewrite E. reflexivity.
        - rewrite Ee in He. discriminate He.
        - exact He. }
      destruct (process_checkin checkin (with_tickets db extra)) as [db2 [e2 | r2]] eqn:E2.
      * simpl. f_equal.
        destruct (process_checkin_raises checkin (with_tickets db extra) e2)
          as [He | [_ He]].
        -- rewrite E2. reflexivity.
        -- rewrite Es in He. discriminate He.
        -- exact He.
      * apply process_checkin_returns, Hu in E2.
        rewrite (process_checkin_run _ _ Hs E2) in E. discriminate E.
    + apply process_checkin_returns in E as Hdb. pose proof Hdb as Hdb2.
      apply Hu in Hdb2.
      rewrite (process_checkin_run _ _ Hs Hdb) in E. injection E as <- <-.
      rewrite (process_checkin_run _ _ Hs2 Hdb2), Et. reflexivity.
  - intros db' r E. apply process_checkin_returns in E as Hdb. pose proof Hdb as Hdb2.
    apply Hu in Hdb2.
    pose proof (process_checkin_returns_saved _ _ _ _ E) as Hs.
    pose proof (proj2 Hc Hs) as Hs2.
    rewrite (process_checkin_run _ _ Hs Hdb) in E. injection E as <- <-.
    rewrite (process_checkin_run _ _ Hs2 Hdb2). simpl fst.
    rewrite !new_tickets_final_db, !new_notifications_final_db, Et, Ea.
    split; reflexivity.
Qed.

Lemma process_checkin_ignores_outside_tickets_witness :
  snd (process_checkin scenario_checkin (with_tickets empty_db unrelated_tickets))
  = snd (process_checkin scenario_checkin empty_db).
Proof.
  exact (proj1 (process_checkin_ignores_outside_tickets scenario_checkin empty_db
                  unrelated_tickets eq_refl)).
Defined.

(** ** Calling again *)

Lemma saved_profile_after_process (checkin : MonthlyCheckin.t) :
  saved_profile (after_process checkin) = saved_profile checkin.
Proof.
  assert (calculate_risk_level (after_process checkin) = calculate_risk_level checkin)
    as Hc by reflexivity.
  unfold saved_profile at 1. rewrite Hc. simpl MonthlyCheckin.release_profile.
  unfold saved_profile. simpl.
  destruct (MonthlyCheckin.release_profile checkin) as [i u rd ed rl c n a ic]. simpl.
  destruct rd as [d |], ed as [e |]; reflexivity.
Qed.

Lemma same_report_after_process (checkin : MonthlyCheckin.t) :
  same_report checkin (after_process checkin).
Proof.
  unfold same_report, after_process. simpl. rewrite saved_profile_id.
  repeat split; reflexivity.
Qed.

(** X8. Calling [process_checkin] again on the same check-in object, whose
    profile object now carries the new tier, changes nothing at all: the
    second call returns old tier = new tier, no change and no created
    ticket, emits no notification, and leaves the database exactly as the
    first call left it. *)
Theorem process_checkin_again (checkin : MonthlyCheckin.t) (db db1 : Database)
    (r1 : ProcessingResult) :
  process_checkin checkin db = (db1, inr r1) ->
  process_checkin (after_process checkin) db1
  = (db1, inr (mkProcessingResult (new_risk_level r1) (new_risk_level r1) false [])).
Proof.
  intros H. pose proof (process_checkin_returns _ _ _ _ H) as Hu.
  pose proof (can_save_final_db _ _ (process_checkin_returns_saved _ _ _ _ H)) as Hsave.
  apply process_checkin_inv in H as [-> ->].
  pose proof (same_report_after_process checkin) as Hs.
  rewrite (process_checkin_run (after_process checkin) _ Hsave
             (lookups_unambiguous_second_run _ _ _ Hs Hu)).
  rewrite (expected_tickets_second_run _ _ _ Hs).
  destruct (same_report_triggers _ _ Hs) as (Ep & Eh & _).
  f_equal.
  - unfold final_db at 1. rewrite (expected_tickets_second_run _ _ _ Hs).
    unfold expected_alerts, expected_beneficiary.
    simpl MonthlyCheckin.release_profile. rewrite Ep, Eh, saved_profile_id.
    rewrite creates_final_psychological, creates_final_housing.
    rewrite saved_profile_after_process, saved_profile_risk_level.
    change (calculate_risk_level (after_process checkin))
      with (calculate_risk_level checkin).
    rewrite String.eqb_refl. cbn [when negb app].
    unfold final_db. simpl. rewrite insert_insert_eq, !app_nil_r. reflexivity.
  - unfold result_of. simpl. rewrite saved_profile_risk_level.
    change (calculate_risk_level (after_process checkin))
      with (calculate_risk_level checkin).
    rewrite String.eqb_refl. reflexivity.
Qed.

Lemma process_checkin_again_witness :
  process_checkin (after_process scenario_checkin)
    (fst (process_checkin scenario_checkin empty_db))
  = (fst (process_checkin scenario_checkin empty_db),
     inr (mkProcessingResult "red" "red" false [])).
Proof.
  assert (process_checkin scenario_checkin empty_db
          = (final_db scenario_checkin empty_db,
             inr (result_of scenario_checkin (expected_tickets scenario_checkin empty_db))))
    as Hrun by (vm_compute; reflexivity).
  rewrite Hrun. exact (process_checkin_again _ _ _ _ Hrun).
Defined.

(** ** A sequence of submissions *)

Lemma process_all_cons (checkin : MonthlyCheckin.t) (rest : list MonthlyCheckin.t)
    (db db1 db2 : Database) (r : ProcessingResult) (rs : list ProcessingResult) :
  process_checkin checkin db = (db1, inr r) ->
  process_all rest db1 = (db2, inr rs) ->
  process_all (checkin :: rest) db = (db2, inr (r :: rs)).
Proof.
  intros H1 H2. simpl. unfold bind. rewrite H1, H2. reflexivity.
Qed.

Lemma final_db_other_profile (checkin : MonthlyCheckin.t) (db : Database) (pid : Z) :
  pid <> ReleaseProfile.id (MonthlyCheckin.release_profile checkin) ->
  profiles (final_db checkin db) !! pid = profiles db !! pid.
Proof.
  intros Hne. unfold final_db. simpl. apply lookup_insert_ne. congruence.
Qed.

Lemma one_profile_per_user_step (c0 : MonthlyCheckin.t) (rest : list MonthlyCheckin.t)
    (db : Database) :
  one_profile_per_user db (c0 :: rest) ->
  one_profile_per_user (final_db c0 db) rest.
Proof.
  intros [Hrows Hsubs]. split.
  - intros pk row c Hrow Hin Huser.
    destruct (Z.eq_dec pk (ReleaseProfile.id (MonthlyCheckin.release_profile c0)))
      as [-> | Hne].
    + unfold final_db in Hrow. simpl in Hrow. rewrite lookup_insert_eq in Hrow.
      injection Hrow as <-. rewrite saved_profile_user in Huser.
      apply Hsubs; [left; reflexivity | right; exact Hin | exact Huser].
    + rewrite final_db_other_profile in Hrow by exact Hne.
      exact (Hrows pk row c Hrow (or_intror Hin) Huser).
  - intros c c' Hin Hin'. apply Hsubs; right; assumption.
Qed.

(** X9. From a database with at most one open automatic ticket per case and
    category, a sequence of submissions, for any cases, whose profiles have
    the dates the save needs and respect the one profile per user of the
    table, is processed without an exception and ends in such a database;
    the check-in table is untouched; each result carries the tier of its own
    report; and the tier stored for a case at the end is the tier of the last
    report processed for it, whatever came before. *)
Theorem process_all_invariant (submissions : list MonthlyCheckin.t) :
  forall db,
    at_most_one_open_auto_ticket db ->
    Forall (fun c => has_valid_dates (MonthlyCheckin.release_profile c)) submissions ->
    one_profile_per_user db submissions ->
    exists db' rs,
      process_all submissions db = (db', inr rs)
      /\ at_most_one_open_auto_ticket db'
      /\ checkins db' = checkins db
      /\ map new_risk_level rs = map calculate_risk_level submissions
      /\ (forall earlier c later,
            submissions = earlier ++ c :: later ->
            Forall (fun c' =>
                      ReleaseProfile.id (MonthlyCheckin.release_profile c')
                      <> ReleaseProfile.id (MonthlyCheckin.release_profile c)) later ->
            exists saved,
              profiles db' !! ReleaseProfile.id (MonthlyCheckin.release_profile c)
              = Some saved
              /\ ReleaseProfile.risk_level saved = calculate_risk_level c).
Proof.
  induction submissions as [| c0 rest IH]; intros db Hinv Hdates Husers.
  - exists db, []. repeat split; try assumption; try reflexivity.
    intros earlier c later E. destruct earlier; discriminate E.
  - inversion Hdates as [| ? ? Hd0 Hdrest]; subst.
    assert (can_save (MonthlyCheckin.release_profile c0) db) as Hsave.
    { split; [exact Hd0 |]. intros pk row Hrow Huser.
      exact (proj1 Husers pk row c0 Hrow (or_introl eq_refl) Huser). }
    pose proof (process_checkin_run c0 db Hsave (at_most_one_unambiguous _ _ Hinv))
      as Hrun.
    destruct (IH (final_db c0 db) (at_most_one_final_db _ _ Hinv) Hdrest
                (one_profile_per_user_step _ _ _ Husers))
      as (db' & rs & Hall & Hinv' & Hch & Htiers & Hlast).
    exists db', (result_of c0 (expected_tickets c0 db) :: rs).
    split; [exact (process_all_cons _ _ _ _ _ _ _ Hrun Hall) |].
    split; [exact Hinv' |]. split; [exact Hch |].
    split; [simpl; rewrite Htiers; reflexivity |].
    intros earlier c later E Hlater.
    destruct earlier as [| c1 earlier]; simpl in E; injection E as E0 E.
    + subst c0 rest.
      assert (profiles db' !! ReleaseProfile.id (MonthlyCheckin.release_profile c)
              = profiles (final_db c db)
                  !! ReleaseProfile.id (MonthlyCheckin.release_profile c)) as Hsame.
      { clear - Hall Hlater. revert db' rs Hall. generalize (final_db c db) as d.
        induction later as [| c' later IHl]; intros d db' rs Hall.
        - simpl in Hall. injection Hall as <- _. reflexivity.
        - simpl in Hall. apply bind_returns in Hall as (d1 & r1 & Hc' & Hall).
          apply bind_returns in Hall as (d2 & rs2 & Hall & Hret).
          injection Hret as <- _.
          apply process_checkin_inv in Hc' as [-> _].
          inversion Hlater as [| ? ? Hne Hl']; subst.
          rewrite (IHl Hl' _ _ _ Hall). apply final_db_other_profile.
          congruence. }
      rewrite Hsame. exists (saved_profile c). split.
      * unfold final_db. simpl. apply lookup_insert_eq.
      * apply saved_profile_risk_level.
    + subst rest. apply (Hlast earlier c later eq_refl Hlater).
Qed.

Lemma process_all_invariant_witness :
  exists db' rs,
    process_all [scenario_checkin; stable_checkin] empty_db = (db', inr rs)
    /\ map new_risk_level rs = ["red"; "green"]
    /\ (exists saved, profiles db' !! 7 = Some saved
                      /\ ReleaseProfile.risk_level saved = "green").
Proof.
  destruct (process_all_invariant [scenario_checkin; stable_checkin] empty_db)
    as (db' & rs & Hall & _ & _ & Htiers & Hlast).
  { intros pid category. simpl. lia. }
  { assert (has_valid_dates sample_profile) as Hd
      by (exists 739000; split; [reflexivity | discriminate]).
    apply List.Forall_cons; [exact Hd |].
    apply List.Forall_cons; [exact Hd | apply List.Forall_nil]. }
  { split.
    - intros pk row c Hrow. simpl in Hrow. rewrite lookup_empty in Hrow.
      discriminate Hrow.
    - intros c c' [<- | [<- | []]] [<- | [<- | []]] _; reflexivity. }
  exists db', rs. split; [exact Hall |]. split; [exact Htiers |].
  apply (Hlast [scenario_checkin] stable_checkin [] eq_refl). constructor.
Defined.

(** ** The factors of the risk summary *)

Ltac summary_case :=
  simpl; repeat split; intros;
  first [ reflexivity | lia | discriminate | congruence
        | simpl in *; intuition (first [discriminate | congruence]) ].

(** X10. When the case has a check-in, the summary lists one factor and one
    recommendation for each of five conditions of the latest check-in, in
    the source's order: bad mental state, homeless, unemployed, problematic
    family, no family contact.  So the two lists have the same length, at
    most four; they are empty exactly when none of the five holds, which
    includes a report that is yellow only for a stressed mental state.  The
    tier shown is the one stored on the profile passed in. *)
Theorem get_risk_summary_factors (profile : ReleaseProfile.t) (db : Database)
    (c : MonthlyCheckin.t) :
  latest_checkin (get_risk_summary profile db) = Some c ->
  summary_risk_level (get_risk_summary profile db) = ReleaseProfile.risk_level profile
  /\ length (factors (get_risk_summary profile db))
     = length (recommendations (get_risk_summary profile db))
  /\ (length (factors (get_risk_summary profile db)) <= 4)%nat
  /\ (In "الحالة النفسية سيئة" (factors (get_risk_summary profile db))
      <-> MonthlyCheckin.mental_state c = "bad")
  /\ (In "بدون مأوى" (factors (get_risk_summary profile db))
      <-> MonthlyCheckin.housing_status c = "homeless")
  /\ (In "عاطل عن العمل" (factors (get_risk_summary profile db))
      <-> MonthlyCheckin.job_status c = "unemployed")
  /\ (In "مشكلات عائلية" (factors (get_risk_summary profile db))
      <-> MonthlyCheckin.family_status c = "problematic")
  /\ (In "انقطاع التواصل الأسري" (factors (get_risk_summary profile db))
      <-> MonthlyCheckin.family_status c = "no_contact")
  /\ (factors (get_risk_summary profile db) = []
      <-> MonthlyCheckin.mental_state c <> "bad"
          /\ MonthlyCheckin.housing_status c <> "homeless"
          /\ MonthlyCheckin.job_status c <> "unemployed"
          /\ MonthlyCheckin.family_status c <> "problematic"
          /\ MonthlyCheckin.family_status c <> "no_contact").
Proof.
  intros H. rewrite get_risk_summary_latest_checkin in H.
  unfold get_risk_summary. rewrite H.
  destruct (String.eqb_spec (MonthlyCheckin.mental_state c) "bad");
  destruct (String.eqb_spec (MonthlyCheckin.housing_status c) "homeless");
  destruct (String.eqb_spec (MonthlyCheckin.job_status c) "unemployed");
  destruct (String.eqb_spec (MonthlyCheckin.family_status c) "problematic");
  destruct (String.eqb_spec (MonthlyCheckin.family_status c) "no_contact");
  try congruence; summary_case.
Qed.

Lemma get_risk_summary_factors_witness :
  factors (get_risk_summary sample_profile backfill_db) = []
  /\ summary_risk_level (get_risk_summary sample_profile backfill_db) = "green".
Proof.
  assert (latest_checkin (get_risk_summary sample_profile backfill_db)
          = Some later_month_checkin) as H by (vm_compute; reflexivity).
  destruct (get_risk_summary_factors _ _ _ H) as (Htier & _ & _ & _ & _ & _ & _ & _ & Hnil).
  split; [| exact Htier].
  apply Hnil. repeat split; discriminate.
Defined.

(** ** Processing, then summarising *)

Lemma get_risk_summary_frame (p p' : ReleaseProfile.t) (db db' : Database) :
  ReleaseProfile.id p' = ReleaseProfile.id p ->
  checkins db' = checkins db ->
  latest_checkin (get_risk_summary p' db') = latest_checkin (get_risk_summary p db)
  /\ factors (get_risk_summary p' db') = factors (get_risk_summary p db)
  /\ recommendations (get_risk_summary p' db') = recommendations (get_risk_summary p db)
  /\ summary_risk_level (get_risk_summary p' db')
     = match latest_checkin (get_risk_summary p db) with
       | Some _ => ReleaseProfile.risk_level p'
       | None => "green"
       end.
Proof.
  intros Hid Hch. rewrite (get_risk_summary_latest_checkin p db).
  unfold get_risk_summary, profile_checkins. rewrite Hid, Hch.
  destruct (first _) as [c |]; [| repeat split; reflexivity].
  destruct (String.eqb (MonthlyCheckin.mental_state c) "bad");
  destruct (String.eqb (MonthlyCheckin.housing_status c) "homeless");
  destruct (String.eqb (MonthlyCheckin.job_status c) "unemployed");
  destruct (String.eqb (MonthlyCheckin.family_status c) "problematic");
  destruct (String.eqb (MonthlyCheckin.family_status c) "no_contact");
  repeat split; reflexivity.
Qed.

(** X11. After [process_checkin] returns, the summary of the stored profile
    shows the tier of the report just processed (green when the case has no
    check-in in the table), while its latest check-in, factors and
    recommendations are those the table gave before the call:
    [process_checkin] does not touch the check-in table, and the summary
    reads the check-in with the greatest month index, which need not be the
    report that set the tier. *)
Theorem process_checkin_then_summary (checkin : MonthlyCheckin.t) (db db' : Database)
    (r : ProcessingResult) (stored : ReleaseProfile.t) :
  process_checkin checkin db = (db', inr r) ->
  profiles db' !! ReleaseProfile.id (MonthlyCheckin.release_profile checkin) = Some stored ->
  latest_checkin (get_risk_summary stored db')
  = latest_checkin (get_risk_summary (MonthlyCheckin.release_profile checkin) db)
  /\ factors (get_risk_summary stored db')
     = factors (get_risk_summary (MonthlyCheckin.release_profile checkin) db)
  /\ recommendations (get_risk_summary stored db')
     = recommendations (get_risk_summary (MonthlyCheckin.release_profile checkin) db)
  /\ summary_risk_level (get_risk_summary stored db')
     = match latest_checkin (get_risk_summary (MonthlyCheckin.release_profile checkin) db) with
       | Some _ => calculate_risk_level checkin
       | None => "green"
       end.
Proof.
  intros H Hrow. apply process_checkin_inv in H as [-> _].
  unfold final_db in Hrow. simpl in Hrow. rewrite lookup_insert_eq in Hrow.
  injection Hrow as <-.
  destruct (get_risk_summary_frame (MonthlyCheckin.release_profile checkin)
              (saved_profile checkin) db (final_db checkin db)
              (saved_profile_id checkin) eq_refl) as (Hl & Hf & Hr & Ht).
  rewrite saved_profile_risk_level in Ht. repeat split; assumption.
Qed.

Lemma process_checkin_then_summary_witness :
  exists stored,
    profiles (fst backfill_result) !! 7 = Some stored
    /\ summary_risk_level (get_risk_summary stored (fst backfill_result)) = "red"
    /\ factors (get_risk_summary stored (fst backfill_result)) = [].
Proof.
  assert (process_checkin backfilled_checkin backfill_db
          = (final_db backfilled_checkin backfill_db,
             inr (result_of backfilled_checkin
                    (expected_tickets backfilled_checkin backfill_db))))
    as Hrun by (vm_compute; reflexivity).
  assert (profiles (final_db backfilled_checkin backfill_db)
            !! ReleaseProfile.id (MonthlyCheckin.release_profile backfilled_checkin)
          = Some (saved_profile backfilled_checkin)) as Hrow
    by (vm_compute; reflexivity).
  destruct (process_checkin_then_summary _ _ _ _ _ Hrun Hrow) as (_ & Hf & _ & Ht).
  exists (saved_profile backfilled_checkin). unfold backfill_result. rewrite Hrun.
  cbn [fst].
  split; [exact Hrow |]. split; [rewrite Ht | rewrite Hf]; vm_compute; reflexivity.
Defined.

(** ** Saving a profile *)

Lemma ReleaseProfile_save_eq (self : ReleaseProfile.t) (db : Database) :
  ReleaseProfile_save self db
  = match save_error self db with
    | Some e => (db, inl e)
    | None =>
        (mkDatabase (<[ReleaseProfile.id self := with_end_of_followup self]> (profiles db))
                    (checkins db) (tickets db) (notifications db),
         inr (with_end_of_followup self))
    end.
Proof.
  unfold ReleaseProfile_save, save_error, with_end_of_followup, bind,
    date_add_days, Model_save, user_has_other_profile.
  destruct self as [i u rd ed rl c n a ic]. simpl.
  destruct rd as [d |], ed as [e |]; simpl; try reflexivity.
  - destruct (existsb _ _); reflexivity.
  - destruct ((date_min <=? d + 365) && (d + 365 <=? date_max)); simpl; [| reflexivity].
    destruct (existsb _ _); reflexivity.
Qed.

Lemma with_end_of_followup_id (self : ReleaseProfile.t) :
  ReleaseProfile.id (with_end_of_followup self) = ReleaseProfile.id self.
Proof.
  unfold with_end_of_followup.
  destruct (ReleaseProfile.release_date self), (ReleaseProfile.end_of_followup_date self);
    reflexivity.
Qed.

Lemma with_end_of_followup_user (self : ReleaseProfile.t) :
  ReleaseProfile.user (with_end_of_followup self) = ReleaseProfile.user self.
Proof.
  unfold with_end_of_followup.
  destruct (ReleaseProfile.release_date self), (ReleaseProfile.end_of_followup_date self);
    reflexivity.
Qed.

Lemma with_end_of_followup_again (self : ReleaseProfile.t) :
  with_end_of_followup (with_end_of_followup self) = with_end_of_followup self.
Proof.
  destruct self as [i u rd ed rl c n a ic].
  destruct rd as [d |], ed as [e |]; reflexivity.
Qed.

Lemma can_save_again (self : ReleaseProfile.t) (db : Database) :
  can_save self db ->
  can_save (with_end_of_followup self)
    (mkDatabase (<[ReleaseProfile.id self := with_end_of_followup self]> (profiles db))
                (checkins db) (tickets db) (notifications db)).
Proof.
  intros [Hd Hu]. split.
  - clear Hu. destruct Hd as (d & Hd & _). unfold has_valid_dates, with_end_of_followup.
    destruct self as [i u rd ed rl c n a ic]. simpl in *. subst rd. exists d.
    destruct ed as [e |]; simpl; split; try reflexivity; discriminate.
  - intros pk row Hrow Huser.
    rewrite with_end_of_followup_id. rewrite with_end_of_followup_user in Huser.
    simpl in Hrow.
    destruct (Z.eq_dec pk (ReleaseProfile.id self)) as [E | Hne]; [exact E |].
    rewrite lookup_insert_ne in Hrow by congruence.
    exact (Hu pk row Hrow Huser).
Qed.

(** X12. [ReleaseProfile.save].  It raises an [IntegrityError] when the
    profile has no release date, an [OverflowError] when the end of the
    follow-up is missing and the release date plus 365 days is not a date,
    and an [IntegrityError] when another row of the table belongs to the
    profile's user; in each case nothing is written.  Otherwise it writes the
    row under the profile's key and leaves every other row and table alone;
    it sets the end of the follow-up to the release date plus 365 days only
    when none is set; an end date already set is never overwritten; every
    other field is saved as it is; and saving the saved profile again
    changes nothing.  It returns only in that case. *)
Theorem ReleaseProfile_save_once (self : ReleaseProfile.t) (db : Database) :
  (ReleaseProfile.release_date self = None ->
   ReleaseProfile_save self db = (db, inl IntegrityError))
  /\ (forall d,
        ReleaseProfile.release_date self = Some d ->
        ReleaseProfile.end_of_followup_date self = None ->
        ~ valid_date (d + 365) ->
        ReleaseProfile_save self db = (db, inl OverflowError))
  /\ (has_valid_dates self ->
      (exists pk row,
         profiles db !! pk = Some row
         /\ pk <> ReleaseProfile.id self
         /\ User.id (ReleaseProfile.user row) = User.id (ReleaseProfile.user self)) ->
      ReleaseProfile_save self db = (db, inl IntegrityError))
  /\ (can_save self db ->
      exists saved,
        ReleaseProfile_save self db
        = (mkDatabase (<[ReleaseProfile.id self := saved]> (profiles db))
                      (checkins db) (tickets db) (notifications db),
           inr saved)
        /\ ReleaseProfile.set_end_of_followup_date self
             (ReleaseProfile.end_of_followup_date saved) = saved
        /\ (forall e, ReleaseProfile.end_of_followup_date self = Some e ->
                      ReleaseProfile.end_of_followup_date saved = Some e)
        /\ (ReleaseProfile.end_of_followup_date self = None ->
            ReleaseProfile.end_of_followup_date saved
            = option_map (fun d => d + 365) (ReleaseProfile.release_date self))
        /\ ReleaseProfile_save saved (fst (ReleaseProfile_save self db))
           = (fst (ReleaseProfile_save self db), inr saved))
  /\ (forall db' saved,
        ReleaseProfile_save self db = (db', inr saved) -> can_save self db).
Proof.
  destruct (save_error_spec self db) as (Hnull & Hoverflow & Hunique).
  pose proof (ReleaseProfile_save_eq self db) as Heq.
  split; [| split; [| split; [| split]]].
  - intros H. rewrite Heq, (Hnull H). reflexivity.
  - intros d Hd He Hr. rewrite Heq, (Hoverflow d Hd He Hr). reflexivity.
  - intros Hd Ho. rewrite Heq, (Hunique Hd Ho). reflexivity.
  - intros Hsave. pose proof (can_save_again self db Hsave) as Hagain.
    apply save_error_None in Hsave, Hagain. rewrite Hsave in Heq.
    exists (with_end_of_followup self). split; [exact Heq |].
    split; [| split; [| split]].
    + destruct self as [i u rd ed rl c n a ic].
      destruct rd as [d |], ed as [e |]; reflexivity.
    + intros e He. unfold with_end_of_followup. rewrite He.
      destruct (ReleaseProfile.release_date self); exact He.
    + intros He. unfold with_end_of_followup. rewrite He.
      destruct (ReleaseProfile.release_date self); [reflexivity | exact He].
    + rewrite Heq. cbn [fst].
      rewrite ReleaseProfile_save_eq, Hagain.
      rewrite with_end_of_followup_id, with_end_of_followup_again. simpl.
      rewrite insert_insert_eq. reflexivity.
  - intros db' saved H. apply save_error_None. rewrite Heq in H.
    destruct (save_error self db); [discriminate H | reflexivity].
Qed.

Lemma ReleaseProfile_save_once_witness :
  ReleaseProfile_save undated_profile empty_db = (empty_db, inl IntegrityError)
  /\ ReleaseProfile_save late_profile empty_db = (empty_db, inl OverflowError)
  /\ ReleaseProfile_save sample_profile second_profile_db
     = (second_profile_db, inl IntegrityError)
  /\ exists saved,
       snd (ReleaseProfile_save new_profile empty_db) = inr saved
       /\ ReleaseProfile.end_of_followup_date saved = Some 739365.
Proof.
  split; [| split; [| split]].
  - exact (proj1 (ReleaseProfile_save_once undated_profile empty_db) eq_refl).
  - apply (proj1 (proj2 (ReleaseProfile_save_once late_profile empty_db)) 3651695);
      [reflexivity | reflexivity |].
    unfold valid_date, date_max. lia.
  - apply (proj1 (proj2 (proj2 (ReleaseProfile_save_once sample_profile
                                   second_profile_db)))).
    + exists 739000. split; [reflexivity | discriminate].
    + exists 9, (ReleaseProfile.mk 9 beneficiary (Some 739000) (Some 739365) "green"
                   "jeddah" "" None false).
      split; [reflexivity |]. split; [discriminate | reflexivity].
  - destruct (proj1 (proj2 (proj2 (proj2 (ReleaseProfile_save_once new_profile
                                            empty_db)))))
      as (saved & Hrun & _ & _ & Hend & _).
    + apply save_error_None. vm_compute. reflexivity.
    + exists saved. split; [rewrite Hrun; reflexivity | exact (Hend eq_refl)].
Defined.

(** ** The timeline over time *)

(** X13. With a release date, [current_month] is the number of the 30-day
    window the day falls in: it is [k < 12] exactly from day [30 (k - 1)] to
    day [30 k - 1] after the release (also for [k <= 0], before the
    release), and 12 from day 330 on, so month 12 never ends, not even after
    the 365 days of the follow-up.  It never decreases as days pass. *)
Theorem current_month_windows (self : ReleaseProfile.t) (d today : Z) :
  ReleaseProfile.release_date self = Some d ->
  (forall k, k < 12 ->
     (current_month self today = k <-> 30 * (k - 1) <= today - d < 30 * k))
  /\ (current_month self today = 12 <-> 330 <= today - d)
  /\ (forall later, today <= later ->
        current_month self today <= current_month self later).
Proof.
  intros Hd. unfold current_month. rewrite Hd. cbv zeta.
  repeat split; intros; Z.div_mod_to_equations; lia.
Qed.

Lemma current_month_windows_witness :
  current_month sample_profile 739365 = 12 /\ current_month sample_profile 800000 = 12.
Proof.
  destruct (current_month_windows sample_profile 739000 739365 eq_refl) as (_ & H365 & _).
  destruct (current_month_windows sample_profile 739000 800000 eq_refl) as (_ & Hlate & _).
  split; [apply H365 | apply Hlate]; lia.
Defined.

Lemma progress_percentage_eq (self : ReleaseProfile.t) (today : Z) :
  valid_date today ->
  (forall d, ReleaseProfile.release_date self = Some d -> valid_date d) ->
  progress_percentage self today
  = Some (truncated_percentage (current_month self today)).
Proof.
  intros Ht Hd. pose proof (current_month_range self today Ht Hd) as Hr.
  assert (percentage_agrees (current_month self today) = true) as Ha.
  { apply (percentage_agrees_from_spec _ _ percentage_agrees_on_months).
    rewrite Z2Nat.id by (rewrite month_min_eq; lia). lia. }
  unfold percentage_agrees in Ha. unfold progress_percentage.
  destruct (option_map _ _) as [v |]; [| discriminate Ha].
  apply Z.eqb_eq in Ha. rewrite Ha. reflexivity.
Qed.

Lemma truncated_percentage_mono (m m' : Z) :
  m <= m' -> truncated_percentage m <= truncated_percentage m'.
Proof.
  intros H. unfold truncated_percentage.
  apply Z.min_le_compat_l. apply Z.quot_le_mono; lia.
Qed.

(** X14. On the dates Python can represent, [progress_percentage] always
    yields a number, never more than 100; it is 100 exactly in month 12; it
    is at least 8 once the release date is reached and 0 or negative before
    it; and it never decreases as days pass. *)
Theorem progress_percentage_bounds (self : ReleaseProfile.t) (today later : Z) :
  valid_date today -> valid_date later -> today <= later ->
  (forall d, ReleaseProfile.release_date self = Some d -> valid_date d) ->
  exists v v',
    progress_percentage self today = Some v
    /\ progress_percentage self later = Some v'
    /\ v <= v' <= 100
    /\ (v = 100 <-> current_month self today = 12)
    /\ (forall d, ReleaseProfile.release_date self = Some d ->
          (d <= today -> 8 <= v) /\ (today < d -> v <= 0)).
Proof.
  intros Ht Hl Hle Hd.
  exists (truncated_percentage (current_month self today)),
    (truncated_percentage (current_month self later)).
  split; [apply progress_percentage_eq; assumption |].
  split; [apply progress_percentage_eq; assumption |].
  pose proof (current_month_range self today Ht Hd) as [_ Hm].
  pose proof (current_month_range self later Hl Hd) as [_ Hm'].
  assert (current_month self today <= current_month self later) as Hmono.
  { unfold current_month.
    destruct (ReleaseProfile.release_date self) as [d |]; [| lia].
    cbv zeta. Z.div_mod_to_equations. lia. }
  split; [split |].
  - apply truncated_percentage_mono, Hmono.
  - unfold truncated_percentage. lia.
  - split.
    + unfold truncated_percentage. split.
      * intros H.
        assert (100 <= Z.quot (current_month self today * 100) 12) as Hq by lia.
        destruct (Z.eq_dec (current_month self today) 12) as [E | Hne]; [exact E |].
        exfalso.
        assert (Z.quot (current_month self today * 100) 12 <= Z.quot (11 * 100) 12)
          as Hq' by (apply Z.quot_le_mono; lia).
        change (Z.quot (11 * 100) 12) with 91 in Hq'. lia.
      * intros ->. reflexivity.
    + intros d Hrel. unfold current_month. rewrite Hrel. cbv zeta.
      unfold truncated_percentage. split; intros Hcmp.
      * assert (1 <= Z.min ((today - d) / 30 + 1) 12) as H1
          by (Z.div_mod_to_equations; lia).
        assert (Z.quot (1 * 100) 12 <= Z.quot (Z.min ((today - d) / 30 + 1) 12 * 100) 12)
          as Hq by (apply Z.quot_le_mono; lia).
        change (Z.quot (1 * 100) 12) with 8 in Hq. lia.
      * assert (Z.min ((today - d) / 30 + 1) 12 <= 0) as H0
          by (Z.div_mod_to_equations; lia).
        assert (Z.quot (Z.min ((today - d) / 30 + 1) 12 * 100) 12 <= Z.quot (0 * 100) 12)
          as Hq by (apply Z.quot_le_mono; lia).
        change (Z.quot (0 * 100) 12) with 0 in Hq. lia.
Qed.

Lemma progress_percentage_bounds_witness :
  exists v v',
    progress_percentage second_month_profile 739030 = Some v
    /\ progress_percentage second_month_profile 739400 = Some v'
    /\ v <= v' <= 100.
Proof.
  destruct (progress_percentage_bounds second_month_profile 739030 739400)
    as (v & v' & Hv & Hv' & Hle & _).
  - unfold valid_date, date_min, date_max. lia.
  - unfold valid_date, date_min, date_max. lia.
  - lia.
  - intros d H. injection H as <-. unfold valid_date, date_min, date_max. lia.
  - exists v, v'. repeat split; try assumption; apply Hle.
Defined.

(** ** The month list of the dashboard *)

Lemma insert_by_month_index_desc_in (c x : MonthlyCheckin.t) (l : list MonthlyCheckin.t) :
  In x (insert_by_month_index_desc c l) <-> x = c \/ In x l.
Proof.
  induction l as [| y l IH]; simpl.
  - intuition congruence.
  - destruct (MonthlyCheckin.month_index y <? MonthlyCheckin.month_index c); simpl.
    + intuition congruence.
    + rewrite IH. intuition congruence.
Qed.

Lemma order_by_month_index_desc_in (x : MonthlyCheckin.t) (l : list MonthlyCheckin.t) :
  In x (order_by_month_index_desc l) <-> In x l.
Proof.
  induction l as [| y l IH]; simpl; [reflexivity |].
  rewrite insert_by_month_index_desc_in, IH. intuition congruence.
Qed.

Lemma fold_insert_lookup (l : list MonthlyCheckin.t) :
  forall (d : gmap Z MonthlyCheckin.t) i c,
    fold_left (fun d c => <[MonthlyCheckin.month_index c := c]> d) l d !! i = Some c ->
    (In c l /\ MonthlyCheckin.month_index c = i) \/ d !! i = Some c.
Proof.
  induction l as [| x l IH]; intros d i c H; simpl in H; [right; exact H |].
  apply IH in H as [[Hin Hk] | H].
  - left. split; [right; exact Hin | exact Hk].
  - destruct (Z.eq_dec (MonthlyCheckin.month_index x) i) as [E | Hne].
    + subst i. rewrite lookup_insert_eq in H. injection H as <-.
      left. split; [left; reflexivity | reflexivity].
    + rewrite lookup_insert_ne in H by exact Hne. right. exact H.
Qed.

Lemma fold_insert_is_Some (l : list MonthlyCheckin.t) :
  forall (d : gmap Z MonthlyCheckin.t) i,
    (is_Some (d !! i) \/ exists c, In c l /\ MonthlyCheckin.month_index c = i) ->
    is_Some (fold_left (fun d c => <[MonthlyCheckin.month_index c := c]> d) l d !! i).
Proof.
  induction l as [| x l IH]; intros d i H; simpl.
  - destruct H as [H | (c & [] & _)]. exact H.
  - apply IH.
    destruct (Z.eq_dec (MonthlyCheckin.month_index x) i) as [E | Hne].
    + left. subst i. rewrite lookup_insert_eq. eexists. reflexivity.
    + destruct H as [H | (c & [<- | Hin] & Hk)].
      * left. rewrite lookup_insert_ne by exact Hne. exact H.
      * contradiction.
      * right. exists c. split; assumption.
Qed.

Lemma range_1_13 : range 1 13 = [1; 2; 3; 4; 5; 6; 7; 8; 9; 10; 11; 12].
Proof. reflexivity. Qed.

(** X15. The dashboard lists the twelve months 1 to 12 in order, and marks
    each as exactly one of current, past and future; a month is current
    exactly when its number is [current_month], so no month is current, and
    all twelve are future, when [current_month] is 0 or negative (no release
    date, or one still ahead).  A month shows a check-in exactly when the
    case has one with that month index, and the one shown has that index
    and belongs to the case. *)
Theorem dashboard_months_flags (profile : ReleaseProfile.t) (db : Database) (today : Z) :
  map Month.number (dashboard_months profile db today)
  = [1; 2; 3; 4; 5; 6; 7; 8; 9; 10; 11; 12]
  /\ (forall m, In m (dashboard_months profile db today) ->
        Z.b2z (Month.is_current m) + Z.b2z (Month.is_past m) + Z.b2z (Month.is_future m) = 1
        /\ (Month.is_current m = true <-> Month.number m = current_month profile today)
        /\ (Month.is_past m = true <-> Month.number m < current_month profile today)
        /\ (current_month profile today <= 0 -> Month.is_future m = true)
        /\ (forall c, Month.checkin m = Some c ->
              MonthlyCheckin.month_index c = Month.number m
              /\ In c (case_checkins profile db))
        /\ ((exists c, In c (case_checkins profile db)
                       /\ MonthlyCheckin.month_index c = Month.number m)
            -> Month.checkin m <> None)).
Proof.
  unfold dashboard_months. rewrite range_1_13. split; [reflexivity |].
  intros m Hm. apply in_map_iff in Hm as (i & <- & Hi). simpl.
  assert (1 <= i <= 12) as Hrange by (simpl in Hi; lia).
  split; [| split; [| split; [| split; [| split]]]].
  - destruct (Z.eqb_spec i (current_month profile today));
    destruct (Z.ltb_spec i (current_month profile today));
    destruct (Z.gtb_spec i (current_month profile today)); simpl; lia.
  - apply Z.eqb_eq.
  - apply Z.ltb_lt.
  - intros Hcm. destruct (Z.gtb_spec i (current_month profile today)); [reflexivity | lia].
  - intros c Hc. unfold checkins_by_month in Hc.
    apply fold_insert_lookup in Hc as [[Hin Hk] | Hc].
    + split; [exact Hk |]. unfold profile_checkins in Hin.
      apply (proj1 (order_by_month_index_desc_in _ _)) in Hin. exact Hin.
    + rewrite lookup_empty in Hc. discriminate Hc.
  - intros (c & Hin & Hk) Hnone.
    assert (is_Some (checkins_by_month profile db !! i)) as [x Hx].
    { unfold checkins_by_month. apply fold_insert_is_Some. right.
      exists c. split; [| exact Hk]. unfold profile_checkins.
      apply (proj2 (order_by_month_index_desc_in _ _)). exact Hin. }
    rewrite Hx in Hnone. discriminate Hnone.
Qed.

(** ** How many notifications *)

Lemma length_when_le {A : Type} (b : bool) (l : list A) :
  (length (when b l) <= length l)%nat.
Proof. destruct b; simpl; lia. Qed.

Lemma alert_length (profile : ReleaseProfile.t) :
  (length (psychological_alert profile) <= 1)%nat
  /\ (length (housing_alert profile) <= 1)%nat.
Proof.
  unfold psychological_alert, housing_alert.
  destruct (ReleaseProfile.assigned_case_worker profile); simpl; lia.
Qed.

(** X16. A run of [process_checkin] that returns emits at most three
    notifications: at most two alerts to the case worker (job and social
    tickets are created without one) and at most one message to the
    beneficiary.  When no case worker is assigned the alerts are skipped
    without an error, and the tickets are created all the same. *)
Theorem process_checkin_notification_count (checkin : MonthlyCheckin.t)
    (db db' : Database) (r : ProcessingResult) :
  process_checkin checkin db = (db', inr r) ->
  (length (new_notifications db db') <= 3)%nat
  /\ (ReleaseProfile.assigned_case_worker (MonthlyCheckin.release_profile checkin) = None ->
      new_notifications db db'
      = when (negb (String.eqb (new_risk_level r) (old_risk_level r)))
             [beneficiary_notification (MonthlyCheckin.release_profile checkin)
                (new_risk_level r)]
      /\ created_tickets r = expected_tickets checkin db).
Proof.
  intros H. apply process_checkin_inv in H as [-> ->].
  rewrite new_notifications_final_db. split.
  - unfold expected_alerts, expected_beneficiary. rewrite !length_app.
    destruct (alert_length (MonthlyCheckin.release_profile checkin)) as [Hp Hh].
    pose proof (length_when_le
                  (creates db (ReleaseProfile.id (MonthlyCheckin.release_profile checkin))
                     (psychological_trigger checkin) "psychological")
                  (psychological_alert (MonthlyCheckin.release_profile checkin))).
    pose proof (length_when_le
                  (creates db (ReleaseProfile.id (MonthlyCheckin.release_profile checkin))
                     (housing_trigger checkin) "housing")
                  (housing_alert (MonthlyCheckin.release_profile checkin))).
    pose proof (length_when_le
                  (negb (String.eqb (calculate_risk_level checkin)
                           (ReleaseProfile.risk_level
                              (MonthlyCheckin.release_profile checkin))))
                  [beneficiary_notification (MonthlyCheckin.release_profile checkin)
                     (calculate_risk_level checkin)]).
    simpl in *. lia.
  - intros Hnone. split; [| reflexivity].
    unfold expected_alerts, psychological_alert, housing_alert. rewrite Hnone.
    rewrite !when_nil. reflexivity.
Qed.

Lemma process_checkin_notification_count_witness :
  exists db' r,
    process_checkin unassigned_checkin empty_db = (db', inr r)
    /\ map SupportTicket.ticket_type (created_tickets r) = ["psychological"; "housing"]
    /\ new_notifications empty_db db' = [beneficiary_notification future_profile "red"].
Proof.
  exists (final_db unassigned_checkin empty_db),
    (result_of unassigned_checkin (expected_tickets unassigned_checkin empty_db)).
  assert (process_checkin unassigned_checkin empty_db
          = (final_db unassigned_checkin empty_db,
             inr (result_of unassigned_checkin
                    (expected_tickets unassigned_checkin empty_db))))
    as Hrun by (vm_compute; reflexivity).
  split; [exact Hrun |]. split; [reflexivity |].
  exact (proj1 (proj2 (process_checkin_notification_count _ _ _ _ Hrun) eq_refl)).
Defined.
